(** * Beyond Burndown: the Jira issue creation scripts

    A shallow embedding of [scripts/create_jira_issues.py] (REST API v3,
    rich-text description, no pre-flight check) and of
    [scripts/create_jira_issues_v2.py] (REST API v2, plain description,
    project probe), and the properties of their request/response protocol.

    Conventions of the embedding:
    - a Python [str] is held as the bytes of its UTF-8 encoding.  A value
      of the environment that is no UTF-8 comes to Python as a [str] with
      lone surrogates, one for each byte that could not be decoded: it is
      held as the bytes it came from.  So [str.encode()] returns the bytes
      when they are UTF-8 and raises [UnicodeEncodeError] otherwise, and
      [bytes.decode()] returns them when they are UTF-8 and raises
      [UnicodeDecodeError] otherwise;
    - Python exceptions are the constructors of [error] and [exn]; a
      computation either returns or raises; [sys.exit] raises [SystemExit],
      which no library call does;
    - [urlopen] is an oracle: it tells how the call for the n-th request of
      the run ends, with the status and body of the last response (urllib
      follows redirections on its own), with [URLError], or with another
      exception.  [sent] is the log of the requests that the scripts hand
      to [urlopen], not of what urllib puts on the wire for them;
    - [print] adds its line to [stdout] and returns: standard output is
      taken to accept every line, as it does when its error handler
      escapes what it cannot encode;
    - [json.loads], [json.dumps], the interpreter's [str()] of a value
      that is not a string, and the check of the URL that
      [urllib.request.Request] makes are library code: they are the fields
      of [Library], and every property is proved for every library. *)

From Stdlib Require Import String Ascii List ZArith NArith Lia Bool Arith.
From Stdlib Require Import DecimalString.
Import ListNotations.
Local Open Scope list_scope.
Local Open Scope string_scope.

(** ** Strings *)

Definition str := string.
Definition bytes := string.

Definition chr (n : nat) : str := String (ascii_of_nat n) EmptyString.

(** The characters that cannot be written inside a literal. *)
Definition nl : str := chr 10.
Definition dq : str := chr 34.


Definition byte_in (lo hi : N) (c : ascii) : bool :=
  (lo <=? N_of_ascii c)%N && (N_of_ascii c <=? hi)%N.

Definition is_cont (c : ascii) : bool := byte_in 128 191 c.

Fixpoint utf8_valid (s : bytes) : bool :=
  match s with
  | EmptyString => true
  | String a r =>
    if byte_in 0 127 a then utf8_valid r
    else match r with
    | EmptyString => false
    | String b r1 =>
      if byte_in 194 223 a then is_cont b && utf8_valid r1
      else match r1 with
      | EmptyString => false
      | String c r2 =>
        if byte_in 224 239 a then
          (if byte_in 224 224 a then byte_in 160 191 b
           else if byte_in 237 237 a then byte_in 128 159 b
           else is_cont b)
          && is_cont c && utf8_valid r2
        else match r2 with
        | EmptyString => false
        | String d r3 =>
          byte_in 240 244 a
          && (if byte_in 240 240 a then byte_in 144 191 b
              else if byte_in 244 244 a then byte_in 128 143 b
              else is_cont b)
          && is_cont c && is_cont d && utf8_valid r3
        end
      end
    end
  end.

(** [len(s)] and [s[:n]] count code points: a continuation byte stays with
    the byte that leads it. *)
Fixpoint len (s : str) : nat :=
  match s with
  | EmptyString => 0
  | String a r => if is_cont a then len r else S (len r)
  end.

Fixpoint slice_to (n : nat) (s : str) : str :=
  match s with
  | EmptyString => EmptyString
  | String a r =>
    if is_cont a then String a (slice_to n r)
    else match n with
         | O => EmptyString
         | S k => String a (slice_to k r)
         end
  end.

(** [s.rstrip(c)] for a one-character [c]. *)
Fixpoint rstrip (c : ascii) (s : str) : str :=
  match s with
  | EmptyString => EmptyString
  | String a r =>
    match rstrip c r with
    | EmptyString => if Ascii.eqb a c then EmptyString else String a EmptyString
    | r' => String a r'
    end
  end.

(** [c * n] *)
Fixpoint str_mul (c : str) (n : nat) : str :=
  match n with
  | O => EmptyString
  | S k => c ++ str_mul c k
  end.

(** [str(n)] of an int. *)
Definition str_of_int (z : Z) : str := NilZero.string_of_int (Z.to_int z).
Definition str_of_nat (n : nat) : str := str_of_int (Z.of_nat n).

Fixpoint ends_with (c : ascii) (s : str) : bool :=
  match s with
  | EmptyString => false
  | String a EmptyString => Ascii.eqb a c
  | String _ r => ends_with c r
  end.


(** ** Base64 (RFC 4648, the alphabet of [base64.b64encode]) *)

Definition b64_alphabet : str :=
  "ABCDEFGHIJKLMNOPQRSTUVWXYZabcdefghijklmnopqrstuvwxyz0123456789+/".

Definition b64_char (n : N) : ascii :=
  match String.get (N.to_nat n) b64_alphabet with
  | Some c => c
  | None => "="%char
  end.

(** The character of six bits, the most significant first. *)
Definition sextet (b5 b4 b3 b2 b1 b0 : bool) : ascii :=
  b64_char (32 * N.b2n b5 + 16 * N.b2n b4 + 8 * N.b2n b3
            + 4 * N.b2n b2 + 2 * N.b2n b1 + N.b2n b0)%N.

(** Three bytes are twenty-four bits, written as four characters of six
    bits; a last group of one or two bytes is filled with zero bits and
    padded with [=].  ([Ascii] lists the bits of a byte from the least
    significant.) *)
Fixpoint b64encode (s : bytes) : bytes :=
  match s with
  | EmptyString => EmptyString
  | String (Ascii a0 a1 a2 a3 a4 a5 a6 a7) EmptyString =>
    String (sextet a7 a6 a5 a4 a3 a2)
      (String (sextet a1 a0 false false false false) "==")
  | String (Ascii a0 a1 a2 a3 a4 a5 a6 a7)
      (String (Ascii b0 b1 b2 b3 b4 b5 b6 b7) EmptyString) =>
    String (sextet a7 a6 a5 a4 a3 a2)
      (String (sextet a1 a0 b7 b6 b5 b4)
         (String (sextet b3 b2 b1 b0 false false) "="))
  | String (Ascii a0 a1 a2 a3 a4 a5 a6 a7)
      (String (Ascii b0 b1 b2 b3 b4 b5 b6 b7)
         (String (Ascii c0 c1 c2 c3 c4 c5 c6 c7) r)) =>
    String (sextet a7 a6 a5 a4 a3 a2)
      (String (sextet a1 a0 b7 b6 b5 b4)
         (String (sextet b3 b2 b1 b0 c7 c6)
            (String (sextet c5 c4 c3 c2 c1 c0) (b64encode r))))
  end.

(** ** Exceptions and results *)

(** The exceptions that derive from [Exception]. *)
Inductive error : Type :=
| HTTPError (code : Z) (body : bytes)   (* urllib.error.HTTPError *)
| URLError (reason : str)               (* urllib.error.URLError, not an HTTPError *)
| UnicodeDecodeError
| UnicodeEncodeError
| JSONDecodeError
| RecursionError
| ValueError
| KeyError (key : str)
| TypeError
| AttributeError
| OtherError (name : str).              (* of another class: RemoteDisconnected,
                                           IncompleteRead, InvalidURL, .. *)

Inductive exn : Type :=
| Error (e : error)
| SystemExit (code : Z).

Coercion Error : error >-> exn.

Inductive result (A : Type) : Type :=
| Returned (a : A)
| Raised (e : exn).
Arguments Returned {A} a.
Arguments Raised {A} e.

Definition rbind {A B} (r : result A) (k : A -> result B) : result B :=
  match r with
  | Returned a => k a
  | Raised e => Raised e
  end.

(** [str.encode()] and [bytes.decode()], both for UTF-8 and strict. *)
Definition encode (s : str) : result bytes :=
  if utf8_valid s then Returned s else Raised UnicodeEncodeError.

Definition decode (b : bytes) : result str :=
  if utf8_valid b then Returned b else Raised UnicodeDecodeError.

(** ** JSON values and dictionaries *)

#[warnings="-register-all"]
Inductive json : Type :=
| JNull
| JBool (b : bool)
| JInt (z : Z)
| JFloat (token : str)
| JString (s : str)
| JArray (items : list json)
| JObject (members : list (str * json)).

(** A dict in insertion order; a key occurs once. *)
Fixpoint dict_get {V} (k : str) (d : list (str * V)) : option V :=
  match d with
  | [] => None
  | (k', v) :: r => if String.eqb k k' then Some v else dict_get k r
  end.

Fixpoint dict_set {V} (k : str) (v : V) (d : list (str * V)) : list (str * V) :=
  match d with
  | [] => [(k, v)]
  | (k', v') :: r =>
    if String.eqb k k' then (k, v) :: r else (k', v') :: dict_set k v r
  end.

(** [v[k]] for a string [k]. *)
Definition getitem (v : json) (k : str) : result json :=
  match v with
  | JObject d =>
    match dict_get k d with
    | Some x => Returned x
    | None => Raised (KeyError k)
    end
  | _ => Raised TypeError
  end.

(** The library functions the scripts call and do not define.
    [json.loads] returns a value or raises: [JSONDecodeError] for a text
    that is no JSON, [RecursionError] for one nested too deep, [ValueError]
    for a number with too many digits.  [urllib.request.Request] raises
    [ValueError] for a URL in which it finds no type ([http:], [https:]). *)
Record Library : Type := {
  json_loads : str -> json + error;
  json_dumps : json -> str;
  py_str : json -> str;              (* [str(v)] of a value that is no [str] *)
  has_url_type : str -> bool
}.

Definition loads (lib : Library) (text : str) : result json :=
  match json_loads lib text with
  | inl v => Returned v
  | inr e => Raised e
  end.

(** A value inside an f-string: a [str] is itself. *)
Definition fmt (lib : Library) (v : json) : str :=
  match v with
  | JString s => s
  | _ => py_str lib v
  end.

(** A configuration value inside an f-string. *)
Definition fmt_opt (o : option str) : str :=
  match o with
  | Some s => s
  | None => "None"
  end.

(** [not v] of a value read with [os.environ.get]. *)
Definition falsy (o : option str) : bool :=
  match o with
  | None => true
  | Some EmptyString => true
  | Some _ => false
  end.

(** ** The network and the state of a run *)

Record Request : Type := {
  method : str;
  full_url : str;
  headers : list (str * str);
  data : option bytes
}.

(** How the call of [urlopen] for a request ends.  [HttpStatus]: with a
    response of this status, the last one when urllib has followed
    redirections, whose body reads as [body].  [TransportFailure]: with the
    [URLError] that urllib makes of a failure to connect.  [Breaks]: with
    another exception, one that urllib lets through as it is (the server
    closes the connection without an answer, the URL holds a character that
    cannot be sent) or that the reading of the body raises. *)
Inductive Answer : Type :=
| HttpStatus (code : Z) (body : bytes)
| TransportFailure (reason : str)
| Breaks (e : error).

(** The answer to the request that is handed to [urlopen] after [n]
    others. *)
Definition Network := nat -> Request -> Answer.

(** [urllib.request.Request(url, data=.., headers=.., method=..)]: the
    record of the arguments, or [ValueError] for a URL without type. *)
Definition request_Request (lib : Library) (url : str) (data : option bytes)
    (headers : list (str * str)) (method : str) : result Request :=
  if has_url_type lib url
  then Returned {| method := method; full_url := url;
                   headers := headers; data := data |}
  else Raised ValueError.

Record Response : Type := { status : Z; read : bytes }.

Record State : Type := {
  sent : list Request;   (* requests handed to urlopen, oldest first *)
  stdout : list str      (* one entry per call of print, oldest first *)
}.

Definition start : State := {| sent := []; stdout := [] |}.

Definition M (A : Type) : Type := State -> result A * State.

Definition ret {A} (a : A) : M A := fun st => (Returned a, st).

Definition raise {A} (e : exn) : M A := fun st => (Raised e, st).

Definition bind {A B} (m : M A) (k : A -> M B) : M B :=
  fun st =>
    match m st with
    | (Returned a, st') => k a st'
    | (Raised e, st') => (Raised e, st')
    end.

Definition lift {A} (r : result A) : M A := fun st => (r, st).

Notation "x <- m ;; k" := (bind m (fun x => k))
  (at level 61, m at next level, right associativity).
Notation "m ;;; k" := (bind m (fun _ => k))
  (at level 61, right associativity).

(** [try: m  except ...: h]; [h e = None] when no clause matches [e]. *)
Definition try_except {A} (m : M A) (h : exn -> option (M A)) : M A :=
  fun st =>
    match m st with
    | (Returned a, st') => (Returned a, st')
    | (Raised e, st') =>
      match h e with
      | Some k => k st'
      | None => (Raised e, st')
      end
    end.

Definition print (s : str) : M unit :=
  fun st => (Returned tt, {| sent := sent st; stdout := (stdout st ++ [s])%list |}).

Definition sys_exit {A} (code : Z) : M A := raise (SystemExit code).

Fixpoint for_each {A} (xs : list A) (body : A -> M unit) : M unit :=
  match xs with
  | [] => ret tt
  | x :: r => body x ;;; for_each r body
  end.

(** [urllib.request.urlopen]: a last status from 200 to 299 is returned
    as the response, every other last status is raised as [HTTPError], a
    failure of the transport as [URLError], and what else breaks the
    exchange as it is. *)
Definition is_2xx (code : Z) : bool := (200 <=? code)%Z && (code <? 300)%Z.

Definition urlopen (net : Network) (req : Request) : M Response :=
  fun st =>
    let st' := {| sent := (sent st ++ [req])%list; stdout := stdout st |} in
    match net (List.length (sent st)) req with
    | HttpStatus code body =>
      if is_2xx code then (Returned {| status := code; read := body |}, st')
      else (Raised (HTTPError code body), st')
    | TransportFailure reason => (Raised (URLError reason), st')
    | Breaks e => (Raised e, st')
    end.

(** The exit status of the process: a run that returns ends with 0,
    [sys.exit(c)] with [c], an exception that nothing catches with 1. *)
Definition exit_status {A} (r : result A) : Z :=
  match r with
  | Returned _ => 0
  | Raised (SystemExit c) => c
  | Raised (Error _) => 1
  end.

(** ** Data of the scripts *)

Record IssueTemplate : Type := {
  summary : str;
  description : str;
  issuetype : option str;         (* the key may be missing *)
  labels : option (list str)      (* the key may be missing *)
}.

Inductive creation_result : Type :=
| Success (key id : json)   (* {"success": True, "key": .., "id": ..} *)
| Failure (error : str).    (* {"success": False, "error": ..} *)

(** [get_auth_header], the same function in both scripts. *)
Definition get_auth_header (email api_token : str) : result str :=
  let credentials := email ++ ":" ++ api_token in
  rbind (encode credentials) (fun raw =>
  rbind (decode (b64encode raw)) (fun encoded =>
  Returned ("Basic " ++ encoded))).

(** ** scripts/create_jira_issues.py *)

Module create_jira_issues.

Definition PROJECT_KEY : str := "BB".

Definition ISSUES : list IssueTemplate := [
  {| summary := "Set up Playwright E2E testing infrastructure";
     description := "h2. Summary
Set up end-to-end testing infrastructure using Playwright to test the Beyond Burndown gadget UI.

h2. Background
We need E2E tests to verify the gadget functionality works correctly across browsers and simulates real user interactions. Unit tests are in place (440 total), but we need integration/E2E tests for complete coverage.

h2. Completed Work
* Installed Playwright and configured for multi-browser testing
* Created initial E2E test suite in e2e/gadget.spec.js
* Created mock data helpers in e2e/fixtures/forge-mock.js
* Added npm scripts for running tests

h2. Test Coverage
* Gadget loading states (loading, error, success)
* Tab navigation (all 7 tabs)
* Summary bar display
* What-If panel functionality
* Export menu
* Feasibility chart
* Accessibility checks

h2. How to Run
{code:bash}
npm run test:e2e        # Run all tests
npm run test:e2e:ui     # Interactive UI mode
npm run test:e2e:headed # Visible browser
npm run test:e2e:report # View report
{code}";
     issuetype := Some "Task";
     labels := Some ["testing"; "e2e"; "playwright"] |};
  {| summary := "Set up Forge bridge mocking for E2E tests";
     description := "h2. Summary
Implement proper Forge bridge mocking so E2E tests can run without a live Jira connection.

h2. Requirements
* Mock @forge/bridge invoke() function
* Mock view.getContext() for edit/view mode detection
* Mock view.submit() and view.close() for config panel
* Support different mock data scenarios

h2. Acceptance Criteria
* E2E tests run successfully without Jira connection
* Can simulate different data states (loading, error, empty, full data)
* Mock data is realistic and covers edge cases";
     issuetype := Some "Task";
     labels := Some ["testing"; "e2e"; "mocking"] |};
  {| summary := "Add CI/CD pipeline integration for E2E tests";
     description := "h2. Summary
Integrate Playwright E2E tests into the CI/CD pipeline.

h2. Requirements
* Run E2E tests on pull requests
* Run E2E tests before deployment
* Generate and archive test reports
* Fail build on test failures

h2. Tasks
* Create GitHub Actions workflow for E2E tests
* Configure Playwright for CI environment
* Set up artifact storage for test reports
* Add status badges to README

h2. Acceptance Criteria
* E2E tests run automatically on PRs
* Test results are visible in PR checks
* Reports are accessible for debugging failures";
     issuetype := Some "Task";
     labels := Some ["testing"; "e2e"; "ci-cd"; "github-actions"] |};
  {| summary := "Create Jira integration E2E tests";
     description := "h2. Summary
Create E2E tests that verify the gadget works correctly when integrated with Jira.

h2. Test Scenarios
* Gadget loads correctly on Jira dashboard
* JQL queries return expected data
* Config panel saves settings correctly
* Data refreshes when issues change
* Edit mode vs view mode behavior

h2. Requirements
* Test against a dedicated test Jira project
* Use realistic test data
* Test error handling (invalid JQL, permissions, etc.)

h2. Acceptance Criteria
* Tests cover main Jira integration flows
* Tests are stable and not flaky
* Can run against staging environment";
     issuetype := Some "Task";
     labels := Some ["testing"; "e2e"; "jira-integration"] |};
  {| summary := "Add visual regression testing";
     description := "h2. Summary
Implement visual regression testing to catch unintended UI changes.

h2. Requirements
* Capture baseline screenshots for all views
* Compare against baselines on each test run
* Highlight visual differences
* Easy baseline update workflow

h2. Views to Test
* Feasibility chart (daily, weekly, monthly views)
* What-If panel (all scenario types)
* Compliance panel (with and without violations)
* Dependencies view (with and without cycles)
* Team health view
* Status report
* Config panel

h2. Acceptance Criteria
* Visual tests catch CSS/layout regressions
* False positives are minimized
* Baseline updates are easy to review and approve";
     issuetype := Some "Task";
     labels := Some ["testing"; "e2e"; "visual-regression"] |};
  {| summary := "Add mobile and tablet viewport E2E tests";
     description := "h2. Summary
Add E2E tests for different viewport sizes to ensure responsive design works correctly.

h2. Viewports to Test
* Mobile (375x667 - iPhone SE)
* Mobile Large (414x896 - iPhone 11)
* Tablet (768x1024 - iPad)
* Desktop (1280x720)
* Desktop Large (1920x1080)

h2. Requirements
* Test main flows on each viewport
* Verify responsive breakpoints work correctly
* Check touch interactions on mobile viewports

h2. Acceptance Criteria
* All viewports pass E2E tests
* No horizontal scrolling on mobile
* Touch targets are appropriately sized";
     issuetype := Some "Task";
     labels := Some ["testing"; "e2e"; "responsive"; "mobile"] |}
].

Section Script.

Variable lib : Library.
Variable net : Network.

(** The dictionary that [create_issue] serialises. *)
Definition payload (project_key : str) (issue_data : IssueTemplate) : json :=
  let fields :=
    [ ("project", JObject [("key", JString project_key)]);
      ("summary", JString (summary issue_data));
      ("description",
       JObject
         [ ("type", JString "doc");
           ("version", JInt 1);
           ("content",
            JArray
              [ JObject
                  [ ("type", JString "paragraph");
                    ("content",
                     JArray
                       [ JObject
                           [ ("type", JString "text");
                             ("text", JString (description issue_data)) ] ]) ] ]) ]);
      ("issuetype",
       JObject [("name", JString (match issuetype issue_data with
                                  | Some t => t
                                  | None => "Task"
                                  end))]) ] in
  (* Add labels if provided *)
  let fields :=
    match labels issue_data with
    | Some ls => dict_set "labels" (JArray (map JString ls)) fields
    | None => fields
    end in
  JObject [("fields", JObject fields)].

(** The request that [create_issue] hands to [urlopen], when it gets
    that far. *)
Definition issue_request (jira_url auth_header project_key : str)
    (issue_data : IssueTemplate) : Request :=
  {| method := "POST";
     full_url := jira_url ++ "/rest/api/3/issue";
     headers := [ ("Authorization", auth_header);
                  ("Content-Type", "application/json");
                  ("Accept", "application/json") ];
     data := Some (json_dumps lib (payload project_key issue_data)) |}.

Definition create_issue (jira_url auth_header project_key : str)
    (issue_data : IssueTemplate) : M creation_result :=
  let url := jira_url ++ "/rest/api/3/issue" in
  data <- lift (encode (json_dumps lib (payload project_key issue_data))) ;;
  req <- lift (request_Request lib url (Some data)
                 [ ("Authorization", auth_header);
                   ("Content-Type", "application/json");
                   ("Accept", "application/json") ]
                 "POST") ;;
  try_except
    (response <- urlopen net req ;;
     text <- lift (decode (read response)) ;;
     result <- lift (loads lib text) ;;
     key <- lift (getitem result "key") ;;
     id <- lift (getitem result "id") ;;
     ret (Success key id))
    (fun e =>
       match e with
       | Error (HTTPError code body) =>
         Some (error_body <- lift (decode body) ;;
               ret (Failure (str_of_int code ++ ": " ++ error_body)))
       | Error (URLError reason) => Some (ret (Failure reason))
       | _ => None
       end).

Definition browse_url (jira_url : str) (key : json) : str :=
  jira_url ++ "/browse/" ++ fmt lib key.

(** The [for issue in ISSUES] loop of [main], with its two accumulators. *)
Fixpoint main_loop (jira_url auth_header : str) (issues : list IssueTemplate)
    (created : list json) (failed : list str) : M (list json * list str) :=
  match issues with
  | [] => ret (created, failed)
  | issue :: rest =>
    print (nl ++ "Creating: " ++ slice_to 50 (summary issue) ++ "...") ;;;
    result <- create_issue jira_url auth_header PROJECT_KEY issue ;;
    match result with
    | Success key _ =>
      print ("  ✓ Created: " ++ fmt lib key) ;;;
      print ("    URL: " ++ browse_url jira_url key) ;;;
      main_loop jira_url auth_header rest (created ++ [key])%list failed
    | Failure error =>
      print ("  ✗ Failed: " ++ error) ;;;
      main_loop jira_url auth_header rest created (failed ++ [summary issue])%list
    end
  end.

Definition missing_variables (jira_url jira_email jira_api_token : option str)
    : list str :=
  let missing := [] in
  let missing := if falsy jira_url then (missing ++ ["JIRA_URL"])%list else missing in
  let missing := if falsy jira_email then (missing ++ ["JIRA_EMAIL"])%list else missing in
  let missing :=
    if falsy jira_api_token then (missing ++ ["JIRA_API_TOKEN"])%list else missing in
  missing.

(** [main], over the list of issues it iterates. *)
Definition main_on (issues : list IssueTemplate) (environ : str -> option str) : M unit :=
  let jira_url := environ "JIRA_URL" in
  let jira_email := environ "JIRA_EMAIL" in
  let jira_api_token := environ "JIRA_API_TOKEN" in
  let missing := missing_variables jira_url jira_email jira_api_token in
  (match missing with
   | [] => ret tt
   | _ =>
     print "Error: Missing required environment variables:" ;;;
     for_each missing (fun var => print ("  - " ++ var)) ;;;
     print (nl ++ "Set them using:") ;;;
     print ("  export JIRA_URL=" ++ dq ++ "https://yoursite.atlassian.net" ++ dq) ;;;
     print ("  export JIRA_EMAIL=" ++ dq ++ "your.email@example.com" ++ dq) ;;;
     print ("  export JIRA_API_TOKEN=" ++ dq ++ "your-api-token" ++ dq) ;;;
     print (nl ++ "Get your API token at: https://id.atlassian.com/manage-profile/security/api-tokens") ;;;
     sys_exit 1
   end) ;;;
  (* Remove trailing slash from URL if present *)
  jira_url <- match jira_url with
              | Some u => ret (rstrip "/" u)
              | None => raise AttributeError
              end ;;
  auth_header <- lift (get_auth_header (fmt_opt jira_email) (fmt_opt jira_api_token)) ;;
  print ("Creating " ++ str_of_nat (List.length issues) ++ " issues in project "
         ++ PROJECT_KEY ++ "...") ;;;
  print ("Jira URL: " ++ jira_url) ;;;
  print (str_mul "-" 50) ;;;
  r <- main_loop jira_url auth_header issues [] [] ;;
  let (created, failed) := r in
  print (nl ++ str_mul "=" 50) ;;;
  print ("Summary: " ++ str_of_nat (List.length created) ++ " created, "
         ++ str_of_nat (List.length failed) ++ " failed") ;;;
  (match created with
   | [] => ret tt
   | _ =>
     print (nl ++ "Created issues:") ;;;
     for_each created (fun key => print ("  - " ++ browse_url jira_url key))
   end) ;;;
  (match failed with
   | [] => ret tt
   | _ =>
     print (nl ++ "Failed issues:") ;;;
     for_each failed (fun summary => print ("  - " ++ summary)) ;;;
     sys_exit 1
   end).

Definition main : (str -> option str) -> M unit := main_on ISSUES.

End Script.

End create_jira_issues.

(** ** scripts/create_jira_issues_v2.py *)

Module create_jira_issues_v2.

Definition PROJECT_KEY : str := "BB".

Definition ISSUES : list IssueTemplate := [
  {| summary := "Set up Playwright E2E testing infrastructure";
     description := "Summary
=======
Set up end-to-end testing infrastructure using Playwright to test the Beyond Burndown gadget UI.

Background
==========
We need E2E tests to verify the gadget functionality works correctly across browsers and simulates real user interactions. Unit tests are in place (440 total), but we need integration/E2E tests for complete coverage.

Completed Work
==============
- Installed Playwright and configured for multi-browser testing
- Created initial E2E test suite in e2e/gadget.spec.js
- Created mock data helpers in e2e/fixtures/forge-mock.js
- Added npm scripts for running tests

Test Coverage
=============
- Gadget loading states (loading, error, success)
- Tab navigation (all 7 tabs)
- Summary bar display
- What-If panel functionality
- Export menu
- Feasibility chart
- Accessibility checks

How to Run
==========
npm run test:e2e        # Run all tests
npm run test:e2e:ui     # Interactive UI mode
npm run test:e2e:headed # Visible browser
npm run test:e2e:report # View report";
     issuetype := Some "Task";
     labels := Some ["testing"; "e2e"; "playwright"] |};
  {| summary := "Set up Forge bridge mocking for E2E tests";
     description := "Summary
=======
Implement proper Forge bridge mocking so E2E tests can run without a live Jira connection.

Requirements
============
- Mock @forge/bridge invoke() function
- Mock view.getContext() for edit/view mode detection
- Mock view.submit() and view.close() for config panel
- Support different mock data scenarios

Acceptance Criteria
==================
- E2E tests run successfully without Jira connection
- Can simulate different data states (loading, error, empty, full data)
- Mock data is realistic and covers edge cases";
     issuetype := Some "Task";
     labels := Some ["testing"; "e2e"; "mocking"] |};
  {| summary := "Add CI/CD pipeline integration for E2E tests";
     description := "Summary
=======
Integrate Playwright E2E tests into the CI/CD pipeline.

Requirements
============
- Run E2E tests on pull requests
- Run E2E tests before deployment
- Generate and archive test reports
- Fail build on test failures

Tasks
=====
- Create GitHub Actions workflow for E2E tests
- Configure Playwright for CI environment
- Set up artifact storage for test reports
- Add status badges to README

Acceptance Criteria
==================
- E2E tests run automatically on PRs
- Test results are visible in PR checks
- Reports are accessible for debugging failures";
     issuetype := Some "Task";
     labels := Some ["testing"; "e2e"; "ci-cd"; "github-actions"] |};
  {| summary := "Create Jira integration E2E tests";
     description := "Summary
=======
Create E2E tests that verify the gadget works correctly when integrated with Jira.

Test Scenarios
==============
- Gadget loads correctly on Jira dashboard
- JQL queries return expected data
- Config panel saves settings correctly
- Data refreshes when issues change
- Edit mode vs view mode behavior

Requirements
============
- Test against a dedicated test Jira project
- Use realistic test data
- Test error handling (invalid JQL, permissions, etc.)

Acceptance Criteria
==================
- Tests cover main Jira integration flows
- Tests are stable and not flaky
- Can run against staging environment";
     issuetype := Some "Task";
     labels := Some ["testing"; "e2e"; "jira-integration"] |};
  {| summary := "Add visual regression testing";
     description := "Summary
=======
Implement visual regression testing to catch unintended UI changes.

Requirements
============
- Capture baseline screenshots for all views
- Compare against baselines on each test run
- Highlight visual differences
- Easy baseline update workflow

Views to Test
=============
- Feasibility chart (daily, weekly, monthly views)
- What-If panel (all scenario types)
- Compliance panel (with and without violations)
- Dependencies view (with and without cycles)
- Team health view
- Status report
- Config panel

Acceptance Criteria
==================
- Visual tests catch CSS/layout regressions
- False positives are minimized
- Baseline updates are easy to review and approve";
     issuetype := Some "Task";
     labels := Some ["testing"; "e2e"; "visual-regression"] |};
  {| summary := "Add mobile and tablet viewport E2E tests";
     description := "Summary
=======
Add E2E tests for different viewport sizes to ensure responsive design works correctly.

Viewports to Test
=================
- Mobile (375x667 - iPhone SE)
- Mobile Large (414x896 - iPhone 11)
- Tablet (768x1024 - iPad)
- Desktop (1280x720)
- Desktop Large (1920x1080)

Requirements
============
- Test main flows on each viewport
- Verify responsive breakpoints work correctly
- Check touch interactions on mobile viewports

Acceptance Criteria
==================
- All viewports pass E2E tests
- No horizontal scrolling on mobile
- Touch targets are appropriately sized";
     issuetype := Some "Task";
     labels := Some ["testing"; "e2e"; "responsive"; "mobile"] |}
].

(** An entry of the [created] list of [main]. *)
Record created_item : Type := {
  item_key : json;
  item_summary : str;
  item_url : str
}.

Section Script.

Variable lib : Library.
Variable net : Network.

(** The dictionary that [create_issue] serialises. *)
Definition payload (project_key : str) (issue_data : IssueTemplate) : json :=
  let fields :=
    [ ("project", JObject [("key", JString project_key)]);
      ("summary", JString (summary issue_data));
      ("description", JString (description issue_data));
      ("issuetype",
       JObject [("name", JString (match issuetype issue_data with
                                  | Some t => t
                                  | None => "Task"
                                  end))]) ] in
  (* Add labels if provided *)
  let fields :=
    match labels issue_data with
    | Some ls => dict_set "labels" (JArray (map JString ls)) fields
    | None => fields
    end in
  JObject [("fields", JObject fields)].

(** The request that [create_issue] hands to [urlopen], when it gets
    that far. *)
Definition issue_request (jira_url auth_header project_key : str)
    (issue_data : IssueTemplate) : Request :=
  {| method := "POST";
     full_url := jira_url ++ "/rest/api/2/issue";
     headers := [ ("Authorization", auth_header);
                  ("Content-Type", "application/json");
                  ("Accept", "application/json") ];
     data := Some (json_dumps lib (payload project_key issue_data)) |}.

Definition create_issue (jira_url auth_header project_key : str)
    (issue_data : IssueTemplate) : M creation_result :=
  let url := jira_url ++ "/rest/api/2/issue" in
  data <- lift (encode (json_dumps lib (payload project_key issue_data))) ;;
  req <- lift (request_Request lib url (Some data)
                 [ ("Authorization", auth_header);
                   ("Content-Type", "application/json");
                   ("Accept", "application/json") ]
                 "POST") ;;
  try_except
    (response <- urlopen net req ;;
     text <- lift (decode (read response)) ;;
     result <- lift (loads lib text) ;;
     key <- lift (getitem result "key") ;;
     id <- lift (getitem result "id") ;;
     ret (Success key id))
    (fun e =>
       match e with
       | Error (HTTPError code body) =>
         Some (error_body <- lift (decode body) ;;
               ret (Failure (str_of_int code ++ ": " ++ error_body)))
       | Error (URLError reason) => Some (ret (Failure reason))
       | _ => None
       end).

(** The request that [check_project_exists] hands to [urlopen], when it
    gets that far. *)
Definition project_request (jira_url auth_header project_key : str) : Request :=
  {| method := "GET";
     full_url := jira_url ++ "/rest/api/2/project/" ++ project_key;
     headers := [ ("Authorization", auth_header);
                  ("Accept", "application/json") ];
     data := None |}.

Definition check_project_exists (jira_url auth_header project_key : str) : M bool :=
  let url := jira_url ++ "/rest/api/2/project/" ++ project_key in
  req <- lift (request_Request lib url None
                 [ ("Authorization", auth_header);
                   ("Accept", "application/json") ]
                 "GET") ;;
  try_except
    (response <- urlopen net req ;;
     ret true)
    (fun e =>
       match e with
       | Error (HTTPError _ _) => Some (ret false)
       | _ => None
       end).

Definition browse_url (jira_url : str) (key : json) : str :=
  jira_url ++ "/browse/" ++ fmt lib key.

(** The [for i, issue in enumerate(ISSUES, 1)] loop of [main], with its two
    accumulators; [total] is [len(ISSUES)]. *)
Fixpoint main_loop (jira_url auth_header : str) (total i : nat)
    (issues : list IssueTemplate) (created : list created_item) (failed : list str)
    : M (list created_item * list str) :=
  match issues with
  | [] => ret (created, failed)
  | issue :: rest =>
    let summary_short :=
      if (45 <? len (summary issue))%nat then slice_to 45 (summary issue) ++ "..."
      else summary issue in
    print (nl ++ "[" ++ str_of_nat i ++ "/" ++ str_of_nat total ++ "] "
           ++ summary_short) ;;;
    result <- create_issue jira_url auth_header PROJECT_KEY issue ;;
    match result with
    | Success key _ =>
      print ("  ✓ Created: " ++ fmt lib key) ;;;
      main_loop jira_url auth_header total (S i) rest
        (created ++ [ {| item_key := key;
                         item_summary := summary issue;
                         item_url := browse_url jira_url key |} ])%list
        failed
    | Failure error =>
      print ("  ✗ Failed: " ++ slice_to 100 error) ;;;
      main_loop jira_url auth_header total (S i) rest
        created (failed ++ [summary issue])%list
    end
  end.

Definition missing_variables (jira_url jira_email jira_api_token : option str)
    : list str :=
  let missing := [] in
  let missing := if falsy jira_url then (missing ++ ["JIRA_URL"])%list else missing in
  let missing := if falsy jira_email then (missing ++ ["JIRA_EMAIL"])%list else missing in
  let missing :=
    if falsy jira_api_token then (missing ++ ["JIRA_API_TOKEN"])%list else missing in
  missing.

(** [main], over the list of issues it iterates. *)
Definition main_on (issues : list IssueTemplate) (environ : str -> option str) : M unit :=
  let jira_url := environ "JIRA_URL" in
  let jira_email := environ "JIRA_EMAIL" in
  let jira_api_token := environ "JIRA_API_TOKEN" in
  let missing := missing_variables jira_url jira_email jira_api_token in
  (match missing with
   | [] => ret tt
   | _ =>
     print (str_mul "=" 60) ;;;
     print "ERROR: Missing required environment variables" ;;;
     print (str_mul "=" 60) ;;;
     for_each missing (fun var => print ("  - " ++ var)) ;;;
     print "" ;;;
     print "Set them using (Windows CMD):" ;;;
     print "  set JIRA_URL=https://yoursite.atlassian.net" ;;;
     print "  set JIRA_EMAIL=your.email@example.com" ;;;
     print "  set JIRA_API_TOKEN=your-api-token" ;;;
     print "" ;;;
     print "Or using (PowerShell):" ;;;
     print ("  $env:JIRA_URL=" ++ dq ++ "https://yoursite.atlassian.net" ++ dq) ;;;
     print ("  $env:JIRA_EMAIL=" ++ dq ++ "your.email@example.com" ++ dq) ;;;
     print ("  $env:JIRA_API_TOKEN=" ++ dq ++ "your-api-token" ++ dq) ;;;
     print "" ;;;
     print "Get your API token at:" ;;;
     print "  https://id.atlassian.com/manage-profile/security/api-tokens" ;;;
     print (str_mul "=" 60) ;;;
     sys_exit 1
   end) ;;;
  (* Remove trailing slash from URL if present *)
  jira_url <- match jira_url with
              | Some u => ret (rstrip "/" u)
              | None => raise AttributeError
              end ;;
  auth_header <- lift (get_auth_header (fmt_opt jira_email) (fmt_opt jira_api_token)) ;;
  print (str_mul "=" 60) ;;;
  print "Beyond Burndown - Jira Issue Creator" ;;;
  print (str_mul "=" 60) ;;;
  print ("Jira URL: " ++ jira_url) ;;;
  print ("Project:  " ++ PROJECT_KEY) ;;;
  print ("Issues:   " ++ str_of_nat (List.length issues)) ;;;
  print (str_mul "-" 60) ;;;
  (* Check project exists *)
  print (nl ++ "Checking project " ++ PROJECT_KEY ++ "...") ;;;
  found <- check_project_exists jira_url auth_header PROJECT_KEY ;;
  (if negb found then
     print ("ERROR: Project '" ++ PROJECT_KEY ++ "' not found or not accessible.") ;;;
     print "Check that:" ;;;
     print "  1. The project key is correct" ;;;
     print "  2. Your API token has access to this project" ;;;
     print "  3. Your Jira URL is correct" ;;;
     sys_exit 1
   else ret tt) ;;;
  print ("  ✓ Project " ++ PROJECT_KEY ++ " found") ;;;
  print (nl ++ "Creating issues...") ;;;
  print (str_mul "-" 60) ;;;
  r <- main_loop jira_url auth_header (List.length issues) 1 issues [] [] ;;
  let (created, failed) := r in
  print (nl ++ str_mul "=" 60) ;;;
  print "SUMMARY" ;;;
  print (str_mul "=" 60) ;;;
  print ("Created: " ++ str_of_nat (List.length created)) ;;;
  print ("Failed:  " ++ str_of_nat (List.length failed)) ;;;
  (match created with
   | [] => ret tt
   | _ =>
     print (nl ++ "✓ Created Issues:") ;;;
     for_each created (fun item =>
       print ("  " ++ fmt lib (item_key item) ++ ": "
              ++ slice_to 40 (item_summary item)) ;;;
       print ("    " ++ item_url item))
   end) ;;;
  (match failed with
   | [] => ret tt
   | _ =>
     print (nl ++ "✗ Failed Issues:") ;;;
     for_each failed (fun summary => print ("  - " ++ summary)) ;;;
     sys_exit 1
   end) ;;;
  print (nl ++ str_mul "=" 60) ;;;
  print "Done!".

Definition main : (str -> option str) -> M unit := main_on ISSUES.

End Script.

End create_jira_issues_v2.

(** ** A library to run the scripts on concrete inputs

    [json.loads] follows the grammar of RFC 8259 with the three extra
    literals Python accepts; [json.dumps] writes with the default separators
    and [ensure_ascii]; [str()] writes the interpreter's form of a decoded
    value.  [has_url_type] follows [urllib.parse]: the URL is unwrapped, cut
    at its last [#], and has to start with a type.

    The general theorems hold for every library; this one stands for
    Python's on the inputs of the examples.  It departs from Python in
    places that no example reaches: a float is kept as its token, which
    Python writes back in its own shortest form; an escape that names half
    of a surrogate pair is refused, where Python makes a lone surrogate of
    it; and no nesting is too deep for it. *)

Module Reference.

Definition is_ws (c : ascii) : bool :=
  Ascii.eqb c " " || Ascii.eqb c "009" || Ascii.eqb c "010" || Ascii.eqb c "013".

Fixpoint skip_ws (s : str) : str :=
  match s with
  | String c r => if is_ws c then skip_ws r else s
  | EmptyString => s
  end.

Definition is_digit (c : ascii) : bool := byte_in 48 57 c.

Fixpoint take_digits (s : str) : str * str :=
  match s with
  | String c r =>
    if is_digit c then let (d, r') := take_digits r in (String c d, r') else (EmptyString, s)
  | EmptyString => (EmptyString, s)
  end.

Fixpoint digits_value (acc : Z) (d : str) : Z :=
  match d with
  | String c r => digits_value (10 * acc + Z.of_N (N_of_ascii c) - 48) r
  | EmptyString => acc
  end.

Definition hex_value (c : ascii) : option N :=
  let n := N_of_ascii c in
  if byte_in 48 57 c then Some (n - 48)%N
  else if byte_in 97 102 c then Some (n - 87)%N
  else if byte_in 65 70 c then Some (n - 55)%N
  else None.

Definition hex4 (s : str) : option (N * str) :=
  match s with
  | String a (String b (String c (String d r))) =>
    match hex_value a, hex_value b, hex_value c, hex_value d with
    | Some x, Some y, Some z, Some w => Some (4096 * x + 256 * y + 16 * z + w, r)%N
    | _, _, _, _ => None
    end
  | _ => None
  end.

Definition byte (n : N) : str := String (ascii_of_N n) EmptyString.

Definition utf8_encode (cp : N) : str :=
  (if cp <? 128 then byte cp
   else if cp <? 2048 then byte (192 + cp / 64) ++ byte (128 + cp mod 64)
   else if cp <? 65536 then
     byte (224 + cp / 4096) ++ byte (128 + (cp / 64) mod 64) ++ byte (128 + cp mod 64)
   else
     byte (240 + cp / 262144) ++ byte (128 + (cp / 4096) mod 64)
     ++ byte (128 + (cp / 64) mod 64) ++ byte (128 + cp mod 64))%N.

Definition simple_escape (c : ascii) : option str :=
  if Ascii.eqb c "b" then Some (chr 8)
  else if Ascii.eqb c "f" then Some (chr 12)
  else if Ascii.eqb c "n" then Some (chr 10)
  else if Ascii.eqb c "r" then Some (chr 13)
  else if Ascii.eqb c "t" then Some (chr 9)
  else if Ascii.eqb c "/" then Some "/"
  else if Ascii.eqb c "\" then Some "\"
  else if Ascii.eqb c "034" then Some dq
  else None.

Definition prepend (p : str) (r : option (str * str)) : option (str * str) :=
  match r with
  | Some (t, rest) => Some (p ++ t, rest)
  | None => None
  end.

(** The characters of a string, after its opening quote. *)
Fixpoint parse_chars (fuel : nat) (s : str) : option (str * str) :=
  match fuel, s with
  | S f, String c r =>
    if Ascii.eqb c "034" then Some (EmptyString, r)
    else if Ascii.eqb c "\" then
      match r with
      | String e r1 =>
        if Ascii.eqb e "u" then
          match hex4 r1 with
          | Some (hi, r2) =>
            if ((hi <? 55296) || (57343 <? hi))%N then
              prepend (utf8_encode hi) (parse_chars f r2)
            else if (hi <? 56320)%N then
              match r2 with
              | String "\" (String "u" r3) =>
                match hex4 r3 with
                | Some (lo, r4) =>
                  if ((56320 <=? lo) && (lo <=? 57343))%N then
                    prepend
                      (utf8_encode (65536 + 1024 * (hi - 55296) + (lo - 56320))%N)
                      (parse_chars f r4)
                  else None
                | None => None
                end
              | _ => None
              end
            else None
          | None => None
          end
        else
          match simple_escape e with
          | Some t => prepend t (parse_chars f r1)
          | None => None
          end
      | EmptyString => None
      end
    else if byte_in 0 31 c then None
    else prepend (String c EmptyString) (parse_chars f r)
  | _, _ => None
  end.

Definition parse_fraction (s : str) : str * str :=
  match s with
  | String "." r =>
    match take_digits r with
    | (EmptyString, _) => (EmptyString, s)
    | (d, r') => ("." ++ d, r')
    end
  | _ => (EmptyString, s)
  end.

Definition parse_exponent (s : str) : str * str :=
  match s with
  | String e r =>
    if Ascii.eqb e "e" || Ascii.eqb e "E" then
      let (sign, r1) :=
        match r with
        | String g r' =>
          if Ascii.eqb g "+" || Ascii.eqb g "-" then (String g EmptyString, r')
          else (EmptyString, r)
        | EmptyString => (EmptyString, r)
        end in
      match take_digits r1 with
      | (EmptyString, _) => (EmptyString, s)
      | (d, r') => (String e (sign ++ d), r')
      end
    else (EmptyString, s)
  | EmptyString => (EmptyString, s)
  end.

Definition parse_number (s : str) : option (json * str) :=
  let (sign, s1) :=
    match s with
    | String "-" r => ("-", r)
    | _ => (EmptyString, s)
    end in
  let (int, s2) :=
    match s1 with
    | String "0" r => ("0", r)
    | _ => take_digits s1
    end in
  match int with
  | EmptyString => None
  | _ =>
    let (frac, s3) := parse_fraction s2 in
    let (exp, s4) := parse_exponent s3 in
    match frac ++ exp with
    | EmptyString =>
      Some (JInt (if String.eqb sign "-" then - digits_value 0 int
                  else digits_value 0 int)%Z, s4)
    | _ => Some (JFloat (sign ++ int ++ frac ++ exp), s4)
    end
  end.

Definition literals : list (str * json) :=
  [ ("null", JNull); ("true", JBool true); ("false", JBool false);
    ("NaN", JFloat "NaN"); ("Infinity", JFloat "Infinity");
    ("-Infinity", JFloat "-Infinity") ].

Fixpoint parse_literal (ls : list (str * json)) (s : str) : option (json * str) :=
  match ls with
  | [] => parse_number s
  | (word, v) :: ls' =>
    if String.prefix word s
    then Some (v, String.substring (String.length word)
                                   (String.length s - String.length word) s)
    else parse_literal ls' s
  end.

Fixpoint parse_value (fuel : nat) (s : str) : option (json * str) :=
  match fuel, s with
  | S f, String c r =>
    if Ascii.eqb c "034" then
      match parse_chars f r with
      | Some (t, r') => Some (JString t, r')
      | None => None
      end
    else if Ascii.eqb c "[" then
      match skip_ws r with
      | String "]" r' => Some (JArray [], r')
      | r' => parse_items f r' []
      end
    else if Ascii.eqb c "{" then
      match skip_ws r with
      | String "}" r' => Some (JObject [], r')
      | r' => parse_members f r' []
      end
    else parse_literal literals s
  | _, _ => None
  end
with parse_items (fuel : nat) (s : str) (acc : list json) : option (json * str) :=
  match fuel with
  | S f =>
    match parse_value f s with
    | Some (v, r) =>
      match skip_ws r with
      | String "," r' => parse_items f (skip_ws r') (acc ++ [v])%list
      | String "]" r' => Some (JArray (acc ++ [v])%list, r')
      | _ => None
      end
    | None => None
    end
  | O => None
  end
with parse_members (fuel : nat) (s : str) (acc : list (str * json))
    : option (json * str) :=
  match fuel, s with
  | S f, String "034" r =>
    match parse_chars f r with
    | Some (k, r1) =>
      match skip_ws r1 with
      | String ":" r2 =>
        match parse_value f (skip_ws r2) with
        | Some (v, r3) =>
          match skip_ws r3 with
          | String "," r' => parse_members f (skip_ws r') (dict_set k v acc)
          | String "}" r' => Some (JObject (dict_set k v acc), r')
          | _ => None
          end
        | None => None
        end
      | _ => None
      end
    | None => None
    end
  | _, _ => None
  end.

Definition json_loads (text : str) : json + error :=
  match parse_value (4 + 2 * String.length text) (skip_ws text) with
  | Some (v, r) =>
    match skip_ws r with
    | EmptyString => inl v
    | _ => inr JSONDecodeError
    end
  | None => inr JSONDecodeError
  end.

Definition hex_digit (n : N) : str :=
  String.substring (N.to_nat n) 1 "0123456789abcdef".

Definition u_escape (n : N) : str :=
  ("\u" ++ hex_digit (n / 4096) ++ hex_digit ((n / 256) mod 16)
   ++ hex_digit ((n / 16) mod 16) ++ hex_digit (n mod 16))%N.

(** A code point as [json.dumps] writes it inside a string. *)
Definition escape_code_point (n : N) : str :=
  (if n =? 34 then "\" ++ dq
   else if n =? 92 then "\\"
   else if n =? 10 then "\n"
   else if n =? 13 then "\r"
   else if n =? 9 then "\t"
   else if n =? 12 then "\f"
   else if n =? 8 then "\b"
   else if (32 <=? n) && (n <=? 126) then byte n
   else if n <? 65536 then u_escape n
   else u_escape (55296 + ((n - 65536) / 1024) mod 1024)
        ++ u_escape (56320 + (n - 65536) mod 1024))%N.

Definition low6 (c : ascii) : N := (N_of_ascii c mod 64)%N.

Fixpoint escape (s : str) : str :=
  match s with
  | EmptyString => EmptyString
  | String a r =>
    let x := N_of_ascii a in
    if (x <? 192)%N then escape_code_point x ++ escape r
    else match r with
    | EmptyString => EmptyString
    | String b r1 =>
      if (x <? 224)%N then
        escape_code_point (64 * (x - 192) + low6 b)%N ++ escape r1
      else match r1 with
      | EmptyString => EmptyString
      | String c r2 =>
        if (x <? 240)%N then
          escape_code_point (4096 * (x - 224) + 64 * low6 b + low6 c)%N ++ escape r2
        else match r2 with
        | EmptyString => EmptyString
        | String d r3 =>
          escape_code_point
            (262144 * (x - 240) + 4096 * low6 b + 64 * low6 c + low6 d)%N
          ++ escape r3
        end
      end
    end
  end.

Fixpoint json_dumps (v : json) : str :=
  match v with
  | JNull => "null"
  | JBool true => "true"
  | JBool false => "false"
  | JInt z => str_of_int z
  | JFloat token => token
  | JString s => dq ++ escape s ++ dq
  | JArray items => "[" ++ String.concat ", " (map json_dumps items) ++ "]"
  | JObject members =>
    "{" ++ String.concat ", "
             (map (fun kv => dq ++ escape (fst kv) ++ dq ++ ": " ++ json_dumps (snd kv))
                  members)
    ++ "}"
  end.

Fixpoint contains (c : ascii) (s : str) : bool :=
  match s with
  | EmptyString => false
  | String a r => Ascii.eqb a c || contains c r
  end.

Fixpoint repr_chars (quote : ascii) (s : str) : str :=
  match s with
  | EmptyString => EmptyString
  | String a r =>
    let x := N_of_ascii a in
    (if Ascii.eqb a quote || Ascii.eqb a "\" then String "\" (String a EmptyString)
     else if (x =? 10)%N then "\n"
     else if (x =? 13)%N then "\r"
     else if (x =? 9)%N then "\t"
     else if ((x <? 32) || (x =? 127))%N then
       "\x" ++ hex_digit (x / 16) ++ hex_digit (x mod 16)
     else String a EmptyString)
    ++ repr_chars quote r
  end.

Definition repr_str (s : str) : str :=
  let quote := if contains "'" s && negb (contains "034" s) then "034"%char
               else "'"%char in
  String quote (repr_chars quote s) ++ String quote EmptyString.

Fixpoint py_str (v : json) : str :=
  match v with
  | JNull => "None"
  | JBool true => "True"
  | JBool false => "False"
  | JInt z => str_of_int z
  | JFloat token => token
  | JString s => repr_str s
  | JArray items => "[" ++ String.concat ", " (map py_str items) ++ "]"
  | JObject members =>
    "{" ++ String.concat ", "
             (map (fun kv => repr_str (fst kv) ++ ": " ++ py_str (snd kv)) members)
    ++ "}"
  end.

(** The white space that [str.strip()] removes, as far as it is ASCII. *)
Definition is_space (c : ascii) : bool := byte_in 9 13 c || byte_in 28 32 c.

Fixpoint lstrip (s : str) : str :=
  match s with
  | String c r => if is_space c then lstrip r else s
  | EmptyString => s
  end.

Fixpoint rstrip_space (s : str) : str :=
  match s with
  | EmptyString => EmptyString
  | String a r =>
    match rstrip_space r with
    | EmptyString => if is_space a then EmptyString else String a EmptyString
    | r' => String a r'
    end
  end.

Definition strip (s : str) : str := rstrip_space (lstrip s).

(** [s[:-1]] *)
Fixpoint drop_last (s : str) : str :=
  match s with
  | EmptyString => EmptyString
  | String _ EmptyString => EmptyString
  | String a r => String a (drop_last r)
  end.

(** [urllib.parse.unwrap] *)
Definition unwrap (url : str) : str :=
  let url := strip url in
  let url :=
    match url with
    | String "<" r => if ends_with ">" r then strip (drop_last r) else url
    | _ => url
    end in
  if String.prefix "URL:" url
  then strip (String.substring 4 (String.length url - 4) url)
  else url.

(** The part before the last [#], or all of it. *)
Fixpoint before_tag (s : str) : option str :=
  match s with
  | EmptyString => None
  | String a r =>
    match before_tag r with
    | Some p => Some (String a p)
    | None => if Ascii.eqb a "#" then Some EmptyString else None
    end
  end.

(** The text starts with one character or more, none of them a slash or a
    colon, and a colon. *)
Fixpoint starts_with_type (seen : bool) (s : str) : bool :=
  match s with
  | EmptyString => false
  | String a r =>
    if Ascii.eqb a ":" then seen
    else if Ascii.eqb a "/" then false
    else starts_with_type true r
  end.

Definition has_url_type (url : str) : bool :=
  let url := unwrap url in
  starts_with_type false (match before_tag url with
                          | Some p => p
                          | None => url
                          end).

End Reference.

Definition reference : Library :=
  {| json_loads := Reference.json_loads;
     json_dumps := Reference.json_dumps;
     py_str := Reference.py_str;
     has_url_type := Reference.has_url_type |}.

(** * Vocabulary of the properties *)

(** ** Strings *)

Fixpoint all_bytes (p : ascii -> bool) (s : str) : bool :=
  match s with
  | EmptyString => true
  | String a r => p a && all_bytes p r
  end.

Definition is_ascii (c : ascii) : bool := byte_in 0 127 c.


Fixpoint is_infix (p s : str) : bool :=
  String.prefix p s ||
  match s with
  | EmptyString => false
  | String _ r => is_infix p r
  end.

(** ** Reading Base64 back *)

(** The six bits of a character of the alphabet. *)
Definition b64_index (c : ascii) : option N :=
  let n := N_of_ascii c in
  (if (65 <=? n) && (n <=? 90) then Some (n - 65)
   else if (97 <=? n) && (n <=? 122) then Some (n - 71)
   else if (48 <=? n) && (n <=? 57) then Some (n + 4)
   else if n =? 43 then Some 62
   else if n =? 47 then Some 63
   else None)%N.

Definition unsextet (c : ascii) : option (bool * bool * bool * bool * bool * bool) :=
  match b64_index c with
  | Some n => Some (N.testbit n 5, N.testbit n 4, N.testbit n 3,
                    N.testbit n 2, N.testbit n 1, N.testbit n 0)
  | None => None
  end.

(** The bytes of a padded Base64 text. *)
Fixpoint b64decode (s : bytes) : option bytes :=
  match s with
  | EmptyString => Some EmptyString
  | String c1 (String c2 (String c3 (String c4 r))) =>
    match unsextet c1, unsextet c2 with
    | Some (a7, a6, a5, a4, a3, a2), Some (a1, a0, b7, b6, b5, b4) =>
      let a := Ascii a0 a1 a2 a3 a4 a5 a6 a7 in
      match unsextet c3, unsextet c4, r with
      | Some (b3, b2, b1, b0, c7, c6), Some (c5, c4', c3', c2', c1', c0), _ =>
        match b64decode r with
        | Some t =>
          Some (String a (String (Ascii b0 b1 b2 b3 b4 b5 b6 b7)
                  (String (Ascii c0 c1' c2' c3' c4' c5 c6 c7) t)))
        | None => None
        end
      | Some (b3, b2, b1, b0, _, _), None, EmptyString =>
        if Ascii.eqb c4 "=" then
          Some (String a (String (Ascii b0 b1 b2 b3 b4 b5 b6 b7) EmptyString))
        else None
      | None, None, EmptyString =>
        if Ascii.eqb c3 "=" && Ascii.eqb c4 "=" then Some (String a EmptyString)
        else None
      | _, _, _ => None
      end
    | _, _ => None
    end
  | _ => None
  end.

(** ** States *)

Definition log (req : Request) (st : State) : State :=
  {| sent := (sent st ++ [req])%list; stdout := stdout st |}.

Definition logs (reqs : list Request) (st : State) : State :=
  {| sent := (sent st ++ reqs)%list; stdout := stdout st |}.

Definition say (lines : list str) (st : State) : State :=
  {| sent := sent st; stdout := (stdout st ++ lines)%list |}.


(** ** The configuration *)

Definition required : list str := ["JIRA_URL"; "JIRA_EMAIL"; "JIRA_API_TOKEN"].

(** A value is absent when the variable is unset or set to the empty
    string, and present otherwise. *)
Definition absent (o : option str) : Prop := o = None \/ o = Some "".

Definition present (o : option str) : Prop :=
  exists s, o = Some s /\ s <> "".

Definition is_absent (o : option str) : bool :=
  match o with
  | None => true
  | Some s => String.eqb s ""
  end.

(** The required variables that are absent, in the order of [required]. *)
Definition absent_variables (environ : str -> option str) : list str :=
  filter (fun v => is_absent (environ v)) required.

Definition configured (environ : str -> option str) : Prop :=
  forall v, In v required -> present (environ v).

(** The environment without variable [v]. *)
Definition unset (v : str) (environ : str -> option str) : str -> option str :=
  fun k => if String.eqb k v then None else environ k.

(** The base URL and the header that a configured run works with. *)
Definition base_url (environ : str -> option str) : str :=
  rstrip "/" (fmt_opt (environ "JIRA_URL")).

Definition auth_header_of (environ : str -> option str) : str :=
  "Basic " ++ b64encode (fmt_opt (environ "JIRA_EMAIL") ++ ":"
                         ++ fmt_opt (environ "JIRA_API_TOKEN")).

(** The text [email:token] that [get_auth_header] encodes. *)
Definition credentials (environ : str -> option str) : str :=
  fmt_opt (environ "JIRA_EMAIL") ++ ":" ++ fmt_opt (environ "JIRA_API_TOKEN").

(** A [str] that [encode()] accepts: it holds no lone surrogate. *)
Definition encodable (s : str) : Prop := utf8_valid s = true.

Definition bullet (s : str) : str := "  - " ++ s.

(** What each script prints when [vars] are the absent variables. *)
Definition missing_report (vars : list str) : list str :=
  ([ "Error: Missing required environment variables:" ]
   ++ map bullet vars
   ++ [ nl ++ "Set them using:";
        "  export JIRA_URL=" ++ dq ++ "https://yoursite.atlassian.net" ++ dq;
        "  export JIRA_EMAIL=" ++ dq ++ "your.email@example.com" ++ dq;
        "  export JIRA_API_TOKEN=" ++ dq ++ "your-api-token" ++ dq;
        nl ++ "Get your API token at: https://id.atlassian.com/manage-profile/security/api-tokens"
      ]%string)%list.

Definition missing_report_v2 (vars : list str) : list str :=
  ([ str_mul "=" 60;
     "ERROR: Missing required environment variables";
     str_mul "=" 60 ]
   ++ map bullet vars
   ++ [ "";
        "Set them using (Windows CMD):";
        "  set JIRA_URL=https://yoursite.atlassian.net";
        "  set JIRA_EMAIL=your.email@example.com";
        "  set JIRA_API_TOKEN=your-api-token";
        "";
        "Or using (PowerShell):";
        "  $env:JIRA_URL=" ++ dq ++ "https://yoursite.atlassian.net" ++ dq;
        "  $env:JIRA_EMAIL=" ++ dq ++ "your.email@example.com" ++ dq;
        "  $env:JIRA_API_TOKEN=" ++ dq ++ "your-api-token" ++ dq;
        "";
        "Get your API token at:";
        "  https://id.atlassian.com/manage-profile/security/api-tokens";
        str_mul "=" 60 ]%string)%list.

(** ** Answers *)

(** The answer to a request sent from state [st]. *)
Definition answer (net : Network) (st : State) (req : Request) : Answer :=
  net (List.length (sent st)) req.

(** The exception, if any, that keeps a request from being built: its body
    cannot be encoded, or [urllib.request.Request] finds no type in its
    URL. *)
Definition refused (lib : Library) (req : Request) : option error :=
  match data req with
  | Some body =>
    if utf8_valid body
    then if has_url_type lib (full_url req) then None else Some ValueError
    else Some UnicodeEncodeError
  | None => if has_url_type lib (full_url req) then None else Some ValueError
  end.

(** How the attempt to send a request ends: a request that is not built is
    not handed to [urlopen], and the attempt breaks with the exception of
    building it. *)
Definition attempt (lib : Library) (net : Network) : Network :=
  fun n req =>
    match refused lib req with
    | Some e => Breaks e
    | None => net n req
    end.

(** The state after the attempt for [req]. *)
Definition note (lib : Library) (req : Request) (st : State) : State :=
  match refused lib req with
  | Some _ => st
  | None => log req st
  end.

(** The exceptions that the [except] clauses of [create_issue] name. *)
Definition caught (e : error) : bool :=
  match e with
  | HTTPError _ _ => true
  | URLError _ => true
  | _ => false
  end.

(** The answers to the requests for [issues], sent one after the other when
    [n] requests have been sent before. *)
Fixpoint replies (net : Network) (request_of : IssueTemplate -> Request)
    (n : nat) (issues : list IssueTemplate) : list Answer :=
  match issues with
  | [] => []
  | issue :: rest =>
    net n (request_of issue) :: replies net request_of (S n) rest
  end.

(** What [urlopen] and [read] make of an answer. *)
Definition opened (a : Answer) : result bytes :=
  match a with
  | HttpStatus code body =>
    if is_2xx code then Returned body else Raised (HTTPError code body)
  | TransportFailure reason => Raised (URLError reason)
  | Breaks e => Raised e
  end.

(** What the [except] clauses of [create_issue] make of an exception. *)
Definition handled (e : exn) : result creation_result :=
  match e with
  | Error (HTTPError code body) =>
    rbind (decode body) (fun error_body =>
    Returned (Failure (str_of_int code ++ ": " ++ error_body)))
  | Error (URLError reason) => Returned (Failure reason)
  | _ => Raised e
  end.

(** What [create_issue] makes of an answer. *)
Definition outcome (lib : Library) (a : Answer) : result creation_result :=
  match rbind (opened a) (fun body =>
        rbind (decode body) (fun text =>
        rbind (loads lib text) (fun result =>
        rbind (getitem result "key") (fun key =>
        rbind (getitem result "id") (fun id =>
        Returned (Success key id))))))
  with
  | Returned r => Returned r
  | Raised e => handled e
  end.

(** [create_issue] returns [r] on answer [a]. *)
Definition yields (lib : Library) (a : Answer) (r : creation_result) : Prop :=
  outcome lib a = Returned r.

(** What [check_project_exists] makes of an answer. *)
Definition probe_outcome (a : Answer) : result bool :=
  match a with
  | HttpStatus code _ => Returned (is_2xx code)
  | TransportFailure reason => Raised (URLError reason)
  | Breaks (HTTPError _ _) => Returned false
  | Breaks e => Raised e
  end.

(** The three ways in which an answer is reported as a result: a created
    issue, an HTTP error whose body is text, a [URLError].  The last two
    are reported alike when the exchange breaks with such an exception. *)
Inductive reports (lib : Library) : Answer -> creation_result -> Prop :=
| reports_created code body text members key id :
    is_2xx code = true ->
    decode body = Returned text ->
    json_loads lib text = inl (JObject members) ->
    dict_get "key" members = Some key ->
    dict_get "id" members = Some id ->
    reports lib (HttpStatus code body) (Success key id)
| reports_rejected code body text :
    is_2xx code = false ->
    decode body = Returned text ->
    reports lib (HttpStatus code body)
            (Failure (str_of_int code ++ ": " ++ text))
| reports_unreachable reason :
    reports lib (TransportFailure reason) (Failure reason)
| reports_http_error code body text :
    decode body = Returned text ->
    reports lib (Breaks (HTTPError code body))
            (Failure (str_of_int code ++ ": " ++ text))
| reports_url_error reason :
    reports lib (Breaks (URLError reason)) (Failure reason).

(** The answers of which [create_issue] makes no result, with the
    exception that leaves it: a body that is no UTF-8, whatever the status;
    a 2xx answer whose text [json.loads] does not read, or reads as a value
    that is no object, or as an object without [key] or without [id]; an
    exchange that breaks with an exception that no clause names, or with an
    [HTTPError] whose body is no UTF-8. *)
Inductive malformed (lib : Library) : Answer -> exn -> Prop :=
| malformed_not_text code body :
    utf8_valid body = false ->
    malformed lib (HttpStatus code body) UnicodeDecodeError
| malformed_not_json code body text e :
    is_2xx code = true ->
    decode body = Returned text ->
    json_loads lib text = inr e ->
    caught e = false ->
    malformed lib (HttpStatus code body) e
| malformed_not_object code body text v :
    is_2xx code = true ->
    decode body = Returned text ->
    json_loads lib text = inl v ->
    (forall members, v <> JObject members) ->
    malformed lib (HttpStatus code body) TypeError
| malformed_no_key code body text members :
    is_2xx code = true ->
    decode body = Returned text ->
    json_loads lib text = inl (JObject members) ->
    dict_get "key" members = None ->
    malformed lib (HttpStatus code body) (KeyError "key")
| malformed_no_id code body text members key :
    is_2xx code = true ->
    decode body = Returned text ->
    json_loads lib text = inl (JObject members) ->
    dict_get "key" members = Some key ->
    dict_get "id" members = None ->
    malformed lib (HttpStatus code body) (KeyError "id")
| malformed_broken e :
    caught e = false ->
    malformed lib (Breaks e) e
| malformed_error_body code body :
    utf8_valid body = false ->
    malformed lib (Breaks (HTTPError code body)) UnicodeDecodeError.

(** The answers on which [create_issue] raises, with the exception that
    leaves it: the malformed ones and, should the parser of the library
    raise an [HTTPError] whose body is no UTF-8, the answer it was given,
    for the handler fails to read that body. *)
Inductive escapes (lib : Library) : Answer -> exn -> Prop :=
| escapes_malformed a e :
    malformed lib a e ->
    escapes lib a e
| escapes_parser_error status body text code error_body :
    is_2xx status = true ->
    decode body = Returned text ->
    json_loads lib text = inr (HTTPError code error_body) ->
    utf8_valid error_body = false ->
    escapes lib (HttpStatus status body) UnicodeDecodeError.

(** A library whose parser raises neither [HTTPError] nor [URLError], as
    [json.loads] does not. *)
Definition plain_parser (lib : Library) : Prop :=
  forall text e, json_loads lib text = inr e -> caught e = false.



(** The probe is answered with a 2xx status. *)
Definition project_accessible (a : Answer) : Prop :=
  exists code body, a = HttpStatus code body /\ is_2xx code = true.

Definition succeeded (r : creation_result) : bool :=
  match r with
  | Success _ _ => true
  | Failure _ => false
  end.

(** The two accumulators of the loop, from the results in order. *)
Definition created_keys (rs : list creation_result) : list json :=
  flat_map (fun r => match r with
                     | Success key _ => [key]
                     | Failure _ => []
                     end) rs.

Definition failed_summaries (issues : list IssueTemplate)
    (rs : list creation_result) : list str :=
  flat_map (fun p => match snd p with
                     | Success _ _ => []
                     | Failure _ => [summary (fst p)]
                     end) (combine issues rs).

Definition made_item (lib : Library) (jira_url : str) (issue : IssueTemplate)
    (key : json) : create_jira_issues_v2.created_item :=
  {| create_jira_issues_v2.item_key := key;
     create_jira_issues_v2.item_summary := summary issue;
     create_jira_issues_v2.item_url :=
       create_jira_issues_v2.browse_url lib jira_url key |}.

Definition created_items (lib : Library) (jira_url : str)
    (issues : list IssueTemplate) (rs : list creation_result)
    : list create_jira_issues_v2.created_item :=
  flat_map (fun p => match snd p with
                     | Success key _ => [made_item lib jira_url (fst p) key]
                     | Failure _ => []
                     end) (combine issues rs).

(** The field [name] of the [fields] object of a request body. *)
Definition field (name : str) (payload : json) : option json :=
  match payload with
  | JObject [("fields", JObject fields)] => dict_get name fields
  | _ => None
  end.

(** ** What a configured run prints *)

(** The lines of one pass through the loop of the first script. *)
Definition creating_line (issue : IssueTemplate) : str :=
  nl ++ "Creating: " ++ slice_to 50 (summary issue) ++ "...".

Definition attempt_lines (lib : Library) (jira_url : str)
    (issue : IssueTemplate) (r : creation_result) : list str :=
  creating_line issue
  :: match r with
     | Success key _ =>
       [ "  ✓ Created: " ++ fmt lib key;
         "    URL: " ++ create_jira_issues.browse_url lib jira_url key ]
     | Failure error => [ "  ✗ Failed: " ++ error ]
     end.

Definition loop_lines (lib : Library) (jira_url : str)
    (issues : list IssueTemplate) (rs : list creation_result) : list str :=
  flat_map (fun p => attempt_lines lib jira_url (fst p) (snd p))
           (combine issues rs).

Definition banner (jira_url : str) (issues : list IssueTemplate) : list str :=
  [ "Creating " ++ str_of_nat (List.length issues) ++ " issues in project "
    ++ create_jira_issues.PROJECT_KEY ++ "...";
    "Jira URL: " ++ jira_url;
    str_mul "-" 50 ].

Definition summary_report (lib : Library) (jira_url : str)
    (created : list json) (failed : list str) : list str :=
  ([ nl ++ str_mul "=" 50;
     "Summary: " ++ str_of_nat (List.length created) ++ " created, "
     ++ str_of_nat (List.length failed) ++ " failed" ]%string
   ++ match created with
      | [] => []
      | _ => (nl ++ "Created issues:")%string
             :: map (fun key =>
                       ("  - " ++ create_jira_issues.browse_url lib jira_url key)%string)
                    created
      end
   ++ match failed with
      | [] => []
      | _ => (nl ++ "Failed issues:")%string :: map bullet failed
      end)%list.

(** The status with which a run ends after its loop. *)
Definition final_result (failed : list str) : result unit :=
  match failed with
  | [] => Returned tt
  | _ => Raised (SystemExit 1)
  end.

(** The same for the second script. *)
Definition heading_v2 (total i : nat) (issue : IssueTemplate) : str :=
  nl ++ "[" ++ str_of_nat i ++ "/" ++ str_of_nat total ++ "] "
  ++ (if (45 <? len (summary issue))%nat
      then slice_to 45 (summary issue) ++ "..."
      else summary issue).

Definition attempt_lines_v2 (lib : Library) (total i : nat)
    (issue : IssueTemplate) (r : creation_result) : list str :=
  heading_v2 total i issue
  :: match r with
     | Success key _ => [ "  ✓ Created: " ++ fmt lib key ]
     | Failure error => [ "  ✗ Failed: " ++ slice_to 100 error ]
     end.

Fixpoint loop_lines_v2 (lib : Library) (total i : nat)
    (issues : list IssueTemplate) (rs : list creation_result) : list str :=
  match issues, rs with
  | issue :: issues', r :: rs' =>
    (attempt_lines_v2 lib total i issue r
     ++ loop_lines_v2 lib total (S i) issues' rs')%list
  | _, _ => []
  end.

Definition banner_v2 (jira_url : str) (issues : list IssueTemplate) : list str :=
  [ str_mul "=" 60;
    "Beyond Burndown - Jira Issue Creator";
    str_mul "=" 60;
    "Jira URL: " ++ jira_url;
    "Project:  " ++ create_jira_issues_v2.PROJECT_KEY;
    "Issues:   " ++ str_of_nat (List.length issues);
    str_mul "-" 60;
    nl ++ "Checking project " ++ create_jira_issues_v2.PROJECT_KEY ++ "..." ].

Definition project_found : list str :=
  [ "  ✓ Project " ++ create_jira_issues_v2.PROJECT_KEY ++ " found";
    nl ++ "Creating issues...";
    str_mul "-" 60 ].

Definition project_not_found : list str :=
  [ "ERROR: Project '" ++ create_jira_issues_v2.PROJECT_KEY
    ++ "' not found or not accessible.";
    "Check that:";
    "  1. The project key is correct";
    "  2. Your API token has access to this project";
    "  3. Your Jira URL is correct" ].

Definition item_lines (lib : Library)
    (item : create_jira_issues_v2.created_item) : list str :=
  [ "  " ++ fmt lib (create_jira_issues_v2.item_key item) ++ ": "
    ++ slice_to 40 (create_jira_issues_v2.item_summary item);
    "    " ++ create_jira_issues_v2.item_url item ].

Definition summary_report_v2 (lib : Library)
    (created : list create_jira_issues_v2.created_item) (failed : list str)
    : list str :=
  ([ nl ++ str_mul "=" 60;
     "SUMMARY";
     str_mul "=" 60;
     "Created: " ++ str_of_nat (List.length created);
     "Failed:  " ++ str_of_nat (List.length failed) ]%string
   ++ match created with
      | [] => []
      | _ => (nl ++ "✓ Created Issues:")%string :: flat_map (item_lines lib) created
      end
   ++ match failed with
      | [] => [ (nl ++ str_mul "=" 60)%string; "Done!" ]
      | _ => (nl ++ "✗ Failed Issues:")%string :: map bullet failed
      end)%list.

(** A template without labels: the key is missing or the list is empty. *)
Definition has_no_labels (issue : IssueTemplate) : Prop :=
  match labels issue with
  | None => True
  | Some [] => True
  | Some (_ :: _) => False
  end.

(** ** Lines that carry a browse URL *)





(** ** Inputs of the examples *)

Module Examples.

Definition environ_of (url email token : option str) : str -> option str :=
  fun k =>
    if String.eqb k "JIRA_URL" then url
    else if String.eqb k "JIRA_EMAIL" then email
    else if String.eqb k "JIRA_API_TOKEN" then token
    else None.

(** A full configuration, with a trailing slash on the URL. *)
Definition environ : str -> option str :=
  environ_of (Some "https://x.atlassian.net/") (Some "a@b.com") (Some "tok123").


(** A URL of slashes only. *)
Definition environ_slashes : str -> option str :=
  environ_of (Some "//") (Some "a@b.com") (Some "tok123").

(** No email, and an empty token. *)
Definition environ_incomplete : str -> option str :=
  environ_of (Some "https://x.atlassian.net/") None (Some "").

Definition created_body (n : nat) : bytes :=
  "{" ++ dq ++ "key" ++ dq ++ ":" ++ dq ++ "BB-" ++ str_of_nat n ++ dq ++ ","
  ++ dq ++ "id" ++ dq ++ ":" ++ dq ++ str_of_int (10000 + Z.of_nat n) ++ dq ++ "}".

Definition bad_request_body : bytes :=
  "{" ++ dq ++ "errorMessages" ++ dq ++ ":[" ++ dq ++ "bad request" ++ dq ++ "]}".

(** Every request is answered 201 with a fresh key. *)
Definition net_created : Network :=
  fun n _ => HttpStatus 201 (created_body (S n)).

(** The request sent after [k] others is refused, the others succeed. *)
Definition net_refusing (k : nat) : Network :=
  fun n _ =>
    if Nat.eqb n k then HttpStatus 400 bad_request_body
    else HttpStatus 201 (created_body (S n)).


(** The request sent after [k] others is answered 500 with a body that is
    no UTF-8, the others succeed. *)
Definition net_garbled (k : nat) : Network :=
  fun n _ =>
    if Nat.eqb n k then HttpStatus 500 (String (ascii_of_nat 255) "")
    else HttpStatus 201 (created_body (S n)).


(** No request gets through. *)
Definition net_down : Network :=
  fun _ _ => TransportFailure "[Errno 111] Connection refused".

Definition template : IssueTemplate :=
  {| summary := "Write the release notes";
     description := "One paragraph.";
     issuetype := None;
     labels := None |}.

Definition template_empty_labels : IssueTemplate :=
  {| summary := "Write the release notes";
     description := "One paragraph.";
     issuetype := None;
     labels := Some [] |}.

Definition url : str := "https://x.atlassian.net".

Definition header : str := "Basic YUBiLmNvbTp0b2sxMjM=".



End Examples.
(** * Vocabulary of the further properties *)

(** A character of the Base64 alphabet, or the padding. *)
Definition is_b64_char (c : ascii) : bool :=
  match b64_index c with
  | Some _ => true
  | None => Ascii.eqb c "="
  end.

(** [c in s] for a one-character [c]. *)
Fixpoint occurs (c : ascii) (s : str) : bool :=
  match s with
  | EmptyString => false
  | String a r => Ascii.eqb a c || occurs c r
  end.

(** The names of the fields of a request body, in order. *)
Definition field_names (payload : json) : list str :=
  match payload with
  | JObject [("fields", JObject fields)] => map fst fields
  | _ => []
  end.

(** The text of a rich-text document of one paragraph of one text node. *)
Definition doc_text (v : json) : option json :=
  match v with
  | JObject [ ("type", JString "doc"); ("version", JInt 1);
              ("content",
               JArray [ JObject [ ("type", JString "paragraph");
                                  ("content",
                                   JArray [ JObject [ ("type", JString "text");
                                                      ("text", t) ] ]) ] ]) ] =>
    Some t
  | _ => None
  end.

(** The type of issue that a template asks for. *)
Definition issuetype_name (issue : IssueTemplate) : str :=
  match issuetype issue with
  | Some t => t
  | None => "Task"
  end.

(** The environment with [url] as its [JIRA_URL]. *)
Definition with_url (url : str) (environ : str -> option str) : str -> option str :=
  fun k => if String.eqb k "JIRA_URL" then Some url else environ k.

(** Another account on the same site, its URL written without the slash. *)
Definition environ_other_account : str -> option str :=
  Examples.environ_of (Some "https://x.atlassian.net") (Some "c@d.org")
                      (Some "secret").
(** * Proofs *)

(** ** Strings *)

Lemma all_bytes_get p s : all_bytes p s = true ->
  forall n c, String.get n s = Some c -> p c = true.
Proof.
  induction s as [|a r IH]; simpl; intros Hall n c Hget; [discriminate|].
  apply andb_true_iff in Hall as [Ha Hr].
  destruct n as [|n]; [now inversion Hget; subst|].
  eapply IH; eassumption.
Qed.

(** Text made of ASCII bytes decodes to itself. *)
Lemma utf8_valid_ascii s : all_bytes is_ascii s = true -> utf8_valid s = true.
Proof.
  induction s as [|a r IH]; [reflexivity|].
  intros H. apply andb_true_iff in H as [Ha Hr].
  unfold is_ascii in Ha. cbn [utf8_valid]. rewrite Ha. now apply IH.
Qed.

Lemma decode_ascii s : all_bytes is_ascii s = true -> decode s = Returned s.
Proof. intros H. unfold decode. now rewrite utf8_valid_ascii. Qed.



Lemma rstrip_fixed c s : ends_with c s = false -> rstrip c s = s.
Proof.
  induction s as [|a r IH]; [reflexivity|].
  intros H. cbn [rstrip]. destruct r as [|b r'].
  - simpl in *. now rewrite H.
  - rewrite IH by exact H. reflexivity.
Qed.


(** ** Base64 *)

Lemma b64encode_ind (P : bytes -> Prop) :
  P "" ->
  (forall a, P (String a "")) ->
  (forall a b, P (String a (String b ""))) ->
  (forall a b c r, P r -> P (String a (String b (String c r)))) ->
  forall s, P s.
Proof.
  intros H0 H1 H2 H3.
  fix IH 1. intros [|a [|b [|c r]]];
    [exact H0 | apply H1 | apply H2 | apply H3; apply IH].
Qed.

Lemma b64_char_ascii n : is_ascii (b64_char n) = true.
Proof.
  unfold b64_char. destruct (String.get (N.to_nat n) b64_alphabet) eqn:E.
  - eapply all_bytes_get; [|exact E]. reflexivity.
  - reflexivity.
Qed.

Lemma b64encode_ascii s : all_bytes is_ascii (b64encode s) = true.
Proof.
  induction s as [|a|a b|a b c r IH] using b64encode_ind;
    [reflexivity|destruct a|destruct a, b|destruct a, b, c];
    cbn [b64encode all_bytes]; unfold sextet;
    rewrite ?b64_char_ascii, ?IH; reflexivity.
Qed.

(** Four characters for every three bytes, the last group padded. *)
Lemma b64encode_length s :
  String.length (b64encode s) = 4 * ((String.length s + 2) / 3).
Proof.
  induction s as [|a|a b|a b c r IH] using b64encode_ind;
    [reflexivity|now destruct a|now destruct a, b|].
  destruct a, b, c. cbn [b64encode String.length]. rewrite IH.
  replace (S (S (S (String.length r))) + 2) with (1 * 3 + (String.length r + 2)) by lia.
  rewrite Nat.div_add_l by lia. lia.
Qed.

Lemma unsextet_sextet b5 b4 b3 b2 b1 b0 :
  unsextet (sextet b5 b4 b3 b2 b1 b0) = Some (b5, b4, b3, b2, b1, b0).
Proof. destruct b5, b4, b3, b2, b1, b0; reflexivity. Qed.

Lemma unsextet_pad : unsextet "=" = None.
Proof. reflexivity. Qed.

(** The text that [b64encode] writes reads back as the bytes it was given. *)
Lemma b64decode_b64encode s : b64decode (b64encode s) = Some s.
Proof.
  induction s as [|a|a b|a b c r IH] using b64encode_ind.
  - reflexivity.
  - destruct a as [a0 a1 a2 a3 a4 a5 a6 a7].
    cbn [b64encode b64decode]. rewrite !unsextet_sextet, unsextet_pad.
    reflexivity.
  - destruct a as [a0 a1 a2 a3 a4 a5 a6 a7], b as [b0 b1 b2 b3 b4 b5 b6 b7].
    cbn [b64encode b64decode]. rewrite !unsextet_sextet, unsextet_pad.
    reflexivity.
  - destruct a as [a0 a1 a2 a3 a4 a5 a6 a7], b as [b0 b1 b2 b3 b4 b5 b6 b7],
      c as [c0 c1 c2 c3 c4 c5 c6 c7].
    cbn [b64encode b64decode]. rewrite !unsextet_sextet, IH. reflexivity.
Qed.

(** The test vectors of RFC 4648, section 10. *)
Example b64encode_rfc4648 :
  map b64encode ["" ; "f"; "fo"; "foo"; "foob"; "fooba"; "foobar"]
  = [""; "Zg=="; "Zm8="; "Zm9v"; "Zm9vYg=="; "Zm9vYmE="; "Zm9vYmFy"].
Proof. reflexivity. Qed.

(** ** The authorization header *)

Lemma get_auth_header_returns email api_token :
  encodable (email ++ ":" ++ api_token) ->
  get_auth_header email api_token
  = Returned ("Basic " ++ b64encode (email ++ ":" ++ api_token)).
Proof.
  unfold encodable, get_auth_header, encode. intros ->. cbn [rbind].
  now rewrite decode_ascii by apply b64encode_ascii.
Qed.

Lemma get_auth_header_raises email api_token :
  utf8_valid (email ++ ":" ++ api_token) = false ->
  get_auth_header email api_token = Raised UnicodeEncodeError.
Proof. unfold get_auth_header, encode. now intros ->. Qed.

(** C7 as stated fails: there is a failure path.  A token that came from
    the environment with a byte that is no UTF-8 holds a lone surrogate, and
    [credentials.encode()] raises [UnicodeEncodeError] on it. *)
Lemma get_auth_header_fails_on_surrogate :
  get_auth_header "a@b.com" (String (ascii_of_nat 255) "tok123")
  = Raised UnicodeEncodeError
  /\ ~ (forall email api_token,
          get_auth_header email api_token
          = Returned ("Basic " ++ b64encode (email ++ ":" ++ api_token))).
Proof.
  assert (H : get_auth_header "a@b.com" (String (ascii_of_nat 255) "tok123")
              = Raised UnicodeEncodeError) by reflexivity.
  split; [exact H|]. intros Hall. rewrite Hall in H. discriminate H.
Qed.

(** C7, as amended: [get_auth_header] returns exactly when [email:token]
    can be encoded as UTF-8, and then it returns "Basic " followed by the
    Base64 text of these bytes, a text that reads back as them; otherwise
    it raises [UnicodeEncodeError].  On ("a@b.com", "tok123") the header is
    the fixed text below. *)
Theorem get_auth_header_basic_base64 :
  (forall email api_token,
     encodable (email ++ ":" ++ api_token) ->
     get_auth_header email api_token
     = Returned ("Basic " ++ b64encode (email ++ ":" ++ api_token)))
  /\ (forall email api_token,
        ~ encodable (email ++ ":" ++ api_token) ->
        get_auth_header email api_token = Raised UnicodeEncodeError)
  /\ (forall credentials, b64decode (b64encode credentials) = Some credentials)
  /\ get_auth_header "a@b.com" "tok123" = Returned "Basic YUBiLmNvbTp0b2sxMjM="
  /\ b64encode "a@b.com:tok123" = "YUBiLmNvbTp0b2sxMjM=".
Proof.
  split; [exact get_auth_header_returns|].
  split.
  { intros email api_token H. apply get_auth_header_raises.
    unfold encodable in H. now destruct (utf8_valid _). }
  split; [exact b64decode_b64encode|split; reflexivity].
Qed.

(** ** One request *)

(** The [except] clauses of [create_issue]. *)
Lemma try_except_handled (m : M creation_result) st :
  try_except m
    (fun e =>
       match e with
       | Error (HTTPError code body) =>
         Some (error_body <- lift (decode body) ;;
               ret (Failure (str_of_int code ++ ": " ++ error_body)))
       | Error (URLError reason) => Some (ret (Failure reason))
       | _ => None
       end) st
  = match m st with
    | (Returned r, st') => (Returned r, st')
    | (Raised e, st') => (handled e, st')
    end.
Proof.
  unfold try_except. destruct (m st) as [[r|e] st']; [reflexivity|].
  destruct e as [[code body|reason| | | | | | | | |name]|c]; try reflexivity.
  unfold bind, lift, ret, handled. now destruct (decode body).
Qed.

(** The body of the [try] of [create_issue]. *)
Lemma exchange_run lib net req st :
  (response <- urlopen net req ;;
   text <- lift (decode (read response)) ;;
   result <- lift (loads lib text) ;;
   key <- lift (getitem result "key") ;;
   id <- lift (getitem result "id") ;;
   ret (Success key id)) st
  = (rbind (opened (answer net st req)) (fun body =>
     rbind (decode body) (fun text =>
     rbind (loads lib text) (fun result =>
     rbind (getitem result "key") (fun key =>
     rbind (getitem result "id") (fun id =>
     Returned (Success key id)))))),
     log req st).
Proof.
  unfold bind at 1. unfold urlopen, answer, opened, log.
  destruct (net (List.length (sent st)) req) as [code body|reason|e];
    [|reflexivity|reflexivity].
  destruct (is_2xx code); [|reflexivity].
  cbn [rbind read]. unfold bind, lift, ret.
  destruct (decode body) as [text|e]; [cbn [rbind]|reflexivity].
  destruct (loads lib text) as [v|e]; [cbn [rbind]|reflexivity].
  destruct (getitem v "key") as [key|e]; [cbn [rbind]|reflexivity].
  destruct (getitem v "id") as [id|e]; reflexivity.
Qed.

Lemma outcome_refused e : caught e = false -> forall lib, outcome lib (Breaks e) = Raised e.
Proof. intros H lib. now destruct e. Qed.

Lemma create_issue_run lib net jira_url auth_header project_key issue_data st :
  let req := create_jira_issues.issue_request
               lib jira_url auth_header project_key issue_data in
  create_jira_issues.create_issue lib net jira_url auth_header project_key issue_data st
  = (outcome lib (answer (attempt lib net) st req), note lib req st).
Proof.
  cbv zeta.
  unfold create_jira_issues.create_issue, create_jira_issues.issue_request,
    attempt, note, refused, answer.
  cbn [data full_url]. unfold bind at 1. unfold lift at 1. unfold encode.
  destruct (utf8_valid _); [|reflexivity].
  unfold bind at 1. unfold lift at 1. unfold request_Request.
  destruct (has_url_type lib _); [|reflexivity].
  rewrite try_except_handled, exchange_run. unfold outcome, answer.
  now destruct (rbind _ _).
Qed.

Lemma create_issue_v2_run lib net jira_url auth_header project_key issue_data st :
  let req := create_jira_issues_v2.issue_request
               lib jira_url auth_header project_key issue_data in
  create_jira_issues_v2.create_issue lib net jira_url auth_header project_key issue_data st
  = (outcome lib (answer (attempt lib net) st req), note lib req st).
Proof.
  cbv zeta.
  unfold create_jira_issues_v2.create_issue, create_jira_issues_v2.issue_request,
    attempt, note, refused, answer.
  cbn [data full_url]. unfold bind at 1. unfold lift at 1. unfold encode.
  destruct (utf8_valid _); [|reflexivity].
  unfold bind at 1. unfold lift at 1. unfold request_Request.
  destruct (has_url_type lib _); [|reflexivity].
  rewrite try_except_handled, exchange_run. unfold outcome, answer.
  now destruct (rbind _ _).
Qed.

Lemma check_project_exists_run lib net jira_url auth_header project_key st :
  let req := create_jira_issues_v2.project_request jira_url auth_header project_key in
  create_jira_issues_v2.check_project_exists lib net jira_url auth_header project_key st
  = (probe_outcome (answer (attempt lib net) st req), note lib req st).
Proof.
  cbv zeta.
  unfold create_jira_issues_v2.check_project_exists,
    create_jira_issues_v2.project_request, attempt, note, refused, answer.
  cbn [data full_url]. unfold bind at 1. unfold lift at 1. unfold request_Request.
  destruct (has_url_type lib _); [|reflexivity].
  unfold try_except, bind, urlopen, ret, probe_outcome, log.
  destruct (net (List.length (sent st)) _) as [code body|reason|e].
  - now destruct (is_2xx code).
  - reflexivity.
  - now destruct e.
Qed.

Lemma reports_outcome lib a r : reports lib a r -> outcome lib a = Returned r.
Proof.
  intros H. destruct H as [code body text members key id H2 Hd Hj Hk Hi
                          |code body text H2 Hd|reason
                          |code body text Hd|reason];
    unfold outcome, opened.
  - rewrite H2. cbn [rbind]. rewrite Hd. cbn [rbind]. unfold loads. rewrite Hj.
    cbn [rbind getitem]. now rewrite Hk, Hi.
  - rewrite H2. cbn [rbind handled]. now rewrite Hd.
  - reflexivity.
  - cbn [rbind handled]. now rewrite Hd.
  - reflexivity.
Qed.

(** What the [except] clauses return is a failure. *)
Lemma handled_failure e r : handled e = Returned r -> exists error, r = Failure error.
Proof.
  destruct e as [[code body|reason| | | | | | | | |name]|c]; try discriminate.
  - cbn. destruct (decode body); [|discriminate]. intros [= <-]. eauto.
  - intros [= <-]. eauto.
Qed.

(** A success comes from a 2xx answer that is read as an object with
    [key] and [id], and from no other. *)
Lemma outcome_created lib a key id :
  outcome lib a = Returned (Success key id) -> reports lib a (Success key id).
Proof.
  unfold outcome, opened. destruct a as [code body|reason|e].
  - destruct (is_2xx code) eqn:H2; cbn [rbind].
    + destruct (decode body) as [text|e] eqn:Hd; cbn [rbind];
        [|intros H; apply handled_failure in H as [x H]; discriminate H].
      unfold loads. destruct (json_loads lib text) as [v|e] eqn:Hj; cbn [rbind];
        [|intros H; apply handled_failure in H as [x H]; discriminate H].
      destruct v; cbn [getitem rbind];
        try (intros H; apply handled_failure in H as [x H]; discriminate H).
      destruct (dict_get "key" members) as [k|] eqn:Hk; cbn [rbind];
        [|intros H; apply handled_failure in H as [x H]; discriminate H].
      destruct (dict_get "id" members) as [i|] eqn:Hi; cbn [rbind];
        [|intros H; apply handled_failure in H as [x H]; discriminate H].
      intros [= <- <-]. eapply reports_created; eassumption.
    + intros H. apply handled_failure in H as [x H]. discriminate H.
  - cbn. discriminate.
  - cbn [rbind]. intros H. apply handled_failure in H as [x H]. discriminate H.
Qed.

Lemma malformed_outcome lib a e : malformed lib a e -> outcome lib a = Raised e.
Proof.
  intros H. destruct H as [code body Hv
                          |code body text e H2 Hd Hj Hc
                          |code body text v H2 Hd Hj Hv
                          |code body text members H2 Hd Hj Hk
                          |code body text members key H2 Hd Hj Hk Hi
                          |e Hc
                          |code body Hv];
    unfold outcome, opened.
  - unfold decode at 1. destruct (is_2xx code); cbn [rbind handled];
      unfold decode; now rewrite Hv.
  - rewrite H2. cbn [rbind]. rewrite Hd. cbn [rbind]. unfold loads. rewrite Hj.
    cbn [rbind]. now destruct e.
  - rewrite H2. cbn [rbind]. rewrite Hd. cbn [rbind]. unfold loads. rewrite Hj.
    cbn [rbind]. destruct v; try reflexivity. now elim (Hv members).
  - rewrite H2. cbn [rbind]. rewrite Hd. cbn [rbind]. unfold loads. rewrite Hj.
    cbn [rbind getitem]. now rewrite Hk.
  - rewrite H2. cbn [rbind]. rewrite Hd. cbn [rbind]. unfold loads. rewrite Hj.
    cbn [rbind getitem]. now rewrite Hk, Hi.
  - cbn [rbind]. now destruct e.
  - cbn [rbind handled]. unfold decode. now rewrite Hv.
Qed.

Lemma decode_raised b : utf8_valid b = false -> decode b = Raised UnicodeDecodeError.
Proof. intros H. unfold decode. now rewrite H. Qed.

Lemma decode_cases b :
  (utf8_valid b = true /\ decode b = Returned b)
  \/ (utf8_valid b = false /\ decode b = Raised UnicodeDecodeError).
Proof. unfold decode. destruct (utf8_valid b); [now left|now right]. Qed.

Lemma escapes_outcome lib a e : escapes lib a e -> outcome lib a = Raised e.
Proof.
  intros [a' e' H|status body text code error_body H2 Hd Hj Hv].
  - now apply malformed_outcome.
  - unfold outcome, opened. rewrite H2. cbn [rbind]. rewrite Hd. cbn [rbind].
    unfold loads. rewrite Hj. cbn [rbind handled].
    now rewrite (decode_raised _ Hv).
Qed.

(** What the [except] clauses let through or raise. *)
Lemma handled_escapes e e' :
  handled (Error e) = Raised e' ->
  (caught e = false /\ e' = Error e)
  \/ (exists code body,
         e = HTTPError code body /\ utf8_valid body = false
         /\ e' = Error UnicodeDecodeError).
Proof.
  destruct e; cbn [handled caught]; try (intros [= <-]; now left).
  destruct (decode_cases body) as [[Hv ->]|[Hv ->]]; cbn [rbind];
    [discriminate|].
  intros [= <-]. right. now exists code, body.
Qed.

Lemma outcome_escapes lib a e : outcome lib a = Raised e -> escapes lib a e.
Proof.
  unfold outcome, opened. destruct a as [code body|reason|x].
  - destruct (is_2xx code) eqn:H2; cbn [rbind].
    + destruct (decode body) as [text|x] eqn:Hd; cbn [rbind].
      * unfold loads. destruct (json_loads lib text) as [v|x] eqn:Hj; cbn [rbind].
        -- destruct v; cbn [getitem rbind handled];
             try (intros [= <-]; apply escapes_malformed;
                  apply (malformed_not_object lib code body text _ H2 Hd Hj);
                  intros members; discriminate).
           destruct (dict_get "key" members) as [key|] eqn:Hk;
             cbn [rbind handled].
           ++ destruct (dict_get "id" members) as [id|] eqn:Hi;
                cbn [rbind handled]; [discriminate|].
              intros [= <-]. apply escapes_malformed.
              now apply (malformed_no_id lib code body text members key).
           ++ intros [= <-]. apply escapes_malformed.
              now apply (malformed_no_key lib code body text members).
        -- intros H. apply handled_escapes in H
             as [[Hc ->]|(c & b & -> & Hv & ->)].
           ++ apply escapes_malformed.
              now apply (malformed_not_json lib code body text x).
           ++ now apply (escapes_parser_error lib code body text c b).
      * unfold decode in Hd. destruct (utf8_valid body) eqn:Hv; [discriminate|].
        injection Hd as <-. cbn [handled]. intros [= <-].
        apply escapes_malformed. now apply malformed_not_text.
    + cbn [handled]. destruct (decode_cases body) as [[Hv ->]|[Hv ->]];
        cbn [rbind]; [discriminate|].
      intros [= <-]. apply escapes_malformed. now apply malformed_not_text.
  - cbn [rbind handled]. discriminate.
  - cbn [rbind]. intros H. apply handled_escapes in H
      as [[Hc ->]|(c & b & -> & Hv & ->)].
    + apply escapes_malformed. now apply malformed_broken.
    + apply escapes_malformed. now apply malformed_error_body.
Qed.

(** With a parser that raises nothing that is caught, the answers of which
    [create_issue] makes a result are the reported ones, and the others are
    the malformed ones. *)
Lemma outcome_malformed lib a e :
  plain_parser lib -> outcome lib a = Raised e -> malformed lib a e.
Proof.
  intros Hlib H. apply outcome_escapes in H.
  destruct H as [a' e' H|status body text code error_body H2 Hd Hj Hv];
    [exact H|].
  apply Hlib in Hj. discriminate Hj.
Qed.

Lemma outcome_reports lib a r :
  plain_parser lib -> outcome lib a = Returned r -> reports lib a r.
Proof.
  intros Hlib. unfold outcome, opened.
  destruct a as [code body|reason|x].
  - destruct (is_2xx code) eqn:H2; cbn [rbind handled].
    + destruct (decode body) as [text|e] eqn:Hd; cbn [rbind].
      * unfold loads. destruct (json_loads lib text) as [v|e] eqn:Hj; cbn [rbind].
        -- destruct v; cbn [getitem rbind handled]; try discriminate.
           destruct (dict_get "key" members) as [key|] eqn:Hk;
             cbn [rbind handled]; [|discriminate].
           destruct (dict_get "id" members) as [id|] eqn:Hi;
             cbn [rbind handled]; [|discriminate].
           intros [= <-]. eapply reports_created; eassumption.
        -- apply Hlib in Hj. destruct e; try discriminate Hj; discriminate.
      * unfold decode in Hd. destruct (utf8_valid body); [discriminate|].
        injection Hd as <-. discriminate.
    + destruct (decode body) as [text|e] eqn:Hd; cbn [rbind]; [|discriminate].
      intros [= <-]. now apply reports_rejected.
  - cbn. intros [= <-]. constructor.
  - cbn [rbind]. destruct x; cbn [handled]; try discriminate.
    + destruct (decode body) as [text|e] eqn:Hd; cbn [rbind]; [|discriminate].
      intros [= <-]. now apply reports_http_error.
    + intros [= <-]. apply reports_url_error.
Qed.

Lemma reported_or_malformed lib a :
  plain_parser lib ->
  (exists r, reports lib a r) \/ (exists e, malformed lib a e).
Proof.
  intros Hlib. destruct (outcome lib a) as [r|e] eqn:Ho.
  - left. exists r. now apply outcome_reports.
  - right. exists e. now apply outcome_malformed.
Qed.

(** No request is handed to [urlopen] without being built, and a reported
    answer is one to a request that was. *)
Lemma attempt_sent lib net n req :
  refused lib req = None -> attempt lib net n req = net n req.
Proof. unfold attempt. now intros ->. Qed.

Lemma attempt_refused lib net n req e :
  refused lib req = Some e -> attempt lib net n req = Breaks e.
Proof. unfold attempt. now intros ->. Qed.

Lemma refused_uncaught lib req e : refused lib req = Some e -> caught e = false.
Proof.
  unfold refused. destruct (data req) as [body|];
    [destruct (utf8_valid body)|]; destruct (has_url_type lib (full_url req));
    try discriminate; now intros [= <-].
Qed.

Lemma yields_sent lib net n req r :
  yields lib (attempt lib net n req) r -> refused lib req = None.
Proof.
  unfold yields, attempt. destruct (refused lib req) as [e|] eqn:E; [|reflexivity].
  rewrite (outcome_refused e (refused_uncaught _ _ _ E)). discriminate.
Qed.

Lemma note_sent lib req st : refused lib req = None -> note lib req st = log req st.
Proof. unfold note. now intros ->. Qed.

(** C1 as stated fails: an HTTP error response whose body is no UTF-8
    gives no failure result.  The clause that catches the [HTTPError]
    decodes the body, and the [UnicodeDecodeError] of that leaves
    [create_issue]. *)
Lemma create_issue_error_body_not_text :
  answer (Examples.net_garbled 0) start
    (create_jira_issues.issue_request
       reference Examples.url Examples.header "BB" Examples.template)
  = HttpStatus 500 (String (ascii_of_nat 255) "")
  /\ fst (create_jira_issues.create_issue
            reference (Examples.net_garbled 0) Examples.url Examples.header "BB"
            Examples.template start)
     = Raised UnicodeDecodeError
  /\ fst (create_jira_issues_v2.create_issue
            reference (Examples.net_garbled 0) Examples.url Examples.header "BB"
            Examples.template start)
     = Raised UnicodeDecodeError
  /\ ~ (forall lib net jira_url auth_header project_key issue_data st code body,
          answer net st (create_jira_issues.issue_request
                           lib jira_url auth_header project_key issue_data)
          = HttpStatus code body ->
          is_2xx code = false ->
          exists error,
            fst (create_jira_issues.create_issue
                   lib net jira_url auth_header project_key issue_data st)
            = Returned (Failure error)).
Proof.
  assert (H : fst (create_jira_issues.create_issue
                     reference (Examples.net_garbled 0) Examples.url
                     Examples.header "BB" Examples.template start)
              = Raised UnicodeDecodeError) by (vm_compute; reflexivity).
  split; [reflexivity|]. split; [exact H|].
  split; [vm_compute; reflexivity|].
  intros Hall.
  destruct (Hall reference (Examples.net_garbled 0) Examples.url Examples.header
              "BB" Examples.template start 500%Z (String (ascii_of_nat 255) "")
              eq_refl eq_refl) as [error He].
  rewrite H in He. discriminate He.
Qed.

(** C1, as amended: in both scripts [create_issue] hands one request to
    [urlopen] and returns a result of one of two kinds.  A 2xx answer whose
    body is read as a JSON object with [key] and [id] gives the success
    result with these two values as they are; an HTTP error answer whose
    body is UTF-8 gives the failure result whose detail is the status code,
    a colon and the body text; a [URLError] gives the failure result whose
    detail is its reason.  Of a malformed answer it makes no result: the
    exception of reading it, or the one that broke the exchange, leaves
    [create_issue]; and when the request cannot be built, the exception of
    building it does, and nothing is handed to [urlopen].  With a parser
    that raises neither [HTTPError] nor [URLError], every answer is of one
    of these kinds. *)
Theorem create_issue_reports (lib : Library) (net : Network)
    (jira_url auth_header project_key : str) (issue_data : IssueTemplate)
    (st : State) :
  (let req := create_jira_issues.issue_request
                lib jira_url auth_header project_key issue_data in
   let run := create_jira_issues.create_issue
                lib net jira_url auth_header project_key issue_data st in
   (forall r, refused lib req = None ->
              reports lib (answer net st req) r ->
              run = (Returned r, log req st))
   /\ (forall e, refused lib req = None ->
                 malformed lib (answer net st req) e ->
                 run = (Raised e, log req st))
   /\ (forall e, refused lib req = Some e -> run = (Raised e, st)))
  /\
  (let req := create_jira_issues_v2.issue_request
                lib jira_url auth_header project_key issue_data in
   let run := create_jira_issues_v2.create_issue
                lib net jira_url auth_header project_key issue_data st in
   (forall r, refused lib req = None ->
              reports lib (answer net st req) r ->
              run = (Returned r, log req st))
   /\ (forall e, refused lib req = None ->
                 malformed lib (answer net st req) e ->
                 run = (Raised e, log req st))
   /\ (forall e, refused lib req = Some e -> run = (Raised e, st)))
  /\
  (plain_parser lib ->
   forall a, (exists r, reports lib a r) \/ (exists e, malformed lib a e)).
Proof.
  cbv zeta. split; [|split].
  - rewrite create_issue_run. unfold answer. repeat split.
    + intros r Hs H. rewrite (attempt_sent _ _ _ _ Hs), (note_sent _ _ _ Hs).
      now rewrite (reports_outcome _ _ _ H).
    + intros e Hs H. rewrite (attempt_sent _ _ _ _ Hs), (note_sent _ _ _ Hs).
      now rewrite (malformed_outcome _ _ _ H).
    + intros e Hr. rewrite (attempt_refused _ _ _ _ _ Hr).
      rewrite (outcome_refused e (refused_uncaught _ _ _ Hr)).
      unfold note. now rewrite Hr.
  - rewrite create_issue_v2_run. unfold answer. repeat split.
    + intros r Hs H. rewrite (attempt_sent _ _ _ _ Hs), (note_sent _ _ _ Hs).
      now rewrite (reports_outcome _ _ _ H).
    + intros e Hs H. rewrite (attempt_sent _ _ _ _ Hs), (note_sent _ _ _ Hs).
      now rewrite (malformed_outcome _ _ _ H).
    + intros e Hr. rewrite (attempt_refused _ _ _ _ _ Hr).
      rewrite (outcome_refused e (refused_uncaught _ _ _ Hr)).
      unfold note. now rewrite Hr.
  - intros Hlib a. now apply reported_or_malformed.
Qed.

(** ** States and printing *)

Lemma say_nil st : say [] st = st.
Proof. destruct st. unfold say. simpl. now rewrite app_nil_r. Qed.

Lemma say_say l1 l2 st : say l2 (say l1 st) = say (l1 ++ l2) st.
Proof. unfold say. simpl. now rewrite app_assoc. Qed.

Lemma logs_nil st : logs [] st = st.
Proof. destruct st. unfold logs. simpl. now rewrite app_nil_r. Qed.

Lemma print_run s st : print s st = (Returned tt, say [s] st).
Proof. reflexivity. Qed.

Lemma for_each_print {A} (f : A -> str) xs st :
  for_each xs (fun x => print (f x)) st = (Returned tt, say (map f xs) st).
Proof.
  revert st. induction xs as [|x r IH]; intros st; simpl.
  - now rewrite say_nil.
  - unfold bind. rewrite print_run, IH. now rewrite say_say.
Qed.

(** Running a sequence of statements from a state. *)
Lemma run_bind {A B} (m : M A) (k : A -> M B) st r st' :
  m st = (r, st') ->
  bind m k st = match r with
                | Returned a => k a st'
                | Raised e => (Raised e, st')
                end.
Proof. intros H. unfold bind. rewrite H. now destruct r. Qed.

Lemma run_bind_bind {A B C} (m : M A) (f : A -> M B) (g : B -> M C) st :
  bind (bind m f) g st = bind m (fun x => bind (f x) g) st.
Proof. unfold bind. now destruct (m st) as [[a|e] st']. Qed.

Lemma run_bind_print {B} s (k : unit -> M B) st :
  bind (print s) k st = k tt (say [s] st).
Proof. reflexivity. Qed.

Lemma run_bind_ret {A B} (a : A) (k : A -> M B) st : bind (ret a) k st = k a st.
Proof. reflexivity. Qed.

Lemma run_bind_raise {A B} e (k : A -> M B) st :
  bind (raise e) k st = (Raised e, st).
Proof. reflexivity. Qed.

Lemma run_bind_exit {A B} c (k : A -> M B) st :
  bind (sys_exit c) k st = (Raised (SystemExit c), st).
Proof. reflexivity. Qed.

Lemma run_bind_lift {A B} (a : A) (k : A -> M B) st :
  bind (lift (Returned a)) k st = k a st.
Proof. reflexivity. Qed.

Lemma run_bind_for_each_print {A B} (f : A -> str) xs (k : unit -> M B) st :
  bind (for_each xs (fun x => print (f x))) k st = k tt (say (map f xs) st).
Proof. unfold bind. now rewrite for_each_print. Qed.

Lemma run_ret {A} (a : A) st : ret a st = (Returned a, st).
Proof. reflexivity. Qed.

Lemma run_exit {A} c st : @sys_exit A c st = (Raised (SystemExit c), st).
Proof. reflexivity. Qed.

Lemma say_log lines req st : log req (say lines st) = say lines (log req st).
Proof. reflexivity. Qed.

Lemma say_logs lines reqs st : logs reqs (say lines st) = say lines (logs reqs st).
Proof. reflexivity. Qed.

Lemma answer_say net lines st req : answer net (say lines st) req = answer net st req.
Proof. reflexivity. Qed.

Lemma note_say lib lines req st :
  note lib req (say lines st) = say lines (note lib req st).
Proof. unfold note. now destruct (refused lib req). Qed.

Create Rewrite HintDb run.
#[local] Hint Rewrite @run_bind_bind @run_bind_print @run_bind_ret @run_bind_raise
  @run_bind_exit @run_bind_lift @run_bind_for_each_print @print_run @run_ret
  @run_exit say_say say_log say_logs answer_say note_say : run.

Ltac run := repeat (progress (autorewrite with run; cbv beta)).

Ltac same_state :=
  unfold say, log, logs; cbn [sent stdout];
  repeat rewrite <- app_assoc; cbn [app];
  repeat rewrite app_nil_r; try reflexivity.

(** ** A run without its configuration *)

Lemma falsy_is_absent o : falsy o = is_absent o.
Proof. now destruct o as [[|c s]|]. Qed.

Lemma is_absent_spec o : is_absent o = true <-> absent o.
Proof.
  unfold absent. destruct o as [[|c s]|]; simpl; split; intros H; auto;
    try discriminate; destruct H as [H|H]; discriminate.
Qed.

Lemma is_absent_present o : is_absent o = false <-> present o.
Proof.
  unfold present. destruct o as [[|c s]|]; simpl; split; intros H;
    try discriminate.
  - destruct H as (t & [= <-] & Ht). now elim Ht.
  - exists (String c s). split; [reflexivity|discriminate].
  - reflexivity.
  - destruct H as (t & H & _). discriminate.
Qed.

Lemma in_absent_variables environ v :
  In v (absent_variables environ) <-> In v required /\ absent (environ v).
Proof.
  unfold absent_variables. rewrite filter_In. now rewrite is_absent_spec.
Qed.

Lemma absent_variables_nil environ :
  absent_variables environ = [] <-> configured environ.
Proof.
  split.
  - intros H v Hv. apply is_absent_present.
    destruct (is_absent (environ v)) eqn:E; [|reflexivity].
    assert (Hin : In v (absent_variables environ))
      by (apply in_absent_variables; split; [exact Hv|now apply is_absent_spec]).
    rewrite H in Hin. destruct Hin.
  - intros H. unfold absent_variables, required. simpl.
    rewrite !(proj2 (is_absent_present _)); [reflexivity| |  |];
      apply H; simpl; auto.
Qed.

Lemma missing_variables_absent environ :
  create_jira_issues.missing_variables
    (environ "JIRA_URL") (environ "JIRA_EMAIL") (environ "JIRA_API_TOKEN")
  = absent_variables environ.
Proof.
  unfold create_jira_issues.missing_variables, absent_variables, required.
  rewrite !falsy_is_absent. simpl.
  now destruct (is_absent (environ "JIRA_URL")),
    (is_absent (environ "JIRA_EMAIL")), (is_absent (environ "JIRA_API_TOKEN")).
Qed.

Lemma missing_variables_v2_absent environ :
  create_jira_issues_v2.missing_variables
    (environ "JIRA_URL") (environ "JIRA_EMAIL") (environ "JIRA_API_TOKEN")
  = absent_variables environ.
Proof.
  unfold create_jira_issues_v2.missing_variables, absent_variables, required.
  rewrite !falsy_is_absent. simpl.
  now destruct (is_absent (environ "JIRA_URL")),
    (is_absent (environ "JIRA_EMAIL")), (is_absent (environ "JIRA_API_TOKEN")).
Qed.

Lemma main_on_missing lib net issues environ st :
  absent_variables environ <> [] ->
  create_jira_issues.main_on lib net issues environ st
  = (Raised (SystemExit 1), say (missing_report (absent_variables environ)) st).
Proof.
  intros Hm. unfold create_jira_issues.main_on.
  rewrite missing_variables_absent.
  destruct (absent_variables environ) as [|x xs]; [congruence|].
  run. f_equal. unfold missing_report, bullet. same_state.
Qed.

Lemma main_on_v2_missing lib net issues environ st :
  absent_variables environ <> [] ->
  create_jira_issues_v2.main_on lib net issues environ st
  = (Raised (SystemExit 1), say (missing_report_v2 (absent_variables environ)) st).
Proof.
  intros Hm. unfold create_jira_issues_v2.main_on.
  rewrite missing_variables_v2_absent.
  destruct (absent_variables environ) as [|x xs]; [congruence|].
  run. f_equal. unfold missing_report_v2, bullet. same_state.
Qed.

Lemma exists_absent_variable environ :
  (exists v, In v required /\ absent (environ v)) ->
  absent_variables environ <> [].
Proof.
  intros (v & Hv & Ha) E.
  assert (Hin : In v (absent_variables environ))
    by (apply in_absent_variables; now split).
  rewrite E in Hin. destruct Hin.
Qed.

(** C4: when one of the three required variables is absent, both scripts
    leave through [sys.exit(1)], have sent no request, and have printed a
    report whose list holds the required variables that are absent, each
    once and no other. *)
Theorem missing_configuration_stops lib net issues environ :
  (exists v, In v required /\ absent (environ v)) ->
  (forall v, In v (absent_variables environ)
             <-> In v required /\ absent (environ v))
  /\ NoDup (absent_variables environ)
  /\ (let run := create_jira_issues.main_on lib net issues environ start in
      fst run = Raised (SystemExit 1)
      /\ exit_status (fst run) <> 0%Z
      /\ sent (snd run) = []
      /\ stdout (snd run) = missing_report (absent_variables environ))
  /\ (let run := create_jira_issues_v2.main_on lib net issues environ start in
      fst run = Raised (SystemExit 1)
      /\ exit_status (fst run) <> 0%Z
      /\ sent (snd run) = []
      /\ stdout (snd run) = missing_report_v2 (absent_variables environ)).
Proof.
  intros H. apply exists_absent_variable in H.
  split; [intros v; apply in_absent_variables|].
  split.
  { unfold absent_variables. apply NoDup_filter. unfold required.
    repeat constructor; simpl; intuition discriminate. }
  split; cbv zeta.
  - rewrite main_on_missing by exact H. simpl. repeat split. discriminate.
  - rewrite main_on_v2_missing by exact H. simpl. repeat split. discriminate.
Qed.

Lemma missing_configuration_stops_witness :
  stdout (snd (create_jira_issues.main_on
                 reference Examples.net_created create_jira_issues.ISSUES
                 Examples.environ_incomplete start))
  = missing_report ["JIRA_EMAIL"; "JIRA_API_TOKEN"]
  /\ sent (snd (create_jira_issues_v2.main_on
                  reference Examples.net_created create_jira_issues_v2.ISSUES
                  Examples.environ_incomplete start)) = [].
Proof.
  assert (H : exists v, In v required /\ absent (Examples.environ_incomplete v)).
  { exists "JIRA_EMAIL". split; [simpl; auto|left; reflexivity]. }
  split.
  - exact (proj2 (proj2 (proj2 (proj1 (proj2 (proj2
      (missing_configuration_stops reference Examples.net_created
         create_jira_issues.ISSUES Examples.environ_incomplete H))))))).
  - exact (proj1 (proj2 (proj2 (proj2 (proj2 (proj2
      (missing_configuration_stops reference Examples.net_created
         create_jira_issues_v2.ISSUES Examples.environ_incomplete H))))))).
Defined.

Lemma unset_empty_is_absent environ v k :
  environ v = Some "" ->
  is_absent (unset v environ k) = is_absent (environ k).
Proof.
  intros H. unfold unset. destruct (String.eqb_spec k v) as [->|_].
  - now rewrite H.
  - reflexivity.
Qed.

Lemma unset_empty_absent_variables environ v :
  environ v = Some "" ->
  absent_variables (unset v environ) = absent_variables environ.
Proof.
  intros H. unfold absent_variables. apply filter_ext.
  intros k. now apply unset_empty_is_absent.
Qed.

(** C10: a required variable set to the empty string is treated as an unset
    one: either script runs exactly as it does without the variable, the
    variable is in the printed list, the exit status is 1 and no request is
    sent. *)
Theorem empty_value_is_missing lib net issues environ v :
  In v required ->
  environ v = Some "" ->
  create_jira_issues.main_on lib net issues environ start
  = create_jira_issues.main_on lib net issues (unset v environ) start
  /\ create_jira_issues_v2.main_on lib net issues environ start
     = create_jira_issues_v2.main_on lib net issues (unset v environ) start
  /\ In v (absent_variables environ)
  /\ create_jira_issues.main_on lib net issues environ start
     = (Raised (SystemExit 1),
        {| sent := []; stdout := missing_report (absent_variables environ) |})
  /\ create_jira_issues_v2.main_on lib net issues environ start
     = (Raised (SystemExit 1),
        {| sent := []; stdout := missing_report_v2 (absent_variables environ) |}).
Proof.
  intros Hv He.
  assert (Hin : In v (absent_variables environ))
    by (apply in_absent_variables; split; [exact Hv|now right]).
  assert (Hne : absent_variables environ <> [])
    by (intros E; rewrite E in Hin; destruct Hin).
  assert (Hne' : absent_variables (unset v environ) <> [])
    by now rewrite unset_empty_absent_variables.
  rewrite !main_on_missing, !main_on_v2_missing by assumption.
  rewrite unset_empty_absent_variables by exact He.
  repeat split; assumption.
Qed.

Lemma empty_value_is_missing_witness :
  create_jira_issues.main_on
    reference Examples.net_created create_jira_issues.ISSUES
    Examples.environ_incomplete start
  = create_jira_issues.main_on
      reference Examples.net_created create_jira_issues.ISSUES
      (unset "JIRA_API_TOKEN" Examples.environ_incomplete) start.
Proof.
  refine (proj1 (empty_value_is_missing reference Examples.net_created
                   create_jira_issues.ISSUES Examples.environ_incomplete
                   "JIRA_API_TOKEN" _ _)).
  - simpl; auto.
  - reflexivity.
Defined.



(** ** The loop of the first script *)

Section Loop.

Variable lib : Library.
Variable net : Network.
Variables jira_url auth_header : str.

Let request_of : IssueTemplate -> Request :=
  create_jira_issues.issue_request
    lib jira_url auth_header create_jira_issues.PROJECT_KEY.

Lemma failed_summaries_cons issue issues r rs :
  failed_summaries (issue :: issues) (r :: rs)
  = ((if succeeded r then [] else [summary issue])
     ++ failed_summaries issues rs)%list.
Proof. unfold failed_summaries. simpl. now destruct r. Qed.

Lemma created_keys_cons r rs :
  created_keys (r :: rs)
  = (match r with Success key _ => [key] | Failure _ => [] end
     ++ created_keys rs)%list.
Proof. reflexivity. Qed.

(** As long as [create_issue] returns, the loop goes on: a failure is put
    down and the next issue is attempted. *)
Lemma main_loop_returns issues : forall rs created failed st n,
  n = List.length (sent st) ->
  Forall2 (yields lib) (replies (attempt lib net) request_of n issues) rs ->
  create_jira_issues.main_loop lib net jira_url auth_header issues created failed st
  = (Returned ((created ++ created_keys rs)%list,
               (failed ++ failed_summaries issues rs)%list),
     say (loop_lines lib jira_url issues rs) (logs (map request_of issues) st)).
Proof.
  induction issues as [|issue rest IH]; intros rs created failed st n Hn H.
  - inversion H; subst. simpl. unfold ret.
    rewrite logs_nil, say_nil, !app_nil_r. reflexivity.
  - simpl in H. inversion H as [|a r as' rs' Hr Hrest]; subst. clear H.
    cbn [create_jira_issues.main_loop]. run.
    erewrite run_bind by apply create_issue_run.
    fold request_of. rewrite answer_say. unfold answer.
    rewrite (note_sent _ _ _ (yields_sent _ _ _ _ _ Hr)).
    unfold yields in Hr. rewrite Hr.
    assert (Hlen : forall lines,
               S (List.length (sent st))
               = List.length (sent (say lines (log (request_of issue) st)))).
    { intros lines. unfold say, log. cbn [sent]. rewrite length_app. simpl. lia. }
    destruct r as [key id|error]; run;
      rewrite (IH rs' _ _ _ _ (Hlen _) Hrest);
      rewrite failed_summaries_cons, created_keys_cons; cbn [succeeded];
      (f_equal; [now rewrite <- !app_assoc|]);
      unfold loop_lines; cbn [combine flat_map attempt_lines fst snd map]; unfold creating_line;
      same_state.
Qed.

(** When [create_issue] raises, the loop stops at that issue: the request
    for it is the last one, if it was built at all. *)
Lemma main_loop_raises pre : forall rs issue post e created failed st n,
  n = List.length (sent st) ->
  Forall2 (yields lib) (replies (attempt lib net) request_of n pre) rs ->
  outcome lib (attempt lib net (n + List.length pre) (request_of issue)) = Raised e ->
  create_jira_issues.main_loop
    lib net jira_url auth_header (pre ++ issue :: post) created failed st
  = (Raised e,
     say (loop_lines lib jira_url pre rs
          ++ [creating_line issue])%list
         (note lib (request_of issue) (logs (map request_of pre) st))).
Proof.
  induction pre as [|first rest IH];
    intros rs issue post e created failed st n Hn H He.
  - inversion H; subst. rewrite Nat.add_0_r in He.
    cbn [app create_jira_issues.main_loop]. run.
    erewrite run_bind by apply create_issue_run.
    fold request_of. rewrite answer_say. unfold answer. rewrite He.
    cbn [map]. rewrite logs_nil. run. f_equal.
  - simpl in H. inversion H as [|a r as' rs' Hr Hrest]; subst. clear H.
    cbn [app create_jira_issues.main_loop]. run.
    erewrite run_bind by apply create_issue_run.
    fold request_of. rewrite answer_say. unfold answer.
    rewrite (note_sent _ _ _ (yields_sent _ _ _ _ _ Hr)).
    unfold yields in Hr. rewrite Hr.
    assert (Hlen : forall lines,
               S (List.length (sent st))
               = List.length (sent (say lines (log (request_of first) st)))).
    { intros lines. unfold say, log. cbn [sent]. rewrite length_app. simpl. lia. }
    cbn [List.length] in He. rewrite Nat.add_succ_r in He.
    destruct r as [key id|error]; run;
      rewrite (IH rs' _ _ _ _ _ _ _ (Hlen _) Hrest He);
      f_equal; unfold loop_lines;
      cbn [combine flat_map attempt_lines fst snd map app]; unfold creating_line;
      unfold note; destruct (refused lib (request_of issue));
      same_state.
Qed.

End Loop.

(** ** Returned or raised *)

Section Replies.

Variable lib : Library.
Variable net : Network.
Variable request_of : IssueTemplate -> Request.

(** Either [create_issue] returns on every answer, or there is a first one
    on which it raises. *)
Lemma yields_or_raises issues : forall n,
  (exists rs, Forall2 (yields lib) (replies net request_of n issues) rs)
  \/ (exists pre issue post rs e,
        issues = (pre ++ issue :: post)%list
        /\ Forall2 (yields lib) (replies net request_of n pre) rs
        /\ outcome lib (net (n + List.length pre) (request_of issue)) = Raised e).
Proof.
  induction issues as [|issue rest IH]; intros n.
  - left. exists []. constructor.
  - destruct (outcome lib (net n (request_of issue))) as [r|e] eqn:E.
    + destruct (IH (S n)) as [[rs H]|(pre & t & post & rs & e & -> & H & He)].
      * left. exists (r :: rs). now constructor.
      * right. exists (issue :: pre), t, post, (r :: rs), e.
        split; [reflexivity|]. split; [now constructor|].
        cbn [List.length]. now rewrite Nat.add_succ_r.
    + right. exists [], issue, rest, [], e.
      split; [reflexivity|]. split; [constructor|].
      now rewrite Nat.add_0_r.
Qed.

Lemma replies_length issues n :
  List.length (replies net request_of n issues) = List.length issues.
Proof.
  revert n. induction issues as [|issue rest IH]; intros n; simpl;
    [reflexivity|now rewrite IH].
Qed.

Lemma replies_app pre post n :
  replies net request_of n (pre ++ post)
  = (replies net request_of n pre
     ++ replies net request_of (n + List.length pre) post)%list.
Proof.
  revert n. induction pre as [|issue rest IH]; intros n; simpl.
  - now rewrite Nat.add_0_r.
  - now rewrite IH, Nat.add_succ_r.
Qed.


End Replies.

(** No [SystemExit] leaves [create_issue]: what leaves it is an error, and
    the run ends with status 1 and not in order. *)
Lemma handled_error e e' : handled (Error e) = Raised e' -> exists x, e' = Error x.
Proof.
  destruct e as [code body|reason| | | | | | | | |name]; cbn;
    try (intros [= <-]; eauto; fail); try discriminate.
  unfold decode. destruct (utf8_valid body); cbn; [discriminate|].
  intros [= <-]. eauto.
Qed.

Lemma outcome_raised lib a e :
  outcome lib a = Raised e -> exists x, e = Error x.
Proof.
  unfold outcome.
  destruct (rbind (opened a) _) as [r|e0] eqn:E; [discriminate|].
  assert (He0 : exists x, e0 = Error x).
  { unfold opened in E. destruct a as [code body|reason|x]; cbn [rbind] in E.
    - destruct (is_2xx code); cbn [rbind] in E; [|injection E as <-; eauto].
      unfold decode in E. destruct (utf8_valid body); cbn [rbind] in E;
        [|injection E as <-; eauto].
      unfold loads in E. destruct (json_loads lib body) as [v|x]; cbn [rbind] in E;
        [|injection E as <-; eauto].
      unfold getitem in E. destruct v; cbn [rbind] in E;
        try (injection E as <-; eauto; fail).
      destruct (dict_get "key" members); cbn [rbind] in E;
        [|injection E as <-; eauto].
      destruct (dict_get "id" members); cbn [rbind] in E;
        [discriminate|injection E as <-; eauto].
    - injection E as <-. eauto.
    - injection E as <-. eauto. }
  destruct He0 as [x ->]. apply handled_error.
Qed.


(** No [HTTPError] and no [URLError] leaves [create_issue]. *)
Lemma outcome_uncaught lib a e : outcome lib a = Raised (Error e) -> caught e = false.
Proof.
  unfold outcome. destruct (rbind (opened a) _) as [r|e0]; [discriminate|].
  destruct e0 as [[code body|reason| | | | | | | | |name]|c]; cbn;
    try (intros [= <-]; reflexivity); try discriminate.
  unfold decode. destruct (utf8_valid body); cbn; [discriminate|].
  now intros [= <-].
Qed.

(** ** A configured run of the first script *)

Lemma configured_values environ :
  configured environ ->
  exists url email token,
    environ "JIRA_URL" = Some url /\ environ "JIRA_EMAIL" = Some email
    /\ environ "JIRA_API_TOKEN" = Some token.
Proof.
  intros H.
  destruct (H "JIRA_URL") as (url & Hu & _); [simpl; auto|].
  destruct (H "JIRA_EMAIL") as (email & He & _); [simpl; auto|].
  destruct (H "JIRA_API_TOKEN") as (token & Ht & _); [simpl; auto|].
  now exists url, email, token.
Qed.

Lemma main_on_configured lib net issues environ st :
  configured environ ->
  encodable (credentials environ) ->
  create_jira_issues.main_on lib net issues environ st
  = match create_jira_issues.main_loop
            lib net (base_url environ) (auth_header_of environ) issues [] []
            (say (banner (base_url environ) issues) st) with
    | (Returned (created, failed), st') =>
      (final_result failed,
       say (summary_report lib (base_url environ) created failed) st')
    | (Raised e, st') => (Raised e, st')
    end.
Proof.
  intros Hc Henc. unfold create_jira_issues.main_on.
  rewrite missing_variables_absent, (proj2 (absent_variables_nil _) Hc).
  destruct (configured_values _ Hc) as (url & email & token & Hu & He & Ht).
  unfold credentials in Henc.
  unfold base_url, auth_header_of. rewrite Hu, He, Ht in *. cbn [fmt_opt] in *.
  run. rewrite (get_auth_header_returns _ _ Henc). run.
  match goal with
  | |- context [create_jira_issues.main_loop _ _ _ _ _ _ _ ?s] =>
    change s with (say (banner (rstrip "/" url) issues) st)
  end.
  unfold bind at 1.
  destruct (create_jira_issues.main_loop _ _ _ _ _ _ _ _)
    as [[[created failed]|e] st']; [|reflexivity].
  cbv beta iota.
  destruct created as [|key created]; destruct failed as [|s failed]; run;
    unfold final_result, summary_report, bullet; f_equal; same_state.
Qed.

(** Credentials that cannot be encoded end the run before its first line. *)
Lemma main_on_unencodable lib net issues environ st :
  configured environ ->
  utf8_valid (credentials environ) = false ->
  create_jira_issues.main_on lib net issues environ st
  = (Raised UnicodeEncodeError, st).
Proof.
  intros Hc Henc. unfold create_jira_issues.main_on.
  rewrite missing_variables_absent, (proj2 (absent_variables_nil _) Hc).
  destruct (configured_values _ Hc) as (url & email & token & Hu & He & Ht).
  unfold credentials in Henc. rewrite Hu, He, Ht in *. cbn [fmt_opt] in *.
  run. now rewrite (get_auth_header_raises _ _ Henc).
Qed.

(** ** The loop of the second script *)

Section LoopV2.

Variable lib : Library.
Variable net : Network.
Variables jira_url auth_header : str.

Let request_of : IssueTemplate -> Request :=
  create_jira_issues_v2.issue_request
    lib jira_url auth_header create_jira_issues_v2.PROJECT_KEY.

Lemma created_items_cons issue issues r rs :
  created_items lib jira_url (issue :: issues) (r :: rs)
  = (match r with
     | Success key _ => [made_item lib jira_url issue key]
     | Failure _ => []
     end ++ created_items lib jira_url issues rs)%list.
Proof. reflexivity. Qed.

Lemma main_loop_v2_returns issues : forall rs total i created failed st n,
  n = List.length (sent st) ->
  Forall2 (yields lib) (replies (attempt lib net) request_of n issues) rs ->
  create_jira_issues_v2.main_loop
    lib net jira_url auth_header total i issues created failed st
  = (Returned ((created ++ created_items lib jira_url issues rs)%list,
               (failed ++ failed_summaries issues rs)%list),
     say (loop_lines_v2 lib total i issues rs) (logs (map request_of issues) st)).
Proof.
  induction issues as [|issue rest IH]; intros rs total i created failed st n Hn H.
  - inversion H; subst. simpl. unfold ret.
    rewrite logs_nil, say_nil, !app_nil_r. reflexivity.
  - simpl in H. inversion H as [|a r as' rs' Hr Hrest]; subst. clear H.
    cbn [create_jira_issues_v2.main_loop]. cbv zeta. run.
    erewrite run_bind by apply create_issue_v2_run.
    fold request_of. rewrite answer_say. unfold answer.
    rewrite (note_sent _ _ _ (yields_sent _ _ _ _ _ Hr)).
    unfold yields in Hr. rewrite Hr.
    assert (Hlen : forall lines,
               S (List.length (sent st))
               = List.length (sent (say lines (log (request_of issue) st)))).
    { intros lines. unfold say, log. cbn [sent]. rewrite length_app. simpl. lia. }
    destruct r as [key id|error]; run;
      rewrite (IH rs' _ _ _ _ _ _ (Hlen _) Hrest);
      rewrite failed_summaries_cons, created_items_cons; cbn [succeeded];
      (f_equal; [now rewrite <- !app_assoc|]);
      cbn [loop_lines_v2 attempt_lines_v2 map];
      unfold heading_v2, made_item;
      same_state.
Qed.

Lemma main_loop_v2_raises pre : forall rs issue post e total i created failed st n,
  n = List.length (sent st) ->
  Forall2 (yields lib) (replies (attempt lib net) request_of n pre) rs ->
  outcome lib (attempt lib net (n + List.length pre) (request_of issue)) = Raised e ->
  create_jira_issues_v2.main_loop
    lib net jira_url auth_header total i (pre ++ issue :: post) created failed st
  = (Raised e,
     say (loop_lines_v2 lib total i pre rs
          ++ [heading_v2 total (i + List.length pre) issue])%list
         (note lib (request_of issue) (logs (map request_of pre) st))).
Proof.
  induction pre as [|first rest IH];
    intros rs issue post e total i created failed st n Hn H He.
  - inversion H; subst. rewrite Nat.add_0_r in He. rewrite Nat.add_0_r.
    cbn [app create_jira_issues_v2.main_loop]. cbv zeta. run.
    erewrite run_bind by apply create_issue_v2_run.
    fold request_of. rewrite answer_say. unfold answer. rewrite He.
    cbn [map]. rewrite logs_nil. run. f_equal.
  - simpl in H. inversion H as [|a r as' rs' Hr Hrest]; subst. clear H.
    cbn [app create_jira_issues_v2.main_loop]. cbv zeta. run.
    erewrite run_bind by apply create_issue_v2_run.
    fold request_of. rewrite answer_say. unfold answer.
    rewrite (note_sent _ _ _ (yields_sent _ _ _ _ _ Hr)).
    unfold yields in Hr. rewrite Hr.
    assert (Hlen : forall lines,
               S (List.length (sent st))
               = List.length (sent (say lines (log (request_of first) st)))).
    { intros lines. unfold say, log. cbn [sent]. rewrite length_app. simpl. lia. }
    cbn [List.length] in He. rewrite Nat.add_succ_r in He.
    cbn [List.length]. rewrite Nat.add_succ_r.
    destruct r as [key id|error]; run;
      rewrite (IH rs' _ _ _ _ _ _ _ _ _ (Hlen _) Hrest He);
      f_equal; cbn [loop_lines_v2 attempt_lines_v2 map app];
      unfold heading_v2; cbn [Nat.add];
      unfold note; destruct (refused lib (request_of issue));
      same_state.
Qed.

End LoopV2.

(** ** A configured run of the second script *)

Lemma for_each_item_lines lib items st :
  for_each items (fun item =>
    print ("  " ++ fmt lib (create_jira_issues_v2.item_key item) ++ ": "
           ++ slice_to 40 (create_jira_issues_v2.item_summary item)) ;;;
    print ("    " ++ create_jira_issues_v2.item_url item)) st
  = (Returned tt, say (flat_map (item_lines lib) items) st).
Proof.
  revert st. induction items as [|item rest IH]; intros st; cbn [for_each flat_map].
  - now rewrite say_nil.
  - run. rewrite IH. f_equal. unfold item_lines. same_state.
Qed.

Lemma main_on_v2_configured lib net issues environ st :
  configured environ ->
  encodable (credentials environ) ->
  let jira_url := base_url environ in
  let auth_header := auth_header_of environ in
  let req := create_jira_issues_v2.project_request
               jira_url auth_header create_jira_issues_v2.PROJECT_KEY in
  create_jira_issues_v2.main_on lib net issues environ st
  = match probe_outcome (answer (attempt lib net) st req) with
    | Raised e => (Raised e, say (banner_v2 jira_url issues) (note lib req st))
    | Returned false =>
      (Raised (SystemExit 1),
       say (banner_v2 jira_url issues ++ project_not_found)%list (note lib req st))
    | Returned true =>
      match create_jira_issues_v2.main_loop
              lib net jira_url auth_header (List.length issues) 1 issues [] []
              (say (banner_v2 jira_url issues ++ project_found)%list
                   (note lib req st))
      with
      | (Returned (created, failed), st') =>
        (final_result failed, say (summary_report_v2 lib created failed) st')
      | (Raised e, st') => (Raised e, st')
      end
    end.
Proof.
  intros Hc Henc. cbv zeta. unfold create_jira_issues_v2.main_on.
  rewrite missing_variables_v2_absent, (proj2 (absent_variables_nil _) Hc).
  destruct (configured_values _ Hc) as (url & email & token & Hu & He & Ht).
  unfold credentials in Henc.
  unfold base_url, auth_header_of. rewrite Hu, He, Ht in *. cbn [fmt_opt] in *.
  run. rewrite (get_auth_header_returns _ _ Henc). run.
  erewrite run_bind by apply check_project_exists_run.
  rewrite answer_say.
  destruct (probe_outcome _) as [[|]|e]; cbn [negb]; run.
  - match goal with
    | |- context [create_jira_issues_v2.main_loop _ _ _ _ _ _ _ _ _ ?s] =>
      change s with
        (say (banner_v2 (rstrip "/" url) issues ++ project_found)%list
             (note lib (create_jira_issues_v2.project_request
                          (rstrip "/" url)
                          ("Basic " ++ b64encode (email ++ ":" ++ token))
                          create_jira_issues_v2.PROJECT_KEY) st))
    end.
    unfold bind at 1.
    destruct (create_jira_issues_v2.main_loop _ _ _ _ _ _ _ _ _ _)
      as [[[created failed]|e] st']; [|reflexivity].
    cbv beta iota.
    destruct created as [|item created]; destruct failed as [|s failed]; run;
      try (erewrite run_bind by apply for_each_item_lines); run;
      unfold final_result, summary_report_v2, bullet; f_equal; same_state.
  - f_equal.
  - f_equal.
Qed.

Lemma main_on_v2_unencodable lib net issues environ st :
  configured environ ->
  utf8_valid (credentials environ) = false ->
  create_jira_issues_v2.main_on lib net issues environ st
  = (Raised UnicodeEncodeError, st).
Proof.
  intros Hc Henc. unfold create_jira_issues_v2.main_on.
  rewrite missing_variables_v2_absent, (proj2 (absent_variables_nil _) Hc).
  destruct (configured_values _ Hc) as (url & email & token & Hu & He & Ht).
  unfold credentials in Henc. rewrite Hu, He, Ht in *. cbn [fmt_opt] in *.
  run. now rewrite (get_auth_header_raises _ _ Henc).
Qed.

(** ** The accumulators *)





Lemma firstn_through {A} (pre : list A) x post :
  firstn (S (List.length pre)) (pre ++ x :: post) = (pre ++ [x])%list.
Proof.
  induction pre as [|a pre IH]; [reflexivity|].
  cbn [List.length app]. rewrite firstn_cons. now rewrite IH.
Qed.

Lemma firstn_before {A} (pre : list A) post :
  firstn (List.length pre) (pre ++ post) = pre.
Proof.
  induction pre as [|a pre IH]; [reflexivity|].
  cbn [List.length app]. rewrite firstn_cons. now rewrite IH.
Qed.








(** ** The whole of a configured run *)

Lemma probe_returned_sent lib net n req b :
  probe_outcome (attempt lib net n req) = Returned b -> refused lib req = None.
Proof.
  unfold attempt. destruct (refused lib req) as [e|] eqn:E; [|reflexivity].
  apply refused_uncaught in E. now destruct e.
Qed.

Lemma probe_accessible a : probe_outcome a = Returned true <-> project_accessible a.
Proof.
  unfold project_accessible. split.
  - destruct a as [code body|reason|e]; cbn.
    + intros [= H]. now exists code, body.
    + discriminate.
    + now destruct e.
  - intros (code & body & -> & H). cbn. now rewrite H.
Qed.

Section Configured.

Variable lib : Library.
Variable net : Network.
Variable issues : list IssueTemplate.
Variable environ : str -> option str.
Hypothesis Hconfigured : configured environ.
Hypothesis Hencodable : encodable (credentials environ).

Let jira_url := base_url environ.
Let auth_header := auth_header_of environ.
Let request_of :=
  create_jira_issues.issue_request
    lib jira_url auth_header create_jira_issues.PROJECT_KEY.
Let request_v2_of :=
  create_jira_issues_v2.issue_request
    lib jira_url auth_header create_jira_issues_v2.PROJECT_KEY.
Let probe :=
  create_jira_issues_v2.project_request
    jira_url auth_header create_jira_issues_v2.PROJECT_KEY.

Lemma main_on_returns rs :
  Forall2 (yields lib) (replies (attempt lib net) request_of 0 issues) rs ->
  create_jira_issues.main_on lib net issues environ start
  = (final_result (failed_summaries issues rs),
     {| sent := map request_of issues;
        stdout := (banner jira_url issues
                   ++ loop_lines lib jira_url issues rs
                   ++ summary_report lib jira_url (created_keys rs)
                        (failed_summaries issues rs))%list |}).
Proof.
  intros H. rewrite (main_on_configured _ _ _ _ _ Hconfigured Hencodable).
  fold jira_url auth_header.
  rewrite (main_loop_returns lib net jira_url auth_header issues rs [] []
             (say (banner jira_url issues) start) 0 eq_refl H).
  f_equal; unfold say, logs, start; cbn [sent stdout app];
    rewrite <- ?app_assoc; reflexivity.
Qed.

Lemma main_on_raises pre issue post rs e :
  issues = (pre ++ issue :: post)%list ->
  Forall2 (yields lib) (replies (attempt lib net) request_of 0 pre) rs ->
  outcome lib (attempt lib net (List.length pre) (request_of issue)) = Raised e ->
  create_jira_issues.main_on lib net issues environ start
  = (Raised e,
     {| sent := (map request_of pre
                 ++ match refused lib (request_of issue) with
                    | None => [request_of issue]
                    | Some _ => []
                    end)%list;
        stdout := (banner jira_url issues
                   ++ loop_lines lib jira_url pre rs
                   ++ [creating_line issue])%list |}).
Proof.
  intros E H He. rewrite (main_on_configured _ _ _ _ _ Hconfigured Hencodable).
  fold jira_url auth_header.
  pose proof (main_loop_raises lib net jira_url auth_header pre rs issue post e
                [] [] (say (banner jira_url issues) start) 0 eq_refl H He) as Hl.
  rewrite <- E in Hl. rewrite Hl. fold request_of.
  unfold note. destruct (refused lib (request_of issue));
    f_equal; unfold say, logs, log, start; cbn [sent stdout app];
    rewrite <- ?app_assoc, ?app_nil_r; reflexivity.
Qed.

(** The first script ends after its summary, or at the first attempt on
    which [create_issue] raises. *)
Lemma main_on_outcome :
  (exists rs,
      Forall2 (yields lib) (replies (attempt lib net) request_of 0 issues) rs
      /\ create_jira_issues.main_on lib net issues environ start
         = (final_result (failed_summaries issues rs),
            {| sent := map request_of issues;
               stdout := (banner jira_url issues
                          ++ loop_lines lib jira_url issues rs
                          ++ summary_report lib jira_url (created_keys rs)
                               (failed_summaries issues rs))%list |}))
  \/ (exists pre issue post rs e,
         issues = (pre ++ issue :: post)%list
         /\ Forall2 (yields lib) (replies (attempt lib net) request_of 0 pre) rs
         /\ outcome lib (attempt lib net (List.length pre) (request_of issue))
            = Raised e
         /\ create_jira_issues.main_on lib net issues environ start
            = (Raised e,
               {| sent := (map request_of pre
                           ++ match refused lib (request_of issue) with
                              | None => [request_of issue]
                              | Some _ => []
                              end)%list;
                  stdout := (banner jira_url issues
                             ++ loop_lines lib jira_url pre rs
                             ++ [creating_line issue])%list |})).
Proof.
  destruct (yields_or_raises lib (attempt lib net) request_of issues 0)
    as [[rs H]|(pre & issue & post & rs & e & E & H & He)].
  - left. exists rs. split; [exact H|]. now apply main_on_returns.
  - right. exists pre, issue, post, rs, e.
    split; [exact E|]. split; [exact H|]. split; [exact He|].
    now apply (main_on_raises pre issue post rs e).
Qed.

(** The second script, with its probe. *)
Lemma main_on_v2_probe :
  create_jira_issues_v2.main_on lib net issues environ start
  = match probe_outcome (attempt lib net 0 probe) with
    | Raised e =>
      (Raised e,
       {| sent := match refused lib probe with
                  | None => [probe]
                  | Some _ => []
                  end;
          stdout := banner_v2 jira_url issues |})
    | Returned false =>
      (Raised (SystemExit 1),
       {| sent := [probe];
          stdout := (banner_v2 jira_url issues ++ project_not_found)%list |})
    | Returned true =>
      match create_jira_issues_v2.main_loop
              lib net jira_url auth_header (List.length issues) 1 issues [] []
              (say (banner_v2 jira_url issues ++ project_found)%list
                   (log probe start))
      with
      | (Returned (created, failed), st') =>
        (final_result failed, say (summary_report_v2 lib created failed) st')
      | (Raised e, st') => (Raised e, st')
      end
    end.
Proof.
  pose proof (main_on_v2_configured lib net issues environ start
                Hconfigured Hencodable) as Hm.
  cbv zeta in Hm. fold jira_url auth_header probe in Hm.
  unfold answer in Hm. change (List.length (sent start)) with 0 in Hm.
  rewrite Hm.
  destruct (probe_outcome (attempt lib net 0 probe)) as [b|e] eqn:Hp.
  - rewrite (note_sent _ _ _ (probe_returned_sent _ _ _ _ _ Hp)).
    now destruct b.
  - unfold note. now destruct (refused lib probe).
Qed.

Lemma main_on_v2_returns rs :
  project_accessible (attempt lib net 0 probe) ->
  Forall2 (yields lib) (replies (attempt lib net) request_v2_of 1 issues) rs ->
  create_jira_issues_v2.main_on lib net issues environ start
  = (final_result (failed_summaries issues rs),
     {| sent := probe :: map request_v2_of issues;
        stdout := (banner_v2 jira_url issues ++ project_found
                   ++ loop_lines_v2 lib (List.length issues) 1 issues rs
                   ++ summary_report_v2 lib
                        (created_items lib jira_url issues rs)
                        (failed_summaries issues rs))%list |}).
Proof.
  intros Hp H. apply probe_accessible in Hp. rewrite main_on_v2_probe, Hp.
  rewrite (main_loop_v2_returns lib net jira_url auth_header issues rs
             (List.length issues) 1 [] []
             (say (banner_v2 jira_url issues ++ project_found)%list
                  (log probe start)) 1 eq_refl H).
  f_equal; unfold say, logs, log, start; cbn [sent stdout app];
    rewrite <- ?app_assoc; reflexivity.
Qed.

Lemma main_on_v2_raises pre issue post rs e :
  project_accessible (attempt lib net 0 probe) ->
  issues = (pre ++ issue :: post)%list ->
  Forall2 (yields lib) (replies (attempt lib net) request_v2_of 1 pre) rs ->
  outcome lib (attempt lib net (1 + List.length pre) (request_v2_of issue))
  = Raised e ->
  create_jira_issues_v2.main_on lib net issues environ start
  = (Raised e,
     {| sent := probe :: (map request_v2_of pre
                          ++ match refused lib (request_v2_of issue) with
                             | None => [request_v2_of issue]
                             | Some _ => []
                             end)%list;
        stdout := (banner_v2 jira_url issues ++ project_found
                   ++ loop_lines_v2 lib (List.length issues) 1 pre rs
                   ++ [heading_v2 (List.length issues)
                         (1 + List.length pre) issue])%list |}).
Proof.
  intros Hp E H He. apply probe_accessible in Hp. rewrite main_on_v2_probe, Hp.
  pose proof (main_loop_v2_raises lib net jira_url auth_header pre rs issue
                post e (List.length issues) 1 [] []
                (say (banner_v2 jira_url issues ++ project_found)%list
                     (log probe start)) 1 eq_refl H He) as Hl.
  rewrite <- E in Hl. rewrite Hl. fold request_v2_of.
  unfold note. destruct (refused lib (request_v2_of issue));
    f_equal; unfold say, logs, log, start; cbn [sent stdout app];
    rewrite <- ?app_assoc, ?app_nil_r; reflexivity.
Qed.

(** The second script ends at the probe, after its summary, or at the
    first attempt on which [create_issue] raises. *)
Lemma main_on_v2_outcome :
  match probe_outcome (attempt lib net 0 probe) with
  | Raised e =>
    create_jira_issues_v2.main_on lib net issues environ start
    = (Raised e,
       {| sent := match refused lib probe with
                  | None => [probe]
                  | Some _ => []
                  end;
          stdout := banner_v2 jira_url issues |})
  | Returned false =>
    create_jira_issues_v2.main_on lib net issues environ start
    = (Raised (SystemExit 1),
       {| sent := [probe];
          stdout := (banner_v2 jira_url issues ++ project_not_found)%list |})
  | Returned true =>
    (exists rs,
        Forall2 (yields lib) (replies (attempt lib net) request_v2_of 1 issues) rs
        /\ create_jira_issues_v2.main_on lib net issues environ start
           = (final_result (failed_summaries issues rs),
              {| sent := probe :: map request_v2_of issues;
                 stdout := (banner_v2 jira_url issues ++ project_found
                            ++ loop_lines_v2 lib (List.length issues) 1 issues rs
                            ++ summary_report_v2 lib
                                 (created_items lib jira_url issues rs)
                                 (failed_summaries issues rs))%list |}))
    \/ (exists pre issue post rs e,
           issues = (pre ++ issue :: post)%list
           /\ Forall2 (yields lib)
                (replies (attempt lib net) request_v2_of 1 pre) rs
           /\ outcome lib (attempt lib net (1 + List.length pre)
                             (request_v2_of issue))
              = Raised e
           /\ create_jira_issues_v2.main_on lib net issues environ start
              = (Raised e,
                 {| sent := probe :: (map request_v2_of pre
                                      ++ match refused lib (request_v2_of issue) with
                                         | None => [request_v2_of issue]
                                         | Some _ => []
                                         end)%list;
                    stdout := (banner_v2 jira_url issues ++ project_found
                               ++ loop_lines_v2 lib (List.length issues) 1 pre rs
                               ++ [heading_v2 (List.length issues)
                                     (1 + List.length pre) issue])%list |}))
  end.
Proof.
  destruct (probe_outcome (attempt lib net 0 probe)) as [[|]|e] eqn:Hp.
  - apply probe_accessible in Hp.
    destruct (yields_or_raises lib (attempt lib net) request_v2_of issues 1)
      as [[rs H]|(pre & issue & post & rs & e & E & H & He)].
    + left. exists rs. split; [exact H|]. now apply main_on_v2_returns.
    + right. exists pre, issue, post, rs, e.
      split; [exact E|]. split; [exact H|]. split; [exact He|].
      now apply (main_on_v2_raises pre issue post rs e).
  - now rewrite main_on_v2_probe, Hp.
  - now rewrite main_on_v2_probe, Hp.
Qed.

End Configured.

(** ** The exit status *)


Lemma reports_deterministic lib a r r' :
  reports lib a r -> reports lib a r' -> r = r'.
Proof.
  intros H H'. apply reports_outcome in H, H'. congruence.
Qed.




Lemma configured_or_not environ :
  configured environ \/ absent_variables environ <> [].
Proof.
  destruct (absent_variables environ) eqn:E.
  - left. now apply absent_variables_nil.
  - right. discriminate.
Qed.

Lemma not_configured environ :
  absent_variables environ <> [] -> ~ configured environ.
Proof. intros H Hc. now apply absent_variables_nil in Hc. Qed.

Lemma encodable_or_not s : encodable s \/ utf8_valid s = false.
Proof. unfold encodable. destruct (utf8_valid s); auto. Qed.

Lemma not_encodable s : utf8_valid s = false -> ~ encodable s.
Proof. unfold encodable. intros -> H. discriminate H. Qed.


Lemma configured_example : configured Examples.environ.
Proof.
  intros v [<-|[<-|[<-|[]]]]; eexists; (split; [reflexivity|discriminate]).
Qed.


Lemma configured_slashes : configured Examples.environ_slashes.
Proof.
  intros v [<-|[<-|[<-|[]]]]; eexists; (split; [reflexivity|discriminate]).
Qed.



(** ** The probe *)

(** C5: [check_project_exists] hands one GET request for the project
    resource under the base URL to [urlopen] and returns whether the status
    is 2xx; an HTTP error status gives [False].  A transport failure is not
    caught: the [URLError] leaves the function, and so does every other
    exception of the exchange, and the [ValueError] of a URL without type,
    for which no request is made. *)
Theorem check_project_exists_answers lib net jira_url auth_header project_key st :
  let req := create_jira_issues_v2.project_request
               jira_url auth_header project_key in
  let run := create_jira_issues_v2.check_project_exists
               lib net jira_url auth_header project_key st in
  method req = "GET"
  /\ full_url req = jira_url ++ "/rest/api/2/project/" ++ project_key
  /\ In ("Authorization", auth_header) (headers req)
  /\ (has_url_type lib (full_url req) = true ->
      snd run = log req st
      /\ fst run = match answer net st req with
                   | HttpStatus code _ => Returned (is_2xx code)
                   | TransportFailure reason => Raised (URLError reason)
                   | Breaks (HTTPError _ _) => Returned false
                   | Breaks e => Raised e
                   end)
  /\ (has_url_type lib (full_url req) = false -> run = (Raised ValueError, st)).
Proof.
  cbv zeta. rewrite check_project_exists_run.
  unfold answer, attempt, note, refused. cbn [data full_url fst snd].
  split; [reflexivity|]. split; [reflexivity|]. split; [simpl; auto|].
  split; intros ->; [split|]; reflexivity.
Qed.

(** The probe of a host that cannot be reached. *)
Example check_project_exists_unreachable :
  fst (create_jira_issues_v2.check_project_exists
         reference Examples.net_down Examples.url Examples.header "BB" start)
  = Raised (URLError "[Errno 111] Connection refused")
  /\ fst (create_jira_issues_v2.main
            reference Examples.net_down Examples.environ start)
     = Raised (URLError "[Errno 111] Connection refused")
  /\ fst (create_jira_issues_v2.create_issue
            reference Examples.net_down Examples.url Examples.header "BB"
            Examples.template start)
     = Returned (Failure "[Errno 111] Connection refused").
Proof. repeat split; vm_compute; reflexivity. Qed.

(** The exit status on the inputs of the examples: every issue created,
    the third refused, no configuration, and a project that is not there. *)
Example exit_status_examples :
  exit_status (fst (create_jira_issues.main
                      reference Examples.net_created Examples.environ start)) = 0%Z
  /\ exit_status (fst (create_jira_issues_v2.main
                         reference Examples.net_created Examples.environ start)) = 0%Z
  /\ exit_status (fst (create_jira_issues.main
                         reference (Examples.net_refusing 2) Examples.environ
                         start)) = 1%Z
  /\ exit_status (fst (create_jira_issues_v2.main
                         reference Examples.net_created
                         Examples.environ_incomplete start)) = 1%Z
  /\ exit_status (fst (create_jira_issues_v2.main
                         reference (Examples.net_refusing 0) Examples.environ
                         start)) = 1%Z.
Proof. repeat split; vm_compute; reflexivity. Qed.

(** ** The request body *)

(** C9, as amended: the [labels] field of the request body is there exactly
    when the template has a [labels] entry, and then it is the list of that
    entry as it is, the empty list included; without the entry the body has
    no such field. *)
Theorem payload_labels lib jira_url auth_header project_key issue_data :
  field "labels" (create_jira_issues.payload project_key issue_data)
  = option_map (fun ls => JArray (map JString ls)) (labels issue_data)
  /\ field "labels" (create_jira_issues_v2.payload project_key issue_data)
     = option_map (fun ls => JArray (map JString ls)) (labels issue_data)
  /\ data (create_jira_issues.issue_request
             lib jira_url auth_header project_key issue_data)
     = Some (json_dumps lib
               (create_jira_issues.payload project_key issue_data))
  /\ data (create_jira_issues_v2.issue_request
             lib jira_url auth_header project_key issue_data)
     = Some (json_dumps lib
               (create_jira_issues_v2.payload project_key issue_data)).
Proof.
  split; [|split; [|split; reflexivity]].
  - unfold create_jira_issues.payload.
    now destruct (labels issue_data) as [ls|].
  - unfold create_jira_issues_v2.payload.
    now destruct (labels issue_data) as [ls|].
Qed.

(** C9 as stated fails: a template whose list of labels is empty has no
    labels, and its request body has the field all the same. *)
Lemma payload_keeps_empty_labels :
  has_no_labels Examples.template_empty_labels
  /\ field "labels" (create_jira_issues.payload "BB" Examples.template_empty_labels)
     = Some (JArray [])
  /\ field "labels" (create_jira_issues_v2.payload "BB" Examples.template_empty_labels)
     = Some (JArray [])
  /\ is_infix (dq ++ "labels" ++ dq ++ ": []")
       (json_dumps reference
          (create_jira_issues_v2.payload "BB" Examples.template_empty_labels))
     = true
  /\ ~ (forall project_key issue_data,
          has_no_labels issue_data ->
          field "labels" (create_jira_issues.payload project_key issue_data) = None)
  /\ ~ (forall project_key issue_data,
          has_no_labels issue_data ->
          field "labels" (create_jira_issues_v2.payload project_key issue_data) = None).
Proof.
  split; [exact I|]. split; [reflexivity|]. split; [reflexivity|].
  split; [vm_compute; reflexivity|].
  split; intros H;
    specialize (H "BB" Examples.template_empty_labels I); discriminate H.
Qed.

(** ** Runs that end in order, and runs that do not *)






(** ** The URLs of a run *)



Section Lines.

Variable lib : Library.
Variable base : str.
Variable issues : list IssueTemplate.












End Lines.







(** ** The properties on the inputs of the examples *)

(** The reference library fails with [JSONDecodeError] only. *)
Lemma reference_loads : plain_parser reference.
Proof.
  intros text e.
  cbn [json_loads reference]. unfold Reference.json_loads.
  destruct (Reference.parse_value _ _) as [[v r]|]; [|now intros [= <-]].
  destruct (Reference.skip_ws r); [discriminate|now intros [= <-]].
Qed.

Ltac reports_as :=
  apply (outcome_reports reference _ _ reference_loads);
  vm_compute; reflexivity.


Lemma get_auth_header_basic_base64_witness :
  get_auth_header "a@b.com" "tok123"
  = Returned ("Basic " ++ b64encode ("a@b.com" ++ ":" ++ "tok123")).
Proof.
  refine (proj1 get_auth_header_basic_base64 "a@b.com" "tok123" _).
  reflexivity.
Defined.

Lemma create_issue_reports_witness :
  fst (create_jira_issues.create_issue
         reference (Examples.net_refusing 0) Examples.url Examples.header "BB"
         Examples.template start)
  = Returned (Failure ("400: " ++ Examples.bad_request_body))
  /\ fst (create_jira_issues_v2.create_issue
            reference Examples.net_created Examples.url Examples.header "BB"
            Examples.template start)
     = Returned (Success (JString "BB-1") (JString "10001"))
  /\ fst (create_jira_issues_v2.create_issue
            reference Examples.net_down Examples.url Examples.header "BB"
            Examples.template start)
     = Returned (Failure "[Errno 111] Connection refused")
  /\ fst (create_jira_issues.create_issue
            reference (Examples.net_garbled 0) Examples.url Examples.header "BB"
            Examples.template start)
     = Raised UnicodeDecodeError
  /\ create_jira_issues.create_issue
       reference Examples.net_created "" Examples.header "BB"
       Examples.template start
     = (Raised ValueError, start)
  /\ is_infix "400" ("400: " ++ Examples.bad_request_body) = true
  /\ is_infix "bad request" ("400: " ++ Examples.bad_request_body) = true.
Proof.
  split; [|split; [|split; [|split; [|split; [|split; vm_compute; reflexivity]]]]].
  - refine (f_equal fst
              (proj1 (proj1 (create_issue_reports
                               reference (Examples.net_refusing 0) Examples.url
                               Examples.header "BB" Examples.template start))
                     _ _ _)).
    + vm_compute. reflexivity.
    + apply (reports_rejected reference 400 Examples.bad_request_body
                              Examples.bad_request_body); reflexivity.
  - refine (f_equal fst
              (proj1 (proj1 (proj2 (create_issue_reports
                                      reference Examples.net_created Examples.url
                                      Examples.header "BB" Examples.template
                                      start)))
                     _ _ _)).
    + vm_compute. reflexivity.
    + reports_as.
  - refine (f_equal fst
              (proj1 (proj1 (proj2 (create_issue_reports
                                      reference Examples.net_down Examples.url
                                      Examples.header "BB" Examples.template
                                      start)))
                     _ _ _)).
    + vm_compute. reflexivity.
    + apply reports_unreachable.
  - refine (f_equal fst
              (proj1 (proj2 (proj1 (create_issue_reports
                                      reference (Examples.net_garbled 0)
                                      Examples.url Examples.header "BB"
                                      Examples.template start)))
                     UnicodeDecodeError _ _)).
    + vm_compute. reflexivity.
    + apply malformed_not_text. reflexivity.
  - refine (proj2 (proj2 (proj1 (create_issue_reports
                                   reference Examples.net_created ""
                                   Examples.header "BB" Examples.template start)))
                  ValueError _).
    vm_compute. reflexivity.
Defined.




(** * Further properties *)

(** ** What [create_issue] does with every answer *)

(** X1: a call of [create_issue] hands at most one request to [urlopen]:
    its one request when that request can be built, and none when building
    it raises; it prints nothing either way, whatever the answer and also
    when an exception leaves the call.  The same holds for
    [check_project_exists]. *)
Theorem one_request_per_call lib net jira_url auth_header project_key issue_data st :
  (let req := create_jira_issues.issue_request
                lib jira_url auth_header project_key issue_data in
   snd (create_jira_issues.create_issue
          lib net jira_url auth_header project_key issue_data st)
   = {| sent := (sent st ++ match refused lib req with
                            | None => [req]
                            | Some _ => []
                            end)%list;
        stdout := stdout st |})
  /\ (let req := create_jira_issues_v2.issue_request
                   lib jira_url auth_header project_key issue_data in
      snd (create_jira_issues_v2.create_issue
             lib net jira_url auth_header project_key issue_data st)
      = {| sent := (sent st ++ match refused lib req with
                               | None => [req]
                               | Some _ => []
                               end)%list;
           stdout := stdout st |})
  /\ (let req := create_jira_issues_v2.project_request
                   jira_url auth_header project_key in
      snd (create_jira_issues_v2.check_project_exists
             lib net jira_url auth_header project_key st)
      = {| sent := (sent st ++ if has_url_type lib (full_url req)
                               then [req] else [])%list;
           stdout := stdout st |}).
Proof.
  cbv zeta.
  rewrite create_issue_run, create_issue_v2_run, check_project_exists_run.
  cbv zeta. cbn [snd]. unfold note.
  repeat split.
  - destruct (refused lib _); [destruct st; cbn; now rewrite app_nil_r|reflexivity].
  - destruct (refused lib _); [destruct st; cbn; now rewrite app_nil_r|reflexivity].
  - unfold refused. cbn [data create_jira_issues_v2.project_request].
    destruct (has_url_type lib _); [reflexivity|].
    destruct st; cbn; now rewrite app_nil_r.
Qed.

Lemma reports_status lib a key id :
  reports lib a (Success key id) ->
  exists code body, a = HttpStatus code body /\ is_2xx code = true.
Proof. intros H. inversion H; subst. now exists code, body. Qed.

Lemma refused_or_not lib req :
  refused lib req = None \/ exists e, refused lib req = Some e.
Proof. destruct (refused lib req) as [e|]; [right; now exists e|now left]. Qed.

Lemma created_iff lib net st req key id :
  outcome lib (answer (attempt lib net) st req) = Returned (Success key id)
  <-> refused lib req = None /\ reports lib (answer net st req) (Success key id).
Proof.
  unfold answer. split.
  - intros H. assert (Hr : refused lib req = None)
      by exact (yields_sent lib net _ req _ H).
    split; [exact Hr|]. rewrite (attempt_sent _ _ _ _ Hr) in H.
    now apply outcome_created.
  - intros [Hr H]. rewrite (attempt_sent _ _ _ _ Hr). now apply reports_outcome.
Qed.

Lemma failure_not_created lib a error key id :
  outcome lib a = Returned (Failure error) -> ~ reports lib a (Success key id).
Proof. intros H Hs. apply reports_outcome in Hs. congruence. Qed.

(** X2: [create_issue] returns a success exactly when its request could be
    built and the call of [urlopen] ended with a 2xx status whose body is
    the text of a JSON object with [key] and [id]; the success holds these
    two values.  So a success never comes from another status, from a
    failure of the transport or from an exchange that broke, and a call
    that returns a failure did not get such an answer. *)
Theorem create_issue_returns_iff
    lib net jira_url auth_header project_key issue_data st :
  (let req := create_jira_issues.issue_request
                lib jira_url auth_header project_key issue_data in
   let r := fst (create_jira_issues.create_issue
                   lib net jira_url auth_header project_key issue_data st) in
   (forall key id,
       r = Returned (Success key id)
       <-> refused lib req = None
           /\ reports lib (answer net st req) (Success key id))
   /\ (forall key id,
         r = Returned (Success key id) ->
         exists code body,
           answer net st req = HttpStatus code body /\ is_2xx code = true)
   /\ (forall error,
         r = Returned (Failure error) ->
         refused lib req = None
         /\ forall key id, ~ reports lib (answer net st req) (Success key id)))
  /\
  (let req := create_jira_issues_v2.issue_request
                lib jira_url auth_header project_key issue_data in
   let r := fst (create_jira_issues_v2.create_issue
                   lib net jira_url auth_header project_key issue_data st) in
   (forall key id,
       r = Returned (Success key id)
       <-> refused lib req = None
           /\ reports lib (answer net st req) (Success key id))
   /\ (forall key id,
         r = Returned (Success key id) ->
         exists code body,
           answer net st req = HttpStatus code body /\ is_2xx code = true)
   /\ (forall error,
         r = Returned (Failure error) ->
         refused lib req = None
         /\ forall key id, ~ reports lib (answer net st req) (Success key id))).
Proof.
  cbv zeta. rewrite create_issue_run, create_issue_v2_run. cbv zeta. cbn [fst].
  split; (split; [|split]).
  - intros key id. apply created_iff.
  - intros key id H. apply created_iff in H as [_ H].
    now apply reports_status in H.
  - intros error H.
    assert (Hr : refused lib (create_jira_issues.issue_request
                                lib jira_url auth_header project_key issue_data)
                 = None) by exact (yields_sent lib net _ _ _ H).
    split; [exact Hr|]. intros key id. unfold answer in *.
    rewrite (attempt_sent _ _ _ _ Hr) in H. now apply failure_not_created with error.
  - intros key id. apply created_iff.
  - intros key id H. apply created_iff in H as [_ H].
    now apply reports_status in H.
  - intros error H.
    assert (Hr : refused lib (create_jira_issues_v2.issue_request
                                lib jira_url auth_header project_key issue_data)
                 = None) by exact (yields_sent lib net _ _ _ H).
    split; [exact Hr|]. intros key id. unfold answer in *.
    rewrite (attempt_sent _ _ _ _ Hr) in H. now apply failure_not_created with error.
Qed.

Lemma create_issue_returns_iff_witness :
  fst (create_jira_issues.create_issue
         reference Examples.net_created Examples.url Examples.header "BB"
         Examples.template start)
  = Returned (Success (JString "BB-1") (JString "10001")).
Proof.
  refine (proj2 (proj1 (proj1 (create_issue_returns_iff
                                 reference Examples.net_created Examples.url
                                 Examples.header "BB" Examples.template start))
                       (JString "BB-1") (JString "10001")) _).
  split; [vm_compute; reflexivity|].
  reports_as.
Defined.

Lemma raises_iff lib net st req e :
  outcome lib (answer (attempt lib net) st req) = Raised e
  <-> (exists x, refused lib req = Some x /\ e = Error x)
      \/ (refused lib req = None /\ escapes lib (answer net st req) e).
Proof.
  unfold answer. destruct (refused lib req) as [x|] eqn:Hr.
  - rewrite (attempt_refused _ _ _ _ _ Hr).
    rewrite (outcome_refused x (refused_uncaught _ _ _ Hr)). split.
    + intros [= <-]. left. now exists x.
    + intros [(y & [= <-] & ->)|[H _]]; [reflexivity|discriminate].
  - rewrite (attempt_sent _ _ _ _ Hr). split.
    + intros H. right. split; [reflexivity|now apply outcome_escapes].
    + intros [(y & H & _)|[_ H]]; [discriminate|now apply escapes_outcome].
Qed.

Lemma refused_kinds lib req x :
  refused lib req = Some x -> x = UnicodeEncodeError \/ x = ValueError.
Proof.
  unfold refused. destruct (data req) as [body|].
  - destruct (utf8_valid body); [|intros [= <-]; now left].
    destruct (has_url_type lib _); [discriminate|intros [= <-]; now right].
  - destruct (has_url_type lib _); [discriminate|intros [= <-]; now right].
Qed.

(** X3: [create_issue] raises in these cases and in no other.  Building the
    request raises [UnicodeEncodeError] for a body that cannot be encoded
    and [ValueError] for a URL without a type.  Reading the answer raises
    [UnicodeDecodeError] for a body that is no UTF-8, whatever the status,
    and for a 2xx status what [json.loads] raises, [TypeError] for JSON that
    is no object, [KeyError] for an object without [key] or without [id].
    An exception of [urlopen] other than [HTTPError] and [URLError] leaves
    the call as it is.  No [HTTPError], [URLError] or [SystemExit] ever
    leaves it. *)
Theorem create_issue_raises_iff
    lib net jira_url auth_header project_key issue_data st e :
  (let req := create_jira_issues.issue_request
                lib jira_url auth_header project_key issue_data in
   let r := fst (create_jira_issues.create_issue
                   lib net jira_url auth_header project_key issue_data st) in
   (r = Raised e
    <-> (exists x, refused lib req = Some x /\ e = Error x)
        \/ (refused lib req = None /\ escapes lib (answer net st req) e))
   /\ (r = Raised e -> exists x, e = Error x /\ caught x = false)
   /\ (forall x, refused lib req = Some x ->
                 x = UnicodeEncodeError \/ x = ValueError))
  /\
  (let req := create_jira_issues_v2.issue_request
                lib jira_url auth_header project_key issue_data in
   let r := fst (create_jira_issues_v2.create_issue
                   lib net jira_url auth_header project_key issue_data st) in
   (r = Raised e
    <-> (exists x, refused lib req = Some x /\ e = Error x)
        \/ (refused lib req = None /\ escapes lib (answer net st req) e))
   /\ (r = Raised e -> exists x, e = Error x /\ caught x = false)
   /\ (forall x, refused lib req = Some x ->
                 x = UnicodeEncodeError \/ x = ValueError)).
Proof.
  cbv zeta. rewrite create_issue_run, create_issue_v2_run. cbv zeta. cbn [fst].
  split; (split; [apply raises_iff|split; [|apply refused_kinds]]).
  - intros H. destruct (outcome_raised _ _ _ H) as [x ->].
    exists x. split; [reflexivity|]. now apply outcome_uncaught in H.
  - intros H. destruct (outcome_raised _ _ _ H) as [x ->].
    exists x. split; [reflexivity|]. now apply outcome_uncaught in H.
Qed.

Lemma create_issue_raises_iff_witness :
  fst (create_jira_issues.create_issue
         reference (Examples.net_garbled 0) Examples.url Examples.header "BB"
         Examples.template start)
  = Raised UnicodeDecodeError
  /\ exists x, Error UnicodeDecodeError = Error x /\ caught x = false.
Proof.
  pose proof (proj1 (create_issue_raises_iff
                       reference (Examples.net_garbled 0) Examples.url
                       Examples.header "BB" Examples.template start
                       UnicodeDecodeError)) as H.
  cbv zeta in H.
  assert (E : fst (create_jira_issues.create_issue
                     reference (Examples.net_garbled 0) Examples.url
                     Examples.header "BB" Examples.template start)
              = Raised UnicodeDecodeError).
  { apply (proj2 (proj1 H)). right. split; [vm_compute; reflexivity|].
    apply escapes_malformed.
    apply (malformed_not_text reference 500 (String (ascii_of_nat 255) "")).
    reflexivity. }
  split; [exact E|exact (proj1 (proj2 H) E)].
Defined.

(** ** The header *)

Lemma length_append (s t : str) :
  String.length (s ++ t) = String.length s + String.length t.
Proof. induction s as [|a r IH]; simpl; [reflexivity|now rewrite IH]. Qed.

Lemma sextet_b64_char b5 b4 b3 b2 b1 b0 :
  is_b64_char (sextet b5 b4 b3 b2 b1 b0) = true.
Proof. destruct b5, b4, b3, b2, b1, b0; reflexivity. Qed.

Lemma b64encode_alphabet s : all_bytes is_b64_char (b64encode s) = true.
Proof.
  induction s as [|a|a b|a b c r IH] using b64encode_ind;
    [reflexivity|destruct a|destruct a, b|destruct a, b, c];
    cbn [b64encode all_bytes]; rewrite ?sextet_b64_char, ?IH; reflexivity.
Qed.

(** X4: for an email and a token that [encode()] accepts, the header is
    "Basic " followed only by characters of the Base64 alphabet and
    padding: no line break, space or other byte of the credentials gets
    into it.  Its length is 6 plus four characters for every three bytes of
    the UTF-8 encoding of [email:token], rounded up; the lengths of the
    statement are those of the encodings, in bytes. *)
Theorem auth_header_shape email api_token :
  encodable (email ++ ":" ++ api_token) ->
  exists encoded,
    get_auth_header email api_token = Returned ("Basic " ++ encoded)
    /\ all_bytes is_b64_char encoded = true
    /\ all_bytes is_ascii ("Basic " ++ encoded) = true
    /\ String.length ("Basic " ++ encoded)
       = 6 + 4 * ((String.length email + 1 + String.length api_token + 2) / 3).
Proof.
  intros He. exists (b64encode (email ++ ":" ++ api_token)).
  split; [now apply get_auth_header_returns|].
  split; [apply b64encode_alphabet|].
  split; [cbn [append all_bytes]; now rewrite b64encode_ascii|].
  cbn [append String.length]. rewrite b64encode_length, !length_append.
  cbn [String.length].
  replace (String.length email + S (String.length api_token) + 2)
    with (String.length email + 1 + String.length api_token + 2) by lia.
  reflexivity.
Qed.

Lemma auth_header_shape_witness :
  exists encoded,
    get_auth_header "a@b.com" "tok123" = Returned ("Basic " ++ encoded)
    /\ all_bytes is_b64_char encoded = true
    /\ all_bytes is_ascii ("Basic " ++ encoded) = true
    /\ String.length ("Basic " ++ encoded)
       = 6 + 4 * ((String.length "a@b.com" + 1 + String.length "tok123" + 2) / 3).
Proof.
  apply (auth_header_shape "a@b.com" "tok123"). reflexivity.
Defined.

Lemma b64encode_injective s t : b64encode s = b64encode t -> s = t.
Proof.
  intros H. apply (f_equal b64decode) in H.
  rewrite !b64decode_b64encode in H. now injection H.
Qed.

Lemma split_at_colon e1 : forall e2 t1 t2,
  occurs ":" e1 = false ->
  occurs ":" e2 = false ->
  e1 ++ ":" ++ t1 = e2 ++ ":" ++ t2 ->
  e1 = e2 /\ t1 = t2.
Proof.
  induction e1 as [|a r IH]; intros [|b r'] t1 t2 H1 H2 H; cbn in H.
  - now injection H.
  - injection H as Hb _. subst b. cbn in H2. discriminate.
  - injection H as Ha _. subst a. cbn in H1. discriminate.
  - injection H as -> Hr. cbn in H1, H2.
    apply orb_false_iff in H1 as [_ H1]. apply orb_false_iff in H2 as [_ H2].
    destruct (IH r' t1 t2 H1 H2 Hr) as [-> ->]. now split.
Qed.

Lemma same_header e1 t1 e2 t2 :
  encodable (e1 ++ ":" ++ t1) ->
  get_auth_header e1 t1 = get_auth_header e2 t2 ->
  e1 ++ ":" ++ t1 = e2 ++ ":" ++ t2.
Proof.
  intros He H. rewrite (get_auth_header_returns e1 t1 He) in H.
  destruct (encodable_or_not (e2 ++ ":" ++ t2)) as [He2|Hn].
  - rewrite (get_auth_header_returns e2 t2 He2) in H.
    injection H as H. now apply b64encode_injective.
  - rewrite (get_auth_header_raises e2 t2 Hn) in H. discriminate.
Qed.

Lemma same_credentials e1 t1 e2 t2 :
  e1 ++ ":" ++ t1 = e2 ++ ":" ++ t2 ->
  get_auth_header e1 t1 = get_auth_header e2 t2.
Proof. unfold get_auth_header. cbv zeta. now intros ->. Qed.

(** X5: for an email and a token that [encode()] accepts, another pair
    gets the same header exactly when [email:token] is the same text; when
    neither email holds a colon they are then the same email and the same
    token.  With a colon in an email two different pairs share a header. *)
Theorem auth_header_injective :
  (forall e1 t1 e2 t2,
      encodable (e1 ++ ":" ++ t1) ->
      (get_auth_header e1 t1 = get_auth_header e2 t2
       <-> e1 ++ ":" ++ t1 = e2 ++ ":" ++ t2))
  /\ (forall e1 t1 e2 t2,
        encodable (e1 ++ ":" ++ t1) ->
        occurs ":" e1 = false ->
        occurs ":" e2 = false ->
        get_auth_header e1 t1 = get_auth_header e2 t2 ->
        e1 = e2 /\ t1 = t2)
  /\ get_auth_header "a:b" "c" = get_auth_header "a" "b:c"
  /\ get_auth_header "a:b" "c" = Returned "Basic YTpiOmM=".
Proof.
  split; [|split; [|split; reflexivity]].
  - intros e1 t1 e2 t2 He. split; [now apply same_header|apply same_credentials].
  - intros e1 t1 e2 t2 He H1 H2 H. apply same_header in H; [|exact He].
    now apply (split_at_colon e1 e2 t1 t2).
Qed.

Lemma auth_header_injective_witness :
  encodable ("a@b.com" ++ ":" ++ "tok123")
  /\ occurs ":" "a@b.com" = false
  /\ ("a@b.com" = "a@b.com" /\ "tok123" = "tok123").
Proof.
  split; [reflexivity|]. split; [reflexivity|].
  exact (proj1 (proj2 auth_header_injective)
           "a@b.com" "tok123" "a@b.com" "tok123" eq_refl eq_refl eq_refl eq_refl).
Defined.

(** ** The request body, field by field *)

(** X6: in both scripts the request body has the fields [project], with
    the project key, [summary] and [issuetype] of the template, in the
    order project, summary, description, issuetype, followed by [labels]
    when the template has that entry; a template without [issuetype]
    asks for a "Task"; the labels replace no other field. *)
Theorem payload_fields project_key issue_data :
  let v3 := create_jira_issues.payload project_key issue_data in
  let v2 := create_jira_issues_v2.payload project_key issue_data in
  let names := (["project"; "summary"; "description"; "issuetype"]
                ++ match labels issue_data with
                   | Some _ => ["labels"]
                   | None => []
                   end)%list in
  (field_names v3 = names
   /\ field "project" v3 = Some (JObject [("key", JString project_key)])
   /\ field "summary" v3 = Some (JString (summary issue_data))
   /\ field "issuetype" v3
      = Some (JObject [("name", JString (issuetype_name issue_data))]))
  /\ (field_names v2 = names
      /\ field "project" v2 = Some (JObject [("key", JString project_key)])
      /\ field "summary" v2 = Some (JString (summary issue_data))
      /\ field "issuetype" v2
         = Some (JObject [("name", JString (issuetype_name issue_data))]))
  /\ (issuetype issue_data = None -> issuetype_name issue_data = "Task").
Proof.
  cbv zeta.
  unfold create_jira_issues.payload, create_jira_issues_v2.payload,
    issuetype_name.
  split; [|split]; [| |now intros ->];
    destruct (labels issue_data) as [ls|]; repeat split.
Qed.

Lemma payload_fields_witness :
  issuetype_name Examples.template = "Task"
  /\ field "issuetype" (create_jira_issues.payload "BB" Examples.template)
     = Some (JObject [("name", JString "Task")]).
Proof.
  split.
  - exact (proj2 (proj2 (payload_fields "BB" Examples.template)) eq_refl).
  - exact (proj2 (proj2 (proj2 (proj1 (payload_fields "BB" Examples.template))))).
Defined.

(** X7: for one template the two scripts build the same body but for the
    description: every other field is the same in both, the second script
    sends the description as a string, and the first as a document of one
    paragraph whose one text node is that string. *)
Theorem payloads_differ_in_description project_key issue_data :
  let v3 := create_jira_issues.payload project_key issue_data in
  let v2 := create_jira_issues_v2.payload project_key issue_data in
  (forall name, name <> "description" -> field name v3 = field name v2)
  /\ field_names v3 = field_names v2
  /\ field "description" v2 = Some (JString (description issue_data))
  /\ match field "description" v3 with
     | Some doc => doc_text doc = Some (JString (description issue_data))
     | None => False
     end.
Proof.
  cbv zeta.
  unfold create_jira_issues.payload, create_jira_issues_v2.payload.
  split; [|destruct (labels issue_data) as [ls|]; repeat split].
  intros name Hn.
  assert (Hd : String.eqb name "description" = false)
    by now apply String.eqb_neq.
  destruct (labels issue_data) as [ls|];
    cbn [field dict_set dict_get String.eqb Ascii.eqb Bool.eqb];
    cbn [dict_get]; rewrite Hd; reflexivity.
Qed.

Lemma payloads_differ_in_description_witness :
  field "labels" (create_jira_issues.payload "BB" Examples.template_empty_labels)
  = field "labels" (create_jira_issues_v2.payload "BB" Examples.template_empty_labels).
Proof.
  refine (proj1 (payloads_differ_in_description "BB" Examples.template_empty_labels)
                "labels" _).
  discriminate.
Defined.

(** ** The requests of a run *)

Lemma in_firstn {A} k (l : list A) x : In x (firstn k l) -> In x l.
Proof.
  intros H. rewrite <- (firstn_skipn k l). apply in_or_app. now left.
Qed.

Lemma prefix_sent {A B} (f : A -> B) pre (x : A) post (o : option error) :
  exists k,
    k <= List.length (pre ++ x :: post)
    /\ (map f pre ++ match o with Some _ => [] | None => [f x] end)%list
       = map f (firstn k (pre ++ x :: post)).
Proof.
  destruct o.
  - exists (List.length pre). split; [rewrite length_app; simpl; lia|].
    now rewrite firstn_before, app_nil_r.
  - exists (S (List.length pre)). split; [rewrite length_app; simpl; lia|].
    now rewrite firstn_through, map_app.
Qed.

Lemma main_on_sent lib net issues environ :
  exists k,
    k <= List.length issues
    /\ sent (snd (create_jira_issues.main_on lib net issues environ start))
       = map (create_jira_issues.issue_request
                lib (base_url environ) (auth_header_of environ)
                create_jira_issues.PROJECT_KEY)
             (firstn k issues).
Proof.
  destruct (configured_or_not environ) as [Hc|Hm];
    [|exists 0; split; [lia|]; now rewrite main_on_missing].
  destruct (encodable_or_not (credentials environ)) as [He|Hn];
    [|exists 0; split; [lia|]; now rewrite main_on_unencodable].
  destruct (main_on_outcome lib net issues environ Hc He)
    as [(rs & H & ->)|(pre & issue & post & rs & e & E & H & Ho & ->)];
    cbn [snd sent].
  - exists (List.length issues). split; [reflexivity|now rewrite firstn_all].
  - rewrite E. apply prefix_sent.
Qed.

Lemma probe_refused lib net n req x :
  refused lib req = Some x ->
  probe_outcome (attempt lib net n req) = Raised x.
Proof.
  intros Hr. rewrite (attempt_refused _ _ _ _ _ Hr).
  apply refused_uncaught in Hr. now destruct x.
Qed.

Lemma probe_not_accessible a :
  ~ project_accessible a -> probe_outcome a <> Returned true.
Proof. intros Hn H. now apply probe_accessible in H. Qed.

Lemma main_on_v2_sent lib net issues environ :
  let probe := create_jira_issues_v2.project_request
                 (base_url environ) (auth_header_of environ)
                 create_jira_issues_v2.PROJECT_KEY in
  let run := create_jira_issues_v2.main_on lib net issues environ start in
  ((~ configured environ
    \/ ~ encodable (credentials environ)
    \/ has_url_type lib (full_url probe) = false)
   /\ sent (snd run) = [])
  \/ (configured environ
      /\ encodable (credentials environ)
      /\ has_url_type lib (full_url probe) = true
      /\ ~ project_accessible (net 0 probe)
      /\ sent (snd run) = [probe])
  \/ (configured environ
      /\ encodable (credentials environ)
      /\ has_url_type lib (full_url probe) = true
      /\ project_accessible (net 0 probe)
      /\ exists k,
           k <= List.length issues
           /\ sent (snd run)
              = probe :: map (create_jira_issues_v2.issue_request
                                lib (base_url environ) (auth_header_of environ)
                                create_jira_issues_v2.PROJECT_KEY)
                             (firstn k issues)).
Proof.
  cbv zeta.
  destruct (configured_or_not environ) as [Hc|Hm];
    [|left; split; [left; now apply not_configured
                   |now rewrite main_on_v2_missing]].
  destruct (encodable_or_not (credentials environ)) as [He|Hn];
    [|left; split; [right; left; now apply not_encodable
                   |now rewrite main_on_v2_unencodable]].
  pose proof (main_on_v2_outcome lib net issues environ Hc He) as Ho.
  set (probe := create_jira_issues_v2.project_request
                  (base_url environ) (auth_header_of environ)
                  create_jira_issues_v2.PROJECT_KEY) in *.
  destruct (has_url_type lib (full_url probe)) eqn:Ht.
  - assert (Hr : refused lib probe = None)
      by (unfold refused; cbn [data probe create_jira_issues_v2.project_request];
          fold probe; now rewrite Ht).
    right. rewrite Hr, (attempt_sent _ _ _ _ Hr) in Ho.
    destruct (probe_outcome (net 0 probe)) as [[|]|e] eqn:Hp.
    + right. repeat (split; [first [assumption|reflexivity]|]).
      split; [now apply probe_accessible|].
      destruct Ho
        as [(rs & H & ->)|(pre & issue & post & rs & e & E & H & Hx & ->)];
        cbn [snd sent].
      * exists (List.length issues).
        split; [reflexivity|now rewrite firstn_all].
      * rewrite E.
        destruct (prefix_sent
                    (create_jira_issues_v2.issue_request
                       lib (base_url environ) (auth_header_of environ)
                       create_jira_issues_v2.PROJECT_KEY)
                    pre issue post
                    (refused lib (create_jira_issues_v2.issue_request
                                    lib (base_url environ) (auth_header_of environ)
                                    create_jira_issues_v2.PROJECT_KEY issue)))
          as (k & Hk & Ek).
        exists k. split; [exact Hk|]. now rewrite <- Ek.
    + left. repeat (split; [first [assumption|reflexivity]|]).
      split; [|now rewrite Ho].
      intros Ha. apply probe_accessible in Ha. congruence.
    + left. repeat (split; [first [assumption|reflexivity]|]).
      split; [|now rewrite Ho].
      intros Ha. apply probe_accessible in Ha. congruence.
  - assert (Hr : refused lib probe = Some ValueError)
      by (unfold refused; cbn [data probe create_jira_issues_v2.project_request];
          fold probe; now rewrite Ht).
    left. split; [now right; right|].
    rewrite (probe_refused _ _ _ _ _ Hr), Hr in Ho. now rewrite Ho.
Qed.

(** X8: every request that a run of the first script hands to [urlopen] is
    the POST for one of the issues: to the issue resource under the base
    URL, with the header of the configured email and token, the two JSON
    content headers, and the serialised body of that issue.  In the second
    script every such request is either such a POST or the probe, a GET
    without body.  What [urlopen] sends on its own while it follows a
    redirection is not counted. *)
Theorem requests_of_a_run lib net issues environ :
  (forall req,
      In req (sent (snd (create_jira_issues.main_on lib net issues environ start))) ->
      exists issue,
        In issue issues
        /\ req = {| method := "POST";
                    full_url := base_url environ ++ "/rest/api/3/issue";
                    headers := [ ("Authorization", auth_header_of environ);
                                 ("Content-Type", "application/json");
                                 ("Accept", "application/json") ];
                    data := Some (json_dumps lib
                                    (create_jira_issues.payload
                                       create_jira_issues.PROJECT_KEY issue)) |})
  /\ (forall req,
        In req (sent (snd (create_jira_issues_v2.main_on
                             lib net issues environ start))) ->
        req = {| method := "GET";
                 full_url := base_url environ ++ "/rest/api/2/project/"
                             ++ create_jira_issues_v2.PROJECT_KEY;
                 headers := [ ("Authorization", auth_header_of environ);
                              ("Accept", "application/json") ];
                 data := None |}
        \/ exists issue,
             In issue issues
             /\ req = {| method := "POST";
                         full_url := base_url environ ++ "/rest/api/2/issue";
                         headers := [ ("Authorization", auth_header_of environ);
                                      ("Content-Type", "application/json");
                                      ("Accept", "application/json") ];
                         data := Some (json_dumps lib
                                         (create_jira_issues_v2.payload
                                            create_jira_issues_v2.PROJECT_KEY
                                            issue)) |}).
Proof.
  split; intros req Hr.
  - destruct (main_on_sent lib net issues environ) as (k & _ & E).
    rewrite E in Hr. apply in_map_iff in Hr as (issue & <- & Hi).
    exists issue. split; [now apply in_firstn in Hi|reflexivity].
  - pose proof (main_on_v2_sent lib net issues environ) as Hs. cbv zeta in Hs.
    destruct Hs as [[_ E]|[(_ & _ & _ & _ & E)|(_ & _ & _ & _ & k & _ & E)]];
      rewrite E in Hr.
    + destruct Hr.
    + destruct Hr as [<-|[]]. now left.
    + destruct Hr as [<-|Hr]; [now left|]. right.
      apply in_map_iff in Hr as (issue & <- & Hi).
      exists issue. split; [now apply in_firstn in Hi|reflexivity].
Qed.

Lemma requests_of_a_run_witness :
  exists issue,
    In issue [Examples.template]
    /\ create_jira_issues.issue_request
         reference "https://x.atlassian.net" "Basic YUBiLmNvbTp0b2sxMjM=" "BB"
         Examples.template
       = {| method := "POST";
            full_url := base_url Examples.environ ++ "/rest/api/3/issue";
            headers := [ ("Authorization", auth_header_of Examples.environ);
                         ("Content-Type", "application/json");
                         ("Accept", "application/json") ];
            data := Some (json_dumps reference
                            (create_jira_issues.payload
                               create_jira_issues.PROJECT_KEY issue)) |}.
Proof.
  refine (proj1 (requests_of_a_run reference Examples.net_created
                   [Examples.template] Examples.environ) _ _).
  vm_compute. left. reflexivity.
Defined.

(** X9: the second script hands no request to [urlopen] when a variable is
    missing, when the credentials cannot be encoded, or when the URL of the
    probe has no type.  Otherwise the probe is its first request, and a
    request for an issue follows only when the call for the probe ended
    with a 2xx status; then the requests for the issues are those of the
    first issues of the list, in order.  The first script hands over the
    requests of the first issues of the list and no other. *)
Theorem requests_in_order lib net issues environ :
  let probe := create_jira_issues_v2.project_request
                 (base_url environ) (auth_header_of environ)
                 create_jira_issues_v2.PROJECT_KEY in
  let run := create_jira_issues_v2.main_on lib net issues environ start in
  (((~ configured environ
     \/ ~ encodable (credentials environ)
     \/ has_url_type lib (full_url probe) = false)
    /\ sent (snd run) = [])
   \/ (configured environ
       /\ encodable (credentials environ)
       /\ has_url_type lib (full_url probe) = true
       /\ ~ project_accessible (net 0 probe)
       /\ sent (snd run) = [probe])
   \/ (configured environ
       /\ encodable (credentials environ)
       /\ has_url_type lib (full_url probe) = true
       /\ project_accessible (net 0 probe)
       /\ exists k,
            k <= List.length issues
            /\ sent (snd run)
               = probe :: map (create_jira_issues_v2.issue_request
                                 lib (base_url environ) (auth_header_of environ)
                                 create_jira_issues_v2.PROJECT_KEY)
                              (firstn k issues)))
  /\ List.length (sent (snd run)) <= 1 + List.length issues
  /\ exists k,
       k <= List.length issues
       /\ sent (snd (create_jira_issues.main_on lib net issues environ start))
          = map (create_jira_issues.issue_request
                   lib (base_url environ) (auth_header_of environ)
                   create_jira_issues.PROJECT_KEY)
                (firstn k issues).
Proof.
  cbv zeta. pose proof (main_on_v2_sent lib net issues environ) as Hs.
  cbv zeta in Hs. split; [exact Hs|]. split; [|apply main_on_sent].
  destruct Hs as [[_ ->]|[(_ & _ & _ & _ & ->)|(_ & _ & _ & _ & k & Hk & ->)]];
    cbn [List.length]; try lia.
  rewrite length_map, length_firstn. lia.
Qed.

(** ** What the output depends on *)

Lemma app_same_length {A} (l1 : list A) : forall l2 r1 r2,
  List.length l1 = List.length l2 ->
  (l1 ++ r1 = l2 ++ r2)%list ->
  l1 = l2 /\ r1 = r2.
Proof.
  induction l1 as [|a l1 IH]; intros [|b l2] r1 r2 Hl H; try discriminate.
  - now split.
  - injection Hl as Hl. injection H as -> H.
    destruct (IH l2 r1 r2 Hl H) as [-> ->]. now split.
Qed.

Lemma replies_same_split net1 net2 rq1 rq2 n pre issue post :
  replies net1 rq1 n (pre ++ issue :: post)
  = replies net2 rq2 n (pre ++ issue :: post) ->
  replies net1 rq1 n pre = replies net2 rq2 n pre
  /\ net1 (n + List.length pre) (rq1 issue) = net2 (n + List.length pre) (rq2 issue).
Proof.
  rewrite !replies_app. intros H.
  apply app_same_length in H as [Hpre Hpost];
    [|now rewrite !replies_length].
  split; [exact Hpre|]. cbn [replies] in Hpost. now injection Hpost.
Qed.

(** Requests that differ in their headers only are built, or not, alike. *)
Lemma attempts_same lib net1 net2 (rq1 rq2 : IssueTemplate -> Request) issues :
  (forall issue, refused lib (rq1 issue) = refused lib (rq2 issue)) ->
  forall n,
    replies net1 rq1 n issues = replies net2 rq2 n issues ->
    replies (attempt lib net1) rq1 n issues
    = replies (attempt lib net2) rq2 n issues.
Proof.
  intros Hq. induction issues as [|issue rest IH]; intros n H; [reflexivity|].
  cbn [replies] in *. injection H as Ha Hrest.
  rewrite (IH _ Hrest). unfold attempt. now rewrite Hq, Ha.
Qed.

(** X10: the email and the token reach the output through the answers of
    the service only: two configured runs with the same base URL and with
    credentials that [encode()] accepts, whose requests get the same
    answers, print the same lines and end with the same result, whatever
    their credentials. *)
Theorem output_independent_of_credentials lib net1 net2 issues environ1 environ2 :
  configured environ1 ->
  configured environ2 ->
  encodable (credentials environ1) ->
  encodable (credentials environ2) ->
  base_url environ1 = base_url environ2 ->
  (replies net1 (create_jira_issues.issue_request
                   lib (base_url environ1) (auth_header_of environ1)
                   create_jira_issues.PROJECT_KEY) 0 issues
   = replies net2 (create_jira_issues.issue_request
                     lib (base_url environ2) (auth_header_of environ2)
                     create_jira_issues.PROJECT_KEY) 0 issues ->
   let run1 := create_jira_issues.main_on lib net1 issues environ1 start in
   let run2 := create_jira_issues.main_on lib net2 issues environ2 start in
   fst run1 = fst run2 /\ stdout (snd run1) = stdout (snd run2))
  /\
  (net1 0 (create_jira_issues_v2.project_request
             (base_url environ1) (auth_header_of environ1)
             create_jira_issues_v2.PROJECT_KEY)
   = net2 0 (create_jira_issues_v2.project_request
               (base_url environ2) (auth_header_of environ2)
               create_jira_issues_v2.PROJECT_KEY) ->
   replies net1 (create_jira_issues_v2.issue_request
                   lib (base_url environ1) (auth_header_of environ1)
                   create_jira_issues_v2.PROJECT_KEY) 1 issues
   = replies net2 (create_jira_issues_v2.issue_request
                     lib (base_url environ2) (auth_header_of environ2)
                     create_jira_issues_v2.PROJECT_KEY) 1 issues ->
   let run1 := create_jira_issues_v2.main_on lib net1 issues environ1 start in
   let run2 := create_jira_issues_v2.main_on lib net2 issues environ2 start in
   fst run1 = fst run2 /\ stdout (snd run1) = stdout (snd run2)).
Proof.
  intros Hc1 Hc2 He1 He2 Hb. split.
  - intros Hr. cbv zeta.
    apply (attempts_same lib) in Hr; [|intros issue; now rewrite Hb].
    destruct (main_on_outcome lib net1 issues environ1 Hc1 He1)
      as [(rs & H & E1)|(pre & issue & post & rs & e & E & H & Ho & E1)];
      rewrite E1.
    + rewrite Hr in H.
      rewrite (main_on_returns lib net2 issues environ2 Hc2 He2 rs H).
      cbn [fst snd stdout]. now rewrite Hb.
    + rewrite E in Hr. apply replies_same_split in Hr as [Hpre Ha].
      rewrite Hpre in H. cbn [Nat.add] in Ha. rewrite Ha in Ho.
      rewrite (main_on_raises lib net2 issues environ2 Hc2 He2 pre issue post
                 rs e E H Ho).
      cbn [fst snd stdout]. now rewrite Hb.
  - intros Hp Hr. cbv zeta.
    apply (attempts_same lib) in Hr; [|intros issue; now rewrite Hb].
    assert (Hp' : attempt lib net1 0
                    (create_jira_issues_v2.project_request
                       (base_url environ1) (auth_header_of environ1)
                       create_jira_issues_v2.PROJECT_KEY)
                  = attempt lib net2 0
                      (create_jira_issues_v2.project_request
                         (base_url environ2) (auth_header_of environ2)
                         create_jira_issues_v2.PROJECT_KEY)).
    { unfold attempt. rewrite Hp. unfold refused.
      cbn [data full_url create_jira_issues_v2.project_request].
      now rewrite Hb. }
    pose proof (main_on_v2_outcome lib net1 issues environ1 Hc1 He1) as Ho.
    pose proof (main_on_v2_outcome lib net2 issues environ2 Hc2 He2) as Ho2.
    rewrite <- Hp' in Ho2.
    destruct (probe_outcome _) as [[|]|x] eqn:Hq.
    + clear Ho2. apply probe_accessible in Hq.
      assert (Hq2 := Hq). rewrite Hp' in Hq2.
      destruct Ho
        as [(rs & H & E1)|(pre & issue & post & rs & e & E & H & Hx & E1)];
        rewrite E1.
      * rewrite Hr in H.
        rewrite (main_on_v2_returns lib net2 issues environ2 Hc2 He2 rs Hq2 H).
        cbn [fst snd stdout]. now rewrite Hb.
      * rewrite E in Hr. apply replies_same_split in Hr as [Hpre Ha].
        rewrite Hpre in H. rewrite Ha in Hx.
        rewrite (main_on_v2_raises lib net2 issues environ2 Hc2 He2
                   pre issue post rs e Hq2 E H Hx).
        cbn [fst snd stdout]. now rewrite Hb.
    + rewrite Ho, Ho2. cbn [fst snd stdout]. now rewrite Hb.
    + rewrite Ho, Ho2. cbn [fst snd stdout]. now rewrite Hb.
Qed.

Lemma configured_other_account : configured environ_other_account.
Proof.
  intros v [<-|[<-|[<-|[]]]]; eexists; (split; [reflexivity|discriminate]).
Qed.

Lemma output_independent_of_credentials_witness :
  let run1 := create_jira_issues.main_on
                reference (Examples.net_refusing 1)
                [Examples.template; Examples.template_empty_labels]
                Examples.environ start in
  let run2 := create_jira_issues.main_on
                reference (Examples.net_refusing 1)
                [Examples.template; Examples.template_empty_labels]
                environ_other_account start in
  fst run1 = fst run2 /\ stdout (snd run1) = stdout (snd run2).
Proof.
  refine (proj1 (output_independent_of_credentials
                   reference (Examples.net_refusing 1) (Examples.net_refusing 1)
                   [Examples.template; Examples.template_empty_labels]
                   Examples.environ environ_other_account
                   configured_example configured_other_account _ _ _) _).
  - reflexivity.
  - reflexivity.
  - vm_compute. reflexivity.
  - vm_compute. reflexivity.
Defined.

(** ** A run that is cut short *)








(** ** Slashes at the end of the URL *)

Lemma rstrip_repeated c n : rstrip c (str_mul (String c "") n) = "".
Proof.
  induction n as [|n IH]; [reflexivity|].
  cbn [str_mul String.append rstrip]. rewrite IH, Ascii.eqb_refl. reflexivity.
Qed.

Lemma rstrip_app_repeated c n s :
  rstrip c (s ++ str_mul (String c "") n) = rstrip c s.
Proof.
  induction s as [|a r IH]; [apply rstrip_repeated|].
  cbn [String.append rstrip]. now rewrite IH.
Qed.

Lemma falsy_app a u x : falsy (Some (String a u ++ x)) = falsy (Some (String a u)).
Proof. reflexivity. Qed.

Lemma configured_with_url url environ :
  url <> "" -> configured environ -> configured (with_url url environ).
Proof.
  intros Hu Hc v Hv. unfold with_url.
  destruct (String.eqb v "JIRA_URL"); [|now apply Hc].
  now exists url.
Qed.

Lemma str_mul_nonempty a n : str_mul (String a "") (S n) <> "".
Proof. discriminate. Qed.

(** X12: slashes at the end of [JIRA_URL] change nothing: a run with
    [url ++ "/" * n] is the run with [url], for a [url] that is not empty.
    A URL of slashes only is not empty either: it passes the check of the
    configuration and leaves the empty base URL. *)
Theorem trailing_slashes_ignored lib net issues environ url n st :
  (url <> "" ->
   create_jira_issues.main_on
     lib net issues (with_url (url ++ str_mul "/" n) environ) st
   = create_jira_issues.main_on lib net issues (with_url url environ) st
   /\ create_jira_issues_v2.main_on
        lib net issues (with_url (url ++ str_mul "/" n) environ) st
      = create_jira_issues_v2.main_on lib net issues (with_url url environ) st)
  /\
  (configured environ ->
   configured (with_url (str_mul "/" (S n)) environ)
   /\ base_url (with_url (str_mul "/" (S n)) environ) = "").
Proof.
  split.
  - intros Hu. destruct url as [|a u]; [congruence|].
    unfold create_jira_issues.main_on, create_jira_issues_v2.main_on,
      create_jira_issues.missing_variables,
      create_jira_issues_v2.missing_variables, with_url.
    cbn [String.eqb Ascii.eqb Bool.eqb]. cbv beta iota zeta.
    rewrite !falsy_app.
    rewrite !(rstrip_app_repeated "/" n (String a u)).
    split; reflexivity.
  - intros Hc. split.
    + apply configured_with_url; [apply str_mul_nonempty|exact Hc].
    + unfold base_url, with_url. cbn [String.eqb Ascii.eqb Bool.eqb fmt_opt].
      apply (rstrip_repeated "/" (S n)).
Qed.

Lemma trailing_slashes_ignored_witness :
  create_jira_issues_v2.main_on
    reference (Examples.net_refusing 1) [Examples.template]
    (with_url ("https://x.atlassian.net" ++ str_mul "/" 3) Examples.environ) start
  = create_jira_issues_v2.main_on
      reference (Examples.net_refusing 1) [Examples.template]
      (with_url "https://x.atlassian.net" Examples.environ) start
  /\ base_url (with_url (str_mul "/" 2) Examples.environ) = "".
Proof.
  split.
  - refine (proj2 (proj1 (trailing_slashes_ignored
                            reference (Examples.net_refusing 1)
                            [Examples.template] Examples.environ
                            "https://x.atlassian.net" 3 start) _)).
    discriminate.
  - exact (proj2 (proj2 (trailing_slashes_ignored
                           reference Examples.net_created [] Examples.environ
                           "" 1 start) configured_example)).
Defined.

(** ** A second run *)





(** ** What the lines show of a long text *)

Lemma len_app s t : len (s ++ t) = len s + len t.
Proof.
  induction s as [|a r IH]; [reflexivity|].
  cbn [String.append len]. rewrite IH. now destruct (is_cont a).
Qed.

Lemma len_slice_to s : forall n, len (slice_to n s) = Nat.min n (len s).
Proof.
  induction s as [|a r IH]; intros n; [now destruct n|].
  cbn [slice_to len]. destruct (is_cont a) eqn:Ea.
  - cbn [len]. rewrite Ea. apply IH.
  - destruct n as [|k]; [reflexivity|].
    cbn [len]. rewrite Ea, IH. reflexivity.
Qed.

Lemma slice_to_all s : forall n, len s <= n -> slice_to n s = s.
Proof.
  induction s as [|a r IH]; intros n H; [reflexivity|].
  cbn [slice_to len] in *. destruct (is_cont a).
  - now rewrite IH.
  - destruct n as [|k]; [lia|]. rewrite IH by lia. reflexivity.
Qed.

Lemma stdout_say_note lines lib req reqs st :
  stdout (say lines (note lib req (logs reqs st))) = (stdout st ++ lines)%list.
Proof. unfold note. destruct (refused lib req); reflexivity. Qed.

Lemma main_loop_first_line lib net jira_url auth_header issue rest created failed st :
  exists more,
    stdout (snd (create_jira_issues.main_loop
                   lib net jira_url auth_header (issue :: rest) created failed st))
    = (stdout st ++ creating_line issue :: more)%list.
Proof.
  destruct (yields_or_raises
              lib (attempt lib net)
              (create_jira_issues.issue_request
                 lib jira_url auth_header create_jira_issues.PROJECT_KEY)
              (issue :: rest) (List.length (sent st)))
    as [(rs & H)|(pre & issue' & post & rs & e & E & H & He)].
  - rewrite (main_loop_returns lib net jira_url auth_header (issue :: rest) rs
               created failed st _ eq_refl H).
    inversion H as [|a r answers rs' Hr Hrs Ea Ers]. subst.
    eexists. cbn [snd stdout say logs loop_lines combine flat_map
                  attempt_lines fst app]. reflexivity.
  - rewrite E.
    rewrite (main_loop_raises lib net jira_url auth_header pre rs issue' post e
               created failed st _ eq_refl H He).
    cbn [snd]. rewrite stdout_say_note.
    destruct pre as [|p pre].
    + injection E as -> _. inversion H. subst.
      eexists. cbn [loop_lines combine flat_map app]. reflexivity.
    + injection E as <- _.
      inversion H as [|a r answers rs' Hr Hrs Ea Ers]. subst.
      eexists. cbn [loop_lines combine flat_map attempt_lines fst app].
      reflexivity.
Qed.

Lemma main_loop_v2_first_line
    lib net jira_url auth_header total i issue rest created failed st :
  exists more,
    stdout (snd (create_jira_issues_v2.main_loop
                   lib net jira_url auth_header total i (issue :: rest)
                   created failed st))
    = (stdout st ++ heading_v2 total i issue :: more)%list.
Proof.
  destruct (yields_or_raises
              lib (attempt lib net)
              (create_jira_issues_v2.issue_request
                 lib jira_url auth_header create_jira_issues_v2.PROJECT_KEY)
              (issue :: rest) (List.length (sent st)))
    as [(rs & H)|(pre & issue' & post & rs & e & E & H & He)].
  - rewrite (main_loop_v2_returns lib net jira_url auth_header (issue :: rest) rs
               total i created failed st _ eq_refl H).
    inversion H as [|a r answers rs' Hr Hrs Ea Ers]. subst.
    eexists. cbn [snd stdout say logs loop_lines_v2 attempt_lines_v2 app].
    reflexivity.
  - rewrite E.
    rewrite (main_loop_v2_raises lib net jira_url auth_header pre rs issue' post e
               total i created failed st _ eq_refl H He).
    cbn [snd]. rewrite stdout_say_note.
    destruct pre as [|p pre].
    + injection E as -> _. inversion H. subst.
      eexists. cbn [loop_lines_v2 app List.length].
      rewrite Nat.add_0_r. reflexivity.
    + injection E as <- _.
      inversion H as [|a r answers rs' Hr Hrs Ea Ers]. subst.
      eexists. cbn [loop_lines_v2 attempt_lines_v2 app].
      reflexivity.
Qed.

(** X14: the line that announces an issue.  The first script shows the first
    50 code points of the summary and always adds three dots, also to a
    summary that it shows whole.  The second script shows a summary of up to
    45 code points as it is, and of a longer one the first 45 code points
    and three dots: never more than 48. *)
Theorem announcing_line_bounded
    lib net jira_url auth_header total i issue rest created failed keys st :
  (exists shown more,
      stdout (snd (create_jira_issues.main_loop
                     lib net jira_url auth_header (issue :: rest) keys failed st))
      = (stdout st ++ (nl ++ "Creating: " ++ shown ++ "...")%string :: more)%list
      /\ shown = slice_to 50 (summary issue)
      /\ len shown = Nat.min 50 (len (summary issue))
      /\ (len (summary issue) <= 50 -> shown = summary issue))
  /\
  (exists shown more,
      stdout (snd (create_jira_issues_v2.main_loop
                     lib net jira_url auth_header total i (issue :: rest)
                     created failed st))
      = (stdout st
         ++ (nl ++ "[" ++ str_of_nat i ++ "/" ++ str_of_nat total ++ "] "
             ++ shown)%string
         :: more)%list
      /\ len shown <= 48
      /\ (len (summary issue) <= 45 -> shown = summary issue)
      /\ (45 < len (summary issue) ->
          shown = slice_to 45 (summary issue) ++ "..." /\ len shown = 48)).
Proof.
  split.
  - destruct (main_loop_first_line lib net jira_url auth_header issue rest
                keys failed st) as [more E].
    exists (slice_to 50 (summary issue)), more. split; [exact E|].
    split; [reflexivity|]. split; [apply len_slice_to|apply slice_to_all].
  - destruct (main_loop_v2_first_line lib net jira_url auth_header total i issue
                rest created failed st) as [more E].
    unfold heading_v2 in E.
    assert (Hd : len "..." = 3) by reflexivity.
    destruct (Nat.ltb_spec 45 (len (summary issue))) as [Hl|Hl].
    + exists (slice_to 45 (summary issue) ++ "..."), more.
      split; [exact E|].
      assert (len (slice_to 45 (summary issue) ++ "...") = 48)
        by (rewrite len_app, len_slice_to, Hd; lia).
      repeat split; [lia|lia|assumption].
    + exists (summary issue), more.
      split; [exact E|]. repeat split; lia.
Qed.

(** X15: the line that reports a failure.  The first script prints the
    whole detail of the error; the second prints its first 100 code points
    only, so that the end of a long answer of the service is not shown. *)
Theorem failure_line_shows
    lib net jira_url auth_header total i issue created failed keys st error :
  (reports lib
     (answer (attempt lib net) st (create_jira_issues.issue_request
                       lib jira_url auth_header create_jira_issues.PROJECT_KEY
                       issue)) (Failure error) ->
   exists lines,
     stdout (snd (create_jira_issues.main_loop
                    lib net jira_url auth_header [issue] keys failed st))
     = (lines ++ [("  ✗ Failed: " ++ error)%string])%list)
  /\
  (reports lib
     (answer (attempt lib net) st (create_jira_issues_v2.issue_request
                       lib jira_url auth_header create_jira_issues_v2.PROJECT_KEY
                       issue)) (Failure error) ->
   exists lines shown,
     stdout (snd (create_jira_issues_v2.main_loop
                    lib net jira_url auth_header total i [issue]
                    created failed st))
     = (lines ++ [("  ✗ Failed: " ++ shown)%string])%list
     /\ shown = slice_to 100 error
     /\ len shown = Nat.min 100 (len error)
     /\ (len error <= 100 -> shown = error)).
Proof.
  split; intros H.
  - rewrite (main_loop_returns lib net jira_url auth_header [issue]
               [Failure error] keys failed st _ eq_refl)
      by (constructor; [exact (reports_outcome _ _ _ H)|constructor]).
    exists (stdout st ++ [creating_line issue])%list.
    cbn [snd stdout say logs loop_lines combine flat_map attempt_lines fst snd app].
    rewrite <- app_assoc. reflexivity.
  - rewrite (main_loop_v2_returns lib net jira_url auth_header [issue]
               [Failure error] total i created failed st _ eq_refl)
      by (constructor; [exact (reports_outcome _ _ _ H)|constructor]).
    exists (stdout st ++ [heading_v2 total i issue])%list, (slice_to 100 error).
    cbn [snd stdout say logs loop_lines_v2 attempt_lines_v2 app].
    rewrite <- app_assoc.
    repeat split; [apply len_slice_to|apply slice_to_all].
Qed.

Lemma failure_line_shows_witness :
  exists lines,
    stdout (snd (create_jira_issues.main_loop
                   reference (Examples.net_refusing 0)
                   Examples.url Examples.header [Examples.template] [] [] start))
    = (lines ++ [("  ✗ Failed: " ++ "400: " ++ Examples.bad_request_body)%string])%list.
Proof.
  refine (proj1 (failure_line_shows
                   reference (Examples.net_refusing 0)
                   Examples.url Examples.header 1 1 Examples.template [] [] []
                   start ("400: " ++ Examples.bad_request_body)) _).
  reports_as.
Defined.
